(** * table-comparator: a shallow embedding of [src/comparator.py]

    The development follows the Python source method by method.

    - Python strings are [string]; [needle in s] and [s.replace(needle, "")]
      are written out on characters.
    - A pandas [DataFrame] is its ordered column labels together with its
      rows, each row being the list of cell values in column order.  The
      row index is not represented ([reset_index(drop=True)] only renumbers
      it), and neither are the dtypes of derived frames, which no method
      reads; the two input tables carry their [dtypes].
    - Cell values are missing ([NaN]/[None]), integers, strings and
      booleans.  Numeric cells are exact integers: the promotion of an
      integer column to float64 that a merge performs when it introduces
      missing values is not represented, nor are Python's cross-type
      coincidences such as [1 == True].
    - The methods of [TableComparator] live in a state-and-exception monad
      over a store of frames, because the source keeps its intermediate
      frames as attributes of [self] and mutates some frames in place
      ([fillna(inplace=True)], assignment to [.columns]). *)

From Stdlib Require Import List String Ascii ZArith Bool Arith Lia Permutation.
From Stdlib Require Import DecimalString.
Import ListNotations.
Open Scope string_scope.
Open Scope list_scope.

Set Implicit Arguments.

(** ** Python strings *)

Module PyStr.

(** [s.startswith(p)] *)
Fixpoint startswith (p s : string) : bool :=
  match p, s with
  | EmptyString, _ => true
  | String a p', String b s' => if Ascii.eqb a b then startswith p' s' else false
  | String _ _, EmptyString => false
  end.

(** [p in s] *)
Fixpoint contains (p s : string) : bool :=
  startswith p s ||
  match s with
  | EmptyString => false
  | String _ s' => contains p s'
  end.

(** The scan of [s.replace(p, "")] for a non-empty [p]: [skip] counts the
    characters of the current occurrence that are still to be dropped. *)
Fixpoint remove_scan (p : string) (skip : nat) (s : string) : string :=
  match s with
  | EmptyString => EmptyString
  | String c s' =>
      match skip with
      | S k => remove_scan p k s'
      | O => if startswith p s
             then remove_scan p (String.length p - 1) s'
             else String c (remove_scan p 0 s')
      end
  end.

(** [s.replace(p, "")]: every non-overlapping occurrence of [p], found
    left to right, is deleted.  An empty [p] leaves [s] as it is. *)
Definition remove_all (p s : string) : string :=
  match p with
  | EmptyString => s
  | _ => remove_scan p 0 s
  end.

(** [sep.join(parts)] *)
Fixpoint join (sep : string) (parts : list string) : string :=
  match parts with
  | [] => EmptyString
  | [x] => x
  | x :: rest => (x ++ sep ++ join sep rest)%string
  end.

Definition nl : string := String (ascii_of_nat 10) EmptyString.

End PyStr.

(** [x in l] for a list of strings *)
Definition mem (x : string) (l : list string) : bool :=
  existsb (String.eqb x) l.

(** ** Cell values and dtypes *)

Inductive value : Type :=
| VNull
| VInt (z : Z)
| VStr (s : string)
| VBool (b : bool).

Definition value_eqb (a b : value) : bool :=
  match a, b with
  | VNull, VNull => true
  | VInt x, VInt y => Z.eqb x y
  | VStr x, VStr y => String.eqb x y
  | VBool x, VBool y => Bool.eqb x y
  | _, _ => false
  end.

Definition isna (v : value) : bool :=
  match v with VNull => true | _ => false end.

(** Elementwise [==] of pandas: a missing value on either side compares
    unequal, also to another missing value. *)
Definition py_eq (a b : value) : bool :=
  if isna a || isna b then false else value_eqb a b.

(** Equality of key tuples in [merge] and [duplicated]: missing keys match
    each other there. *)
Fixpoint key_eqb (k1 k2 : list value) : bool :=
  match k1, k2 with
  | [], [] => true
  | a :: k1', b :: k2' => value_eqb a b && key_eqb k1' k2'
  | _, _ => false
  end.

Inductive dtype : Type := int64 | float64 | object_ | bool_ | datetime64.

Definition dtype_eqb (a b : dtype) : bool :=
  match a, b with
  | int64, int64 | float64, float64 | object_, object_
  | bool_, bool_ | datetime64, datetime64 => true
  | _, _ => false
  end.

(** [dtype.type], the numpy scalar class of a dtype, and how an f-string
    prints it. *)
Inductive scalar_type : Type :=
| np_int64 | np_float64 | np_object_ | np_bool_ | np_datetime64.

Definition dtype_type (d : dtype) : scalar_type :=
  match d with
  | int64 => np_int64
  | float64 => np_float64
  | object_ => np_object_
  | bool_ => np_bool_
  | datetime64 => np_datetime64
  end.

Definition scalar_type_str (t : scalar_type) : string :=
  match t with
  | np_int64 => "<class 'numpy.int64'>"
  | np_float64 => "<class 'numpy.float64'>"
  | np_object_ => "<class 'numpy.object_'>"
  | np_bool_ => "<class 'numpy.bool_'>"
  | np_datetime64 => "<class 'numpy.datetime64'>"
  end.

(** ** Exceptions *)

Inductive exn : Type :=
| AssertionError (msg : string)
| InconsistentDataTypesError (message : string)
| KeyError (label : string)
| ValueError (msg : string)
| MergeError (msg : string)
| AttributeError (attr : string)
| ZeroDivisionError.

Inductive outcome (A : Type) : Type :=
| Ok (a : A)
| Raise (e : exn).

Arguments Ok {A} a.
Arguments Raise {A} e.

(** ** Python dicts

    Insertion ordered: assigning to a key that is present keeps its place,
    a new key goes to the end. *)

Module PyDict.

Definition t (V : Type) : Type := list (string * V).

Fixpoint set {V} (k : string) (v : V) (d : t V) : t V :=
  match d with
  | [] => [(k, v)]
  | (k', v') :: d' =>
      if String.eqb k k' then (k', v) :: d' else (k', v') :: set k v d'
  end.

Fixpoint get {V} (k : string) (d : t V) : option V :=
  match d with
  | [] => None
  | (k', v') :: d' => if String.eqb k k' then Some v' else get k d'
  end.

Definition keys {V} (d : t V) : list string := map fst d.

(** [dict(pairs)], as [Series.to_dict] builds it from (label, value) *)
Definition of_items {V} (items : list (string * V)) : t V :=
  fold_left (fun d kv => set (fst kv) (snd kv) d) items [].

End PyDict.

(** ** pandas frames *)

Record DataFrame : Type := mkDataFrame {
  columns : list string;
  rows : list (list value)
}.

(** An input table: a frame and the dtype of each of its columns. *)
Record Table : Type := mkTable {
  frame : DataFrame;
  dtypes : list dtype
}.

(** Every row has one cell per column. *)
Definition rectangular (df : DataFrame) : Prop :=
  Forall (fun r => List.length r = List.length (columns df)) (rows df).

Module Pandas.

(** All cells of [row] that sit under label [c]. *)
Fixpoint lookup_all (cols : list string) (row : list value) (c : string)
  : list value :=
  match cols, row with
  | k :: cols', v :: row' =>
      if String.eqb c k then v :: lookup_all cols' row' c
      else lookup_all cols' row' c
  | _, _ => []
  end.

(** The cell of [row] under label [c] (the first one). *)
Fixpoint cell (cols : list string) (row : list value) (c : string) : value :=
  match cols, row with
  | k :: cols', v :: row' =>
      if String.eqb c k then v else cell cols' row' c
  | _, _ => VNull
  end.

(** The first of [labels] that is not a column, if any: the label a
    [KeyError] reports. *)
Definition missing_label (labels cols : list string) : option string :=
  find (fun l => negb (mem l cols)) labels.

(** [row[labels]] for a row seen as a Series indexed by [cols]; a label
    that occurs several times in [cols] selects each occurrence. *)
Definition take_labels (cols labels : list string) (row : list value)
  : list value :=
  flat_map (lookup_all cols row) labels.

Definition series_getitem (cols labels : list string) (row : list value)
  : outcome (list value) :=
  match missing_label labels cols with
  | Some l => Raise (KeyError l)
  | None => Ok (take_labels cols labels row)
  end.

(** The labels of [df[labels]]. *)
Definition selected_labels (cols labels : list string) : list string :=
  flat_map (fun l => filter (String.eqb l) cols) labels.

(** [df[labels]] *)
Definition getitem_columns (labels : list string) (df : DataFrame)
  : outcome DataFrame :=
  match missing_label labels (columns df) with
  | Some l => Raise (KeyError l)
  | None =>
      Ok {| columns := selected_labels (columns df) labels;
            rows := map (take_labels (columns df) labels) (rows df) |}
  end.

(** [df[label]], as the list of that column's cells *)
Definition getitem_column (label : string) (df : DataFrame)
  : outcome (list value) :=
  if mem label (columns df)
  then Ok (map (fun r => cell (columns df) r label) (rows df))
  else Raise (KeyError label).

(** [series == scalar] *)
Definition series_eq_scalar (s : list value) (v : value) : list bool :=
  map (fun x => py_eq x v) s.

(** [df[mask]] for a boolean mask aligned with the rows *)
Fixpoint mask_rows {A} (mask : list bool) (l : list A) : list A :=
  match mask, l with
  | b :: mask', x :: l' => if b then x :: mask_rows mask' l' else mask_rows mask' l'
  | _, _ => []
  end.

Definition getitem_mask (mask : list bool) (df : DataFrame) : DataFrame :=
  {| columns := columns df; rows := mask_rows mask (rows df) |}.

(** [df.fillna(v)] *)
Definition fillna (v : value) (df : DataFrame) : DataFrame :=
  {| columns := columns df;
     rows := map (map (fun x => if isna x then v else x)) (rows df) |}.

(** The key tuple of a row *)
Definition key_of (cols keys : list string) (row : list value) : list value :=
  map (cell cols row) keys.

(** [df.duplicated(subset=keys)]: a row is marked when its key tuple has
    been seen in an earlier row. *)
Fixpoint duplicated_from (cols keys : list string) (seen : list (list value))
  (rs : list (list value)) : list bool :=
  match rs with
  | [] => []
  | r :: rs' =>
      let k := key_of cols keys r in
      existsb (key_eqb k) seen :: duplicated_from cols keys (k :: seen) rs'
  end.

Definition duplicated (keys : list string) (df : DataFrame) : outcome (list bool) :=
  match missing_label keys (columns df) with
  | Some l => Raise (KeyError l)
  | None => Ok (duplicated_from (columns df) keys [] (rows df))
  end.

(** [Index.duplicated()]: every occurrence but the first *)
Fixpoint index_duplicated_from (seen labels : list string) : list bool :=
  match labels with
  | [] => []
  | l :: labels' => mem l seen :: index_duplicated_from (l :: seen) labels'
  end.

Definition index_duplicated (labels : list string) : list bool :=
  index_duplicated_from [] labels.

(** *** merge

    [left.merge(right, on=keys, how="outer", indicator=True,
                suffixes=[lsuffix, rsuffix])]. *)

(** A column that is not a key and occurs on both sides gets its side's
    suffix. *)
Definition suffixed (keys other : list string) (suffix c : string) : string :=
  if mem c keys then c
  else if mem c other then (c ++ suffix)%string
  else c.

Definition nonkeys (keys cols : list string) : list string :=
  filter (fun c => negb (mem c keys)) cols.

Definition left_labels (lcols rcols keys : list string) (lsuffix : string) :=
  map (suffixed keys rcols lsuffix) lcols.

Definition right_labels (lcols rcols keys : list string) (rsuffix : string) :=
  map (suffixed keys lcols rsuffix) (nonkeys keys rcols).

(** Labels that the suffixes made collide on one side: pandas refuses
    those, and leaves alone duplicates that the input already had. *)
Definition suffix_duplicates (orig renamed : list string) : list string :=
  mask_rows
    (map (fun p => fst p && negb (snd p))
         (combine (index_duplicated renamed) (index_duplicated orig)))
    renamed.

Definition nonkey_values (cols keys : list string) (row : list value)
  : list value :=
  map (cell cols row) (nonkeys keys cols).

(** The rows that a left row contributes to the outer join: one per right
    row of equal key, or one padded with missing values when there is
    none. *)
Definition rows_of_left (l r : DataFrame) (keys : list string)
  (lrow : list value) : list (list value) :=
  match filter (fun rrow => key_eqb (key_of (columns l) keys lrow)
                                    (key_of (columns r) keys rrow))
               (rows r) with
  | [] =>
      [lrow ++ map (fun _ => VNull) (nonkeys keys (columns r))
            ++ [VStr "left_only"]]
  | ms =>
      map (fun rrow =>
             lrow ++ nonkey_values (columns r) keys rrow ++ [VStr "both"])
          ms
  end.

(** Whether no left row has the key of the right row [rrow]. *)
Definition unmatched_right (l r : DataFrame) (keys : list string)
  (rrow : list value) : bool :=
  negb (existsb (fun lrow => key_eqb (key_of (columns l) keys lrow)
                                     (key_of (columns r) keys rrow))
                (rows l)).

(** The row that an unmatched right row contributes: its key values under
    the key columns, missing values under the other left columns. *)
Definition row_of_right (l r : DataFrame) (keys : list string)
  (rrow : list value) : list value :=
  map (fun c => if mem c keys then cell (columns r) rrow c else VNull)
      (columns l)
  ++ nonkey_values (columns r) keys rrow ++ [VStr "right_only"].

(** The rows of the outer join: what the left rows contribute, in the
    left table's order, then what the unmatched right rows contribute, in
    the right table's order.  (The row order of an outer merge differs
    between pandas versions; the properties below are stated by key tuple,
    by count and per matched record.) *)
Definition merge_rows (l r : DataFrame) (keys : list string)
  : list (list value) :=
  flat_map (rows_of_left l r keys) (rows l)
  ++ map (row_of_right l r keys) (filter (unmatched_right l r keys) (rows r)).

Definition indicator_reserved : list string :=
  ["_left_indicator"; "_right_indicator"].

Definition merge_outer_indicator (l r : DataFrame) (keys : list string)
  (lsuffix rsuffix : string) : outcome DataFrame :=
  match missing_label keys (columns r), missing_label keys (columns l) with
  | Some k, _ => Raise (KeyError k)
  | None, Some k => Raise (KeyError k)
  | None, None =>
      let ll := left_labels (columns l) (columns r) keys lsuffix in
      let rl := right_labels (columns l) (columns r) keys rsuffix in
      if existsb (fun c => mem c (columns l) || mem c (columns r))
                 indicator_reserved
      then Raise (ValueError "Cannot use `indicator=True` option when data contains a column named _left_indicator or _right_indicator")
      else if mem "_merge" (columns l) || mem "_merge" (columns r)
      then Raise (ValueError "Cannot use name of an existing column for indicator column")
      else
        match suffix_duplicates (columns l) ll
              ++ suffix_duplicates (nonkeys keys (columns r)) rl with
        | _ :: _ =>
            Raise (MergeError "Passing 'suffixes' which cause duplicate columns is not allowed.")
        | [] =>
            Ok {| columns := ll ++ rl ++ ["_merge"];
                  rows := merge_rows l r keys |}
        end
  end.

(** [pd.concat(frames)] of frames that all have the first one's columns *)
Definition concat (frames : list DataFrame) : outcome DataFrame :=
  match frames with
  | [] => Raise (ValueError "No objects to concatenate")
  | f :: _ => Ok {| columns := columns f; rows := flat_map rows frames |}
  end.

(** [left == right] for two Series with a default index: the indexes have
    to be identical, so the lengths have to agree. *)
Definition series_eq (left right : list value) : outcome (list value) :=
  if Nat.eqb (List.length left) (List.length right)
  then Ok (map (fun p => VBool (py_eq (fst p) (snd p))) (combine left right))
  else Raise (ValueError "Can only compare identically-labeled Series objects").

(** [df.columns = labels] *)
Definition set_columns (labels : list string) (df : DataFrame)
  : outcome DataFrame :=
  if Nat.eqb (List.length labels) (List.length (columns df))
  then Ok {| columns := labels; rows := rows df |}
  else Raise (ValueError "Length mismatch").

End Pandas.

(** ** The comparator object and its store *)

Definition loc : Type := nat.

(** A quotient [numerator / denominator] that the source evaluates in
    floating point; the embedding keeps the two integers. *)
Record fraction : Type := mkFraction {
  numerator : nat;
  denominator : nat
}.

(** The data behind the pie chart: label, count, share of the total. *)
Definition availability_data : Type := list (string * nat * fraction).

(** The data behind the bar chart: column, share of agreeing records. *)
Definition consistency_data : Type := PyDict.t fraction.

(** The attributes of a [TableComparator].  The two input tables are only
    ever read, so they are kept by value; every frame a method creates is
    an object in the store, and an attribute holds a reference to it (or
    nothing, before the method that sets it has run). *)
Record TableComparator : Type := mkTableComparator {
  left_table : Table;
  right_table : Table;
  primary_keys : list string;
  joined : option loc;
  left_only : option loc;
  right_only : option loc;
  both : option loc;
  comparison_df : option loc;
  record_availability : option availability_data;
  record_consistency : option consistency_data
}.

Record state : Type := mkState {
  store : list DataFrame;
  self : TableComparator
}.

(** [TableComparator(left_table, right_table, primary_keys, ...)] *)
Definition init (l r : Table) (keys : list string) : state :=
  {| store := [];
     self := {| left_table := l; right_table := r; primary_keys := keys;
                joined := None; left_only := None; right_only := None;
                both := None; comparison_df := None;
                record_availability := None; record_consistency := None |} |}.

(** *** The monad of methods: state passing, with exceptions that leave the
    state as it was when they were raised. *)

Definition M (A : Type) : Type := state -> outcome A * state.

Definition ret {A} (a : A) : M A := fun s => (Ok a, s).

Definition bind {A B} (m : M A) (k : A -> M B) : M B :=
  fun s =>
    match m s with
    | (Ok a, s') => k a s'
    | (Raise e, s') => (Raise e, s')
    end.

Definition raise {A} (e : exn) : M A := fun s => (Raise e, s).

Definition lift {A} (o : outcome A) : M A := fun s => (o, s).

Declare Scope method_scope.
Delimit Scope method_scope with method.
Notation "x <- m ;; k" := (bind m (fun x => k))
  (at level 61, m at next level, right associativity) : method_scope.
Notation "m ;; k" := (bind m (fun _ => k))
  (at level 61, right associativity) : method_scope.
Open Scope method_scope.

Definition get_self : M TableComparator := fun s => (Ok (self s), s).

Definition set_self (f : TableComparator -> TableComparator) : M unit :=
  fun s => (Ok tt, {| store := store s; self := f (self s) |}).

(** [assert cond, msg] *)
Definition assert (cond : bool) (msg : string) : M unit :=
  if cond then ret tt else raise (AssertionError msg).

(** [self.<attr>] for an attribute that a method sets *)
Definition attr {A} (field : TableComparator -> option A) (name : string) : M A :=
  fun s =>
    match field (self s) with
    | Some a => (Ok a, s)
    | None => (Raise (AttributeError name), s)
    end.

Definition empty_frame : DataFrame := {| columns := []; rows := [] |}.

(** A new frame object. *)
Definition alloc (df : DataFrame) : M loc :=
  fun s => (Ok (List.length (store s)),
            {| store := store s ++ [df]; self := self s |}).

(** The frame a reference points to.  Frames are only ever added to the
    store, so a reference held by the object is never dangling. *)
Definition load (l : loc) : M DataFrame :=
  fun s => (Ok (nth l (store s) empty_frame), s).

Fixpoint replace_nth {A} (n : nat) (x : A) (l : list A) : list A :=
  match l, n with
  | [], _ => []
  | _ :: l', O => x :: l'
  | y :: l', S n' => y :: replace_nth n' x l'
  end.

(** Overwriting the frame object at [l]: what an in-place method does. *)
Definition overwrite (l : loc) (df : DataFrame) : M unit :=
  fun s => (Ok tt, {| store := replace_nth l df (store s); self := self s |}).

(** [df.copy()] *)
Definition copy (l : loc) : M loc :=
  df <- load l ;; alloc df.

(** [df.fillna(v, inplace=True)] *)
Definition fillna_inplace (l : loc) (v : value) : M unit :=
  df <- load l ;; overwrite l (Pandas.fillna v df).

(** [df.columns = labels] *)
Definition set_columns_inplace (l : loc) (labels : list string) : M unit :=
  df <- load l ;;
  df' <- lift (Pandas.set_columns labels df) ;;
  overwrite l df'.

(** ** InconsistentDataTypesError *)

Module Entry.
(** The dict [{"left_table": ..., "right_table": ...}] of one column. *)
Record t : Type := mk { left_table : scalar_type; right_table : scalar_type }.
End Entry.

Definition inconsistent_string (inconsistent_dict : PyDict.t Entry.t) : string :=
  PyStr.join PyStr.nl
    (map (fun kv =>
            ("Column name: " ++ fst kv ++ PyStr.nl ++
             "            - left_table: "
               ++ scalar_type_str (Entry.left_table (snd kv)) ++ PyStr.nl ++
             "            - right_table: "
               ++ scalar_type_str (Entry.right_table (snd kv)))%string)
         inconsistent_dict).

(** [InconsistentDataTypesError(inconsistent_dict)]: the exception keeps the
    message rendered from the dict. *)
Definition InconsistentDataTypesError_init (inconsistent_dict : PyDict.t Entry.t)
  : exn :=
  InconsistentDataTypesError
    (PyStr.nl ++ "The following columns have inconsistent data types:"
       ++ PyStr.nl ++ inconsistent_string inconsistent_dict)%string.

(** ** TableComparator.validate_data_quality *)

(** [left.columns == right.columns] and [left.dtypes == right.dtypes],
    elementwise *)
Definition index_eq (a b : list string) : list bool :=
  map (fun p => String.eqb (fst p) (snd p)) (combine a b).

Definition dtypes_eq (a b : list dtype) : list bool :=
  map (fun p => dtype_eqb (fst p) (snd p)) (combine a b).

(** [all(xs)] *)
Definition all (xs : list bool) : bool := forallb (fun b => b) xs.

(** [xs == False], elementwise *)
Definition eq_False (xs : list bool) : list bool := map (fun b => Bool.eqb b false) xs.

(** The loop of lines 60-62 over [left_inconsistent_dict.items()]. *)
Fixpoint inconsistent_loop (items : list (string * dtype))
  (left_inconsistent_dict right_inconsistent_dict : PyDict.t dtype)
  (inconsistent_dict : PyDict.t Entry.t) : outcome (PyDict.t Entry.t) :=
  match items with
  | [] => Ok inconsistent_dict
  | (key, _) :: items' =>
      match PyDict.get key left_inconsistent_dict,
            PyDict.get key right_inconsistent_dict with
      | Some l, Some r =>
          inconsistent_loop items' left_inconsistent_dict right_inconsistent_dict
            (PyDict.set key
               {| Entry.left_table := dtype_type l;
                  Entry.right_table := dtype_type r |}
               inconsistent_dict)
      | _, _ => Raise (KeyError key)
      end
  end.

(** Lines 56-62: the dict that the error is built from. *)
Definition inconsistent_dict_of (l r : Table) : outcome (PyDict.t Entry.t) :=
  let mask := eq_False (dtypes_eq (dtypes l) (dtypes r)) in
  let left_inconsistent_dict :=
    PyDict.of_items
      (Pandas.mask_rows mask (combine (columns (frame r)) (dtypes r))) in
  let right_inconsistent_dict :=
    PyDict.of_items
      (Pandas.mask_rows mask (combine (columns (frame l)) (dtypes l))) in
  inconsistent_loop left_inconsistent_dict
    left_inconsistent_dict right_inconsistent_dict [].

Definition validate_data_quality : M unit :=
  me <- get_self ;;
  let l := left_table me in
  let r := right_table me in
  assert (Nat.eqb (List.length (columns (frame l))) (List.length (columns (frame r))))
         "The tables must have the same number of columns." ;;
  assert (all (index_eq (columns (frame l)) (columns (frame r))))
         "Columns names are inconsistent." ;;
  (if Bool.eqb (all (dtypes_eq (dtypes l) (dtypes r))) false
   then
     inconsistent_dict <- lift (inconsistent_dict_of l r) ;;
     raise (InconsistentDataTypesError_init inconsistent_dict)
   else ret tt) ;;
  ldup <- lift (Pandas.duplicated (primary_keys me) (frame l)) ;;
  assert (all (eq_False ldup)) "The left table contains duplicates." ;;
  rdup <- lift (Pandas.duplicated (primary_keys me) (frame r)) ;;
  assert (all (eq_False rdup)) "The right table contains duplicates.".

(** ** TableComparator.join_tables *)

Definition join_tables : M unit :=
  me <- get_self ;;
  j <- lift (Pandas.merge_outer_indicator
               (frame (left_table me)) (frame (right_table me))
               (primary_keys me) "_left_table" "_right_table") ;;
  jl <- alloc j ;;
  set_self (fun o =>
    {| left_table := left_table o; right_table := right_table o;
       primary_keys := primary_keys o;
       joined := Some jl; left_only := left_only o; right_only := right_only o;
       both := both o; comparison_df := comparison_df o;
       record_availability := record_availability o;
       record_consistency := record_consistency o |}).

(** ** TableComparator.split_joined_table *)

(** [self.joined[self.joined["_merge"] == tag].copy(deep=True)] *)
Definition tagged_copy (tag : string) : M loc :=
  jl <- attr joined "joined" ;;
  j <- load jl ;;
  merge_column <- lift (Pandas.getitem_column "_merge" j) ;;
  selected <- alloc (Pandas.getitem_mask
                       (Pandas.series_eq_scalar merge_column (VStr tag)) j) ;;
  copy selected.

(** Lines 78-81 and 85-88: one side's records, projected on the key columns
    and the columns whose label has the side's suffix in it, that suffix
    then deleted from the labels. *)
Definition one_side (tag suffix : string) : M loc :=
  me <- get_self ;;
  side <- tagged_copy tag ;;
  df <- load side ;;
  let cols := primary_keys me
              ++ filter (PyStr.contains suffix) (columns df) in
  projected <- lift (Pandas.getitem_columns cols df) ;;
  side' <- alloc projected ;;
  df' <- load side' ;;
  set_columns_inplace side' (map (PyStr.remove_all suffix) (columns df')) ;;
  ret side'.

Definition split_joined_table : M unit :=
  lo <- one_side "left_only" "_left_table" ;;
  set_self (fun o =>
    {| left_table := left_table o; right_table := right_table o;
       primary_keys := primary_keys o;
       joined := joined o; left_only := Some lo; right_only := right_only o;
       both := both o; comparison_df := comparison_df o;
       record_availability := record_availability o;
       record_consistency := record_consistency o |}) ;;
  ro <- one_side "right_only" "_right_table" ;;
  set_self (fun o =>
    {| left_table := left_table o; right_table := right_table o;
       primary_keys := primary_keys o;
       joined := joined o; left_only := left_only o; right_only := Some ro;
       both := both o; comparison_df := comparison_df o;
       record_availability := record_availability o;
       record_consistency := record_consistency o |}) ;;
  b <- tagged_copy "both" ;;
  set_self (fun o =>
    {| left_table := left_table o; right_table := right_table o;
       primary_keys := primary_keys o;
       joined := joined o; left_only := left_only o; right_only := right_only o;
       both := Some b; comparison_df := comparison_df o;
       record_availability := record_availability o;
       record_consistency := record_consistency o |}).

(** ** TableComparator.compare_records_in_both *)

(** The labels [0 .. n-1] of a default index, as decimal strings. *)
Definition range_labels (n : nat) : list string :=
  map (fun i => NilEmpty.string_of_uint (Nat.to_uint i)) (seq 0 n).

(** The body of the loop of lines 102-110 for one row: the frame of the
    left values, the right values and their comparison, with its added
    [comparison] column. *)
Definition comparison_rows (cols left_columns right_columns : list string)
  (row : list value) : outcome DataFrame :=
  match Pandas.series_getitem cols left_columns row with
  | Raise e => Raise e
  | Ok left_row =>
      match Pandas.series_getitem cols right_columns row with
      | Raise e => Raise e
      | Ok right_row =>
          match Pandas.series_eq left_row right_row with
          | Raise e => Raise e
          | Ok result =>
              Ok {| columns := range_labels (List.length left_row) ++ ["comparison"];
                    rows := [ left_row ++ [VStr "left_table"];
                              right_row ++ [VStr "right_table"];
                              result ++ [VStr "comparison_result"] ] |}
          end
      end
  end.

(** The loop itself: it stops at the first row that raises. *)
Fixpoint comparison_loop (cols left_columns right_columns : list string)
  (rs : list (list value)) : outcome (list DataFrame) :=
  match rs with
  | [] => Ok []
  | row :: rs' =>
      match comparison_rows cols left_columns right_columns row with
      | Raise e => Raise e
      | Ok df =>
          match comparison_loop cols left_columns right_columns rs' with
          | Raise e => Raise e
          | Ok dfs => Ok (df :: dfs)
          end
      end
  end.

Definition compare_records_in_both : M unit :=
  me <- get_self ;;
  bl <- attr both "both" ;;
  self_both <- load bl ;;
  let left_columns :=
    primary_keys me
    ++ filter (PyStr.contains "_left_table") (columns self_both) in
  let right_columns :=
    primary_keys me
    ++ filter (PyStr.contains "_right_table") (columns self_both) in
  without_merge <-
    lift (Pandas.getitem_columns
            (filter (fun c => negb (String.eqb c "_merge")) (columns self_both))
            self_both) ;;
  selected <- alloc without_merge ;;
  both_copy <- copy selected ;;
  fillna_inplace both_copy (VStr "") ;;
  filled <- load both_copy ;;
  comparison_df_list <-
    lift (comparison_loop (columns filled) left_columns right_columns
            (rows filled)) ;;
  concatenated <- lift (Pandas.concat comparison_df_list) ;;
  cl <- alloc concatenated ;;
  set_columns_inplace cl (columns (frame (left_table me)) ++ ["comparison"]) ;;
  relabelled <- load cl ;;
  reordered <-
    lift (Pandas.getitem_columns
            (["comparison"] ++ columns (frame (left_table me))) relabelled) ;;
  rl <- alloc reordered ;;
  final <- copy rl ;;
  set_self (fun o =>
    {| left_table := left_table o; right_table := right_table o;
       primary_keys := primary_keys o;
       joined := joined o; left_only := left_only o; right_only := right_only o;
       both := both o; comparison_df := Some final;
       record_availability := record_availability o;
       record_consistency := record_consistency o |}).

(** ** TableComparator.prepare_results *)

Definition prepare_results : M unit :=
  validate_data_quality ;;
  join_tables ;;
  split_joined_table ;;
  compare_records_in_both.

(** ** TableComparator.visualize_record_availability

    Only the data handed to the plotting library is represented.  The
    counts are listed in the order of the categories of the [_merge]
    column; [value_counts] orders them by frequency, which no claim
    depends on. *)

Definition count_tag (tag : string) (merge_column : list value) : nat :=
  List.length (filter (fun v => py_eq v (VStr tag)) merge_column).

Definition value_counts (merge_column : list value) : list (string * nat) :=
  map (fun tag => (tag, count_tag tag merge_column))
      ["left_only"; "right_only"; "both"].

Definition replace_label (tag : string) : string :=
  if String.eqb tag "left_only" then "Tylko w lewej"
  else if String.eqb tag "right_only" then "Tylko w prawej"
  else if String.eqb tag "both" then "W obu"
  else tag.

Definition visualize_record_availability : M unit :=
  jl <- attr joined "joined" ;;
  j <- load jl ;;
  merge_column <- lift (Pandas.getitem_column "_merge" j) ;;
  let merge_counts := value_counts merge_column in
  let total := list_sum (map snd merge_counts) in
  let fig :=
    map (fun tc => (replace_label (fst tc), snd tc,
                    {| numerator := snd tc; denominator := total |}))
        merge_counts in
  set_self (fun o =>
    {| left_table := left_table o; right_table := right_table o;
       primary_keys := primary_keys o;
       joined := joined o; left_only := left_only o; right_only := right_only o;
       both := both o; comparison_df := comparison_df o;
       record_availability := Some fig;
       record_consistency := record_consistency o |}).

(** ** TableComparator.visualize_record_consistency *)

(** The loop of lines 148-149: Python's [/] on two ints raises on a zero
    divisor. *)
Fixpoint consistency_loop (cols : list string) (comparison_result : DataFrame)
  (records_consistency : consistency_data) : outcome consistency_data :=
  match cols with
  | [] => Ok records_consistency
  | column :: cols' =>
      match Pandas.getitem_column column comparison_result with
      | Raise e => Raise e
      | Ok flags =>
          let agreeing :=
            List.length (filter (fun v => py_eq v (VBool true)) flags) in
          let total := List.length (rows comparison_result) in
          match total with
          | O => Raise ZeroDivisionError
          | S _ =>
              consistency_loop cols' comparison_result
                (PyDict.set column
                   {| numerator := agreeing; denominator := total |}
                   records_consistency)
          end
      end
  end.

Definition visualize_record_consistency : M unit :=
  me <- get_self ;;
  cl <- attr comparison_df "comparison_df" ;;
  c <- load cl ;;
  kind <- lift (Pandas.getitem_column "comparison" c) ;;
  let comparison_result :=
    Pandas.getitem_mask
      (Pandas.series_eq_scalar kind (VStr "comparison_result")) c in
  let cols :=
    filter (fun column => negb (mem column (["comparison"] ++ primary_keys me)))
           (columns comparison_result) in
  records_consistency <- lift (consistency_loop cols comparison_result []) ;;
  set_self (fun o =>
    {| left_table := left_table o; right_table := right_table o;
       primary_keys := primary_keys o;
       joined := joined o; left_only := left_only o; right_only := right_only o;
       both := both o; comparison_df := comparison_df o;
       record_availability := record_availability o;
       record_consistency := Some records_consistency |}).

Definition visualize_results : M unit :=
  visualize_record_availability ;;
  visualize_record_consistency.

(** The body of the loop of [runner.main], up to the point where the
    results are written out. *)
Definition run_comparison : M unit :=
  prepare_results ;;
  visualize_results.

(** ** Concrete inputs *)

Module Ex.

(** Same labels, in another order; one dtype differs as well. *)
Definition swapped_left : Table :=
  {| frame := {| columns := ["id"; "name"];
                 rows := [[VInt 1; VStr "ann"]] |};
     dtypes := [int64; object_] |}.

Definition swapped_right : Table :=
  {| frame := {| columns := ["name"; "id"];
                 rows := [[VStr "ann"; VInt 1]] |};
     dtypes := [object_; object_] |}.

(** The spec's example for the dtype check: [age] is an integer column
    on the left and a text column on the right. *)
Definition typed_left : Table :=
  {| frame := {| columns := ["id"; "name"; "age"];
                 rows := [[VInt 1; VStr "ann"; VInt 30]] |};
     dtypes := [int64; object_; int64] |}.

Definition typed_right : Table :=
  {| frame := {| columns := ["id"; "name"; "age"];
                 rows := [[VInt 1; VStr "ann"; VStr "30"]] |};
     dtypes := [int64; object_; object_] |}.

(** The primary key is the second column. *)
Definition trailing_key_left : Table :=
  {| frame := {| columns := ["name"; "id"];
                 rows := [[VStr "a"; VInt 1]] |};
     dtypes := [object_; int64] |}.

Definition trailing_key_right : Table :=
  {| frame := {| columns := ["name"; "id"];
                 rows := [[VStr "b"; VInt 1]] |};
     dtypes := [object_; int64] |}.

(** A column whose own label has the left suffix in it. *)
Definition marked_left : Table :=
  {| frame := {| columns := ["id"; "x_left_table"];
                 rows := [[VInt 1; VStr "a"]] |};
     dtypes := [int64; object_] |}.

Definition marked_right : Table :=
  {| frame := {| columns := ["id"; "x_left_table"];
                 rows := [[VInt 2; VStr "b"]] |};
     dtypes := [int64; object_] |}.

(** The spec's end-to-end scenario. *)
Definition scenario_left : Table :=
  {| frame := {| columns := ["id"; "v"];
                 rows := [[VInt 1; VStr "a"]; [VInt 2; VStr "b"]] |};
     dtypes := [int64; object_] |}.

Definition scenario_right : Table :=
  {| frame := {| columns := ["id"; "v"];
                 rows := [[VInt 2; VStr "b"]; [VInt 3; VStr "c"]] |};
     dtypes := [int64; object_] |}.

(** No key in common. *)
Definition disjoint_left : Table :=
  {| frame := {| columns := ["id"; "v"];
                 rows := [[VInt 1; VStr "a"]] |};
     dtypes := [int64; object_] |}.

Definition disjoint_right : Table :=
  {| frame := {| columns := ["id"; "v"];
                 rows := [[VInt 3; VStr "c"]] |};
     dtypes := [int64; object_] |}.

(** A header without rows. *)
Definition header_only : Table :=
  {| frame := {| columns := ["id"; "v"]; rows := [] |};
     dtypes := [object_; object_] |}.

(** A column that is missing in a matched record on both sides. *)
Definition with_nulls_left : Table :=
  {| frame := {| columns := ["id"; "v"; "w"];
                 rows := [[VInt 1; VNull; VStr "p"]; [VInt 2; VStr "b"; VNull]] |};
     dtypes := [int64; object_; object_] |}.

Definition with_nulls_right : Table :=
  {| frame := {| columns := ["id"; "v"; "w"];
                 rows := [[VInt 1; VNull; VStr "q"]] |};
     dtypes := [int64; object_; object_] |}.

(** The joined frame of the two tables above, and its matched part. *)
Definition with_nulls_joined : DataFrame :=
  {| columns := ["id"; "v_left_table"; "w_left_table";
                 "v_right_table"; "w_right_table"; "_merge"];
     rows := [[VInt 1; VNull; VStr "p"; VNull; VStr "q"; VStr "both"];
              [VInt 2; VStr "b"; VNull; VNull; VNull; VStr "left_only"]] |}.

Definition with_nulls_both : DataFrame :=
  {| columns := ["id"; "v_left_table"; "w_left_table";
                 "v_right_table"; "w_right_table"; "_merge"];
     rows := [[VInt 1; VNull; VStr "p"; VNull; VStr "q"; VStr "both"]] |}.

End Ex.

(** The frame behind an attribute of the comparator. *)
Definition frame_of (field : TableComparator -> option loc) (s : state)
  : option DataFrame :=
  match field (self s) with
  | Some l => nth_error (store s) l
  | None => None
  end.

(** The methods up to and including the partition step. *)
Definition join_and_split : M unit :=
  validate_data_quality ;;
  join_tables ;;
  split_joined_table.

(** *** What the partition step computes, as functions of the joined frame *)

(** [joined[joined["_merge"] == tag]] *)
Definition tagged (tag : string) (j : DataFrame) : DataFrame :=
  Pandas.getitem_mask
    (Pandas.series_eq_scalar
       (map (fun r => Pandas.cell (columns j) r "_merge") (rows j)) (VStr tag))
    j.

(** The labels selected for one side (lines 79 and 86). *)
Definition side_labels (suffix : string) (keys : list string) (j : DataFrame)
  : list string :=
  keys ++ filter (PyStr.contains suffix) (columns j).

(** The frame stored as [left_only] or [right_only]. *)
Definition side_frame (tag suffix : string) (keys : list string) (j : DataFrame)
  : DataFrame :=
  {| columns :=
       map (PyStr.remove_all suffix)
           (Pandas.selected_labels (columns j) (side_labels suffix keys j));
     rows :=
       map (Pandas.take_labels (columns j) (side_labels suffix keys j))
           (rows (tagged tag j)) |}.

(** The state in which the partition step leaves a fresh comparator whose
    join produced [j]. *)
Definition split_state (l r : Table) (keys : list string) (j : DataFrame)
  : state :=
  {| store :=
       [ j;
         tagged "left_only" j; tagged "left_only" j;
         side_frame "left_only" "_left_table" keys j;
         tagged "right_only" j; tagged "right_only" j;
         side_frame "right_only" "_right_table" keys j;
         tagged "both" j; tagged "both" j ];
     self := {| left_table := l; right_table := r; primary_keys := keys;
                joined := Some 0; left_only := Some 3; right_only := Some 6;
                both := Some 8; comparison_df := None;
                record_availability := None; record_consistency := None |} |}.

(** The key tuples of a table, row by row. *)
Definition key_tuples (keys : list string) (df : DataFrame) : list (list value) :=
  map (Pandas.key_of (columns df) keys) (rows df).

(** [k in ks] for key tuples *)
Definition key_mem (k : list value) (ks : list (list value)) : bool :=
  existsb (key_eqb k) ks.

(** The number of key tuples of the left table that the right table has
    too. *)
Definition shared_keys (keys : list string) (l r : DataFrame) : nat :=
  List.length
    (filter (fun k => key_mem k (key_tuples keys r)) (key_tuples keys l)).

(** Whether a row of the joined frame [j] carries [tag] in its [_merge]
    cell. *)
Definition is_tagged (j : DataFrame) (tag : string) (row : list value) : bool :=
  py_eq (Pandas.cell (columns j) row "_merge") (VStr tag).

(** Whether some right row has the key of the left row [lrow]. *)
Definition matched_left (l r : DataFrame) (keys : list string)
  (lrow : list value) : bool :=
  key_mem (Pandas.key_of (columns l) keys lrow) (key_tuples keys r).

(** *** The store: what a method may overwrite *)

(** [keeps n s s']: every object of [s] below address [n] is the same
    object in [s'], and the store has not shrunk below [n]. *)
Definition keeps (n : nat) (s s' : state) : Prop :=
  n <= List.length (store s') /\
  forall l, l < n -> nth_error (store s') l = nth_error (store s) l.

(** The attribute fields a method other than their own setter leaves alone. *)
Definition same_partition_refs (s s' : state) : Prop :=
  joined (self s') = joined (self s) /\
  left_only (self s') = left_only (self s) /\
  right_only (self s') = right_only (self s) /\
  both (self s') = both (self s).

(** [frame_safe n m post]: run from any store of at least [n] objects, the
    method [m] keeps the objects below [n] and the partition attributes,
    whether it returns or raises; what it returns satisfies [post]. *)
Definition frame_safe {A} (n : nat) (m : M A) (post : A -> Prop) : Prop :=
  forall s, n <= List.length (store s) ->
    keeps n s (snd (m s)) /\
    same_partition_refs s (snd (m s)) /\
    (forall a, fst (m s) = Ok a -> post a).

(** *** What passing validation means, and what a successful merge means *)

Record validated (l r : Table) (keys : list string) : Prop := {
  same_columns : columns (frame l) = columns (frame r);
  same_dtypes : all (dtypes_eq (dtypes l) (dtypes r)) = true;
  keys_present : incl keys (columns (frame l));
  left_unique :
    all (eq_False (Pandas.duplicated_from (columns (frame l)) keys []
                     (rows (frame l)))) = true;
  right_unique :
    all (eq_False (Pandas.duplicated_from (columns (frame r)) keys []
                     (rows (frame r)))) = true
}.

Record merged (l r : DataFrame) (keys : list string) (j : DataFrame) : Prop := {
  merged_columns :
    columns j
    = Pandas.left_labels (columns l) (columns r) keys "_left_table"
      ++ Pandas.right_labels (columns l) (columns r) keys "_right_table"
      ++ ["_merge"];
  merged_rows : rows j = Pandas.merge_rows l r keys;
  merged_keys_left : incl keys (columns l);
  merged_keys_right : incl keys (columns r);
  merged_no_indicator_left : ~ In "_merge" (columns l);
  merged_no_indicator_right : ~ In "_merge" (columns r);
  merged_no_suffix_duplicates :
    Pandas.suffix_duplicates (columns l)
      (Pandas.left_labels (columns l) (columns r) keys "_left_table") = [] /\
    Pandas.suffix_duplicates (Pandas.nonkeys keys (columns r))
      (Pandas.right_labels (columns l) (columns r) keys "_right_table") = []
}.

(** *** Labels that stay clear of what the join and the comparison add *)

(** [s[n:]] *)
Fixpoint string_drop (n : nat) (s : string) : string :=
  match n, s with
  | O, _ => s
  | S n', String _ s' => string_drop n' s'
  | S _, EmptyString => EmptyString
  end.

(** Whether an occurrence of [p] can begin in front of [q] and end inside
    it: some proper, non-empty tail of [p] starts [q]. *)
Definition straddles (p q : string) : bool :=
  existsb (fun n => PyStr.startswith (string_drop n p) q)
          (seq 1 (String.length p - 1)).

(** The labels that the join and the comparison introduce themselves. *)
Definition reserved_labels : list string :=
  ["_merge"; "_left_indicator"; "_right_indicator"; "comparison"].

(** A label that contains neither suffix and is not reserved. *)
Definition plain_label (c : string) : bool :=
  negb (PyStr.contains "_left_table" c)
  && negb (PyStr.contains "_right_table" c)
  && negb (mem c reserved_labels).

(** The standing assumptions on the inputs of the pipeline: both tables are
    rectangular frames, the column labels are pairwise different and plain,
    and the primary key lists each of its columns once. *)
Record well_formed (l r : Table) (keys : list string) : Prop := {
  wf_left_rectangular : rectangular (frame l);
  wf_right_rectangular : rectangular (frame r);
  wf_columns_unique : NoDup (columns (frame l));
  wf_columns_plain : forallb plain_label (columns (frame l)) = true;
  wf_keys_unique : NoDup keys
}.

(** *** What the field comparison computes, as functions of the matched
    records *)

(** What [fillna("")] makes of a cell. *)
Definition filled (v : value) : value := if isna v then VStr "" else v.

(** The labels under which line 95 (line 96) looks up the left (right)
    values of a matched record, when the input labels are plain. *)
Definition left_columns_of (keys cols : list string) : list string :=
  keys ++ map (fun c => (c ++ "_left_table")%string) (Pandas.nonkeys keys cols).

Definition right_columns_of (keys cols : list string) : list string :=
  keys ++ map (fun c => (c ++ "_right_table")%string) (Pandas.nonkeys keys cols).

(** The left values, the right values and the flags of one matched record
    [brow] of a frame with columns [jcols]. *)
Definition left_values (jcols keys cols : list string) (brow : list value)
  : list value :=
  map (fun c => filled (Pandas.cell jcols brow c)) (left_columns_of keys cols).

Definition right_values (jcols keys cols : list string) (brow : list value)
  : list value :=
  map (fun c => filled (Pandas.cell jcols brow c)) (right_columns_of keys cols).

Definition flags (lv rv : list value) : list value :=
  map (fun p => VBool (py_eq (fst p) (snd p))) (combine lv rv).

(** The three rows of the comparison frame for one matched record. *)
Definition record_rows (jcols keys cols : list string) (brow : list value)
  : list (list value) :=
  let lv := left_values jcols keys cols brow in
  let rv := right_values jcols keys cols brow in
  [ VStr "left_table" :: lv;
    VStr "right_table" :: rv;
    VStr "comparison_result" :: flags lv rv ].

(** The comparison frame for the matched records [b]. *)
Definition comparison_of (keys cols : list string) (b : DataFrame) : DataFrame :=
  {| columns := "comparison" :: cols;
     rows := flat_map (record_rows (columns b) keys cols) (rows b) |}.

(** The comparator after [compare_records_in_both] has stored a frame at
    address [c]. *)
Definition with_comparison (o : TableComparator) (c : loc) : TableComparator :=
  {| left_table := left_table o; right_table := right_table o;
     primary_keys := primary_keys o;
     joined := joined o; left_only := left_only o; right_only := right_only o;
     both := both o; comparison_df := Some c;
     record_availability := record_availability o;
     record_consistency := record_consistency o |}.

(** The frame that the merge returns for two tables with the columns
    [cols], when it accepts them. *)
Definition joined_frame (l r : DataFrame) (keys : list string) : DataFrame :=
  {| columns :=
       Pandas.left_labels (columns l) (columns r) keys "_left_table"
       ++ Pandas.right_labels (columns l) (columns r) keys "_right_table"
       ++ ["_merge"];
     rows := Pandas.merge_rows l r keys |}.

(** Line 98: the matched records [b] without their [_merge] cell. *)
Definition without_merge_frame (keys cols : list string) (b : DataFrame)
  : DataFrame :=
  let body :=
    Pandas.left_labels cols cols keys "_left_table"
    ++ Pandas.right_labels cols cols keys "_right_table" in
  {| columns := body;
     rows := map (fun row => map (Pandas.cell (body ++ ["_merge"]) row) body)
                 (rows b) |}.

(** The frame of one record before line 113 relabels it. *)
Definition unlabelled_record (jcols keys cols : list string) (brow : list value)
  : DataFrame :=
  {| columns := range_labels (List.length cols) ++ ["comparison"];
     rows :=
       [ left_values jcols keys cols brow ++ [VStr "left_table"];
         right_values jcols keys cols brow ++ [VStr "right_table"];
         flags (left_values jcols keys cols brow)
               (right_values jcols keys cols brow)
         ++ [VStr "comparison_result"] ] |}.

(** The rows [rs] of a table with columns [cols], restricted to the key
    columns followed by the other columns. *)
Definition slice (keys cols : list string) (rs : list (list value)) : DataFrame :=
  {| columns := keys ++ Pandas.nonkeys keys cols;
     rows := map (fun row =>
                    map (Pandas.cell cols row) (keys ++ Pandas.nonkeys keys cols))
                 rs |}.

(** *** The columns whose dtypes differ *)

(** The columns of two tables with the same labels whose dtypes differ,
    each with the left table's and the right table's dtype. *)
Definition mismatches (l r : Table) : list (string * (dtype * dtype)) :=
  filter (fun t => negb (dtype_eqb (fst (snd t)) (snd (snd t))))
         (combine (columns (frame l)) (combine (dtypes l) (dtypes r))).

(** ** TableComparator.return_results

    The plotting and spreadsheet libraries are outside the program: a call
    of [write_image] or [to_excel] is recorded as the file it writes, and is
    taken to succeed.  [os.path.join] is left to the platform. *)

(** What a result file holds. *)
Inductive artifact : Type :=
| PieChart (data : availability_data)
| BarChart (data : consistency_data)
| Sheet (df : DataFrame).

(** A file written: its path and its content. *)
Definition written : Type := (string * artifact)%type.

(** Lines 168-173.  Each statement reads its attribute of [self] before it
    writes, so a missing attribute raises with the files of the earlier
    statements already written. *)
Definition return_results (path_join : string -> string -> string)
  (result_path : string) (s : state) : list written * outcome unit :=
  match record_availability (self s) with
  | None => ([], Raise (AttributeError "record_availability"))
  | Some pie =>
      let w1 := (path_join result_path "record_availability.png", PieChart pie) in
      match record_consistency (self s) with
      | None => ([w1], Raise (AttributeError "record_consistency"))
      | Some bar =>
          let w2 := (path_join result_path "record_consistency.png", BarChart bar) in
          match left_only (self s) with
          | None => ([w1; w2], Raise (AttributeError "left_only"))
          | Some lo =>
              let w3 := (path_join result_path "left_only.xlsx",
                         Sheet (nth lo (store s) empty_frame)) in
              match right_only (self s) with
              | None => ([w1; w2; w3], Raise (AttributeError "right_only"))
              | Some ro =>
                  let w4 := (path_join result_path "right_only.xlsx",
                             Sheet (nth ro (store s) empty_frame)) in
                  match comparison_df (self s) with
                  | None =>
                      ([w1; w2; w3; w4], Raise (AttributeError "comparison_df"))
                  | Some c =>
                      let w5 := (path_join result_path "comparison_df.xlsx",
                                 Sheet (nth c (store s) empty_frame)) in
                      ([w1; w2; w3; w4; w5], Ok tt)
                  end
              end
          end
      end
  end.

(** ** runner.py *)

(** [s.split(sep)] for a separator of one character: the pieces between
    the occurrences of [sep], empty pieces included, so there is always at
    least one piece. *)
Fixpoint str_split (sep : ascii) (s : string) : list string :=
  match s with
  | EmptyString => [EmptyString]
  | String c s' =>
      if Ascii.eqb c sep then EmptyString :: str_split sep s'
      else match str_split sep s' with
           | piece :: pieces => String c piece :: pieces
           | [] => [String c EmptyString]
           end
  end.

(** [xs[-1]] for a list that is not empty, as the results of [split] are. *)
Definition last_piece (xs : list string) : string := last xs EmptyString.

Definition dot : ascii := "."%char.
Definition comma : ascii := ","%char.

(** The exceptions of the runner: its own, and whatever the reader or the
    comparator raises. *)
Inductive runner_exn : Type :=
| ExtensionsNotMatchingError (message : string)
| Propagated (e : exn).

Inductive result (A : Type) : Type :=
| Returned (a : A)
| Raised (e : runner_exn).

Arguments Returned {A} a.
Arguments Raised {A} e.

Definition retrieve_extension (left_table_path right_table_path : string)
  : result string :=
  if String.eqb (last_piece (str_split dot left_table_path))
                (last_piece (str_split dot right_table_path))
  then Returned (last_piece (str_split dot right_table_path))
  else Raised (ExtensionsNotMatchingError
                 "The tables that you specified have different extensions.").

(** What the user enters in the dialogs and at the prompts of
    [get_user_input].  The delimiter is only asked for when the extension
    is [csv] or [txt]. *)
Record answers : Type := mkAnswers {
  left_path_answer : string;
  right_path_answer : string;
  delimiter_answer : string;
  result_path_answer : string;
  primary_keys_answer : string
}.

(** The tuple that [get_user_input] returns. *)
Record user_input : Type := mkUserInput {
  input_left_table_path : string;
  input_right_table_path : string;
  input_extension : string;
  input_delimiter : option string;
  input_primary_keys : list string;
  input_result_path : string
}.

Definition get_user_input (a : answers) : result user_input :=
  match retrieve_extension (left_path_answer a) (right_path_answer a) with
  | Raised e => Raised e
  | Returned extension =>
      let delimiter :=
        if mem extension ["csv"; "txt"] then Some (delimiter_answer a)
        else None in
      Returned
        {| input_left_table_path := left_path_answer a;
           input_right_table_path := right_path_answer a;
           input_extension := extension;
           input_delimiter := delimiter;
           input_primary_keys := str_split comma (primary_keys_answer a);
           input_result_path := result_path_answer a |}
  end.

(** *** TableReader (comparator.py, lines 19-36) *)

Module Reader.

(** The attributes of a [TableReader]; the two tables exist only after
    [read] has set them. *)
Record t : Type := mk {
  left_table_path : string;
  right_table_path : string;
  extension : string;
  delimiter : option string;
  left_table : option Table;
  right_table : option Table
}.

(** [TableReader(left_table_path, right_table_path, extension, delimiter)] *)
Definition init (left_path right_path ext : string) (delim : option string) : t :=
  {| left_table_path := left_path; right_table_path := right_path;
     extension := ext; delimiter := delim;
     left_table := None; right_table := None |}.

Definition set_left (rd : t) (tbl : Table) : t :=
  {| left_table_path := left_table_path rd;
     right_table_path := right_table_path rd;
     extension := extension rd; delimiter := delimiter rd;
     left_table := Some tbl; right_table := right_table rd |}.

Definition set_right (rd : t) (tbl : Table) : t :=
  {| left_table_path := left_table_path rd;
     right_table_path := right_table_path rd;
     extension := extension rd; delimiter := delimiter rd;
     left_table := left_table rd; right_table := Some tbl |}.

(** One branch of [read]: the left file is loaded and stored, then the
    right one; an exception of the loader leaves what has been stored. *)
Definition load_both (load : string -> outcome Table) (rd : t)
  : outcome unit * t :=
  match load (left_table_path rd) with
  | Raise e => (Raise e, rd)
  | Ok l =>
      let rd1 := set_left rd l in
      match load (right_table_path rd1) with
      | Raise e => (Raise e, rd1)
      | Ok r => (Ok tt, set_right rd1 r)
      end
  end.

(** [read]: two [if] statements in a row, the first for [xlsx], the second
    for [csv] and [txt]; any other extension falls through both.
    [pd.read_excel] and [pd.read_csv] are the loaders given. *)
Definition read
  (read_excel : string -> outcome Table)
  (read_csv : string -> option string -> outcome Table)
  (rd : t) : outcome unit * t :=
  let after_xlsx :=
    if String.eqb (extension rd) "xlsx" then load_both read_excel rd
    else (Ok tt, rd) in
  match after_xlsx with
  | (Raise e, rd1) => (Raise e, rd1)
  | (Ok _, rd1) =>
      if mem (extension rd1) ["csv"; "txt"]
      then load_both (fun path => read_csv path (delimiter rd1)) rd1
      else (Ok tt, rd1)
  end.

End Reader.

(** *** One pass of the loop of [main] (runner.py, lines 51-61)

    From the answers of the user to the files written.  The console
    messages and the question whether to run again are left out. *)

Definition lift_outcome {A} (o : outcome A) : result A :=
  match o with
  | Ok a => Returned a
  | Raise e => Raised (Propagated e)
  end.

Definition main_pass
  (read_excel : string -> outcome Table)
  (read_csv : string -> option string -> outcome Table)
  (path_join : string -> string -> string)
  (a : answers) : list written * result unit :=
  match get_user_input a with
  | Raised e => ([], Raised e)
  | Returned inp =>
      let reader :=
        Reader.init (input_left_table_path inp) (input_right_table_path inp)
                    (input_extension inp) (input_delimiter inp) in
      match Reader.read read_excel read_csv reader with
      | (Raise e, _) => ([], Raised (Propagated e))
      | (Ok _, reader') =>
          match Reader.left_table reader' with
          | None => ([], Raised (Propagated (AttributeError "left_table")))
          | Some l =>
              match Reader.right_table reader' with
              | None => ([], Raised (Propagated (AttributeError "right_table")))
              | Some r =>
                  let comparator := init l r (input_primary_keys inp) in
                  match prepare_results comparator with
                  | (Raise e, _) => ([], Raised (Propagated e))
                  | (Ok _, s1) =>
                      match visualize_results s1 with
                      | (Raise e, _) => ([], Raised (Propagated e))
                      | (Ok _, s2) =>
                          let (files, o) :=
                            return_results path_join (input_result_path inp) s2 in
                          (files, lift_outcome o)
                      end
                  end
              end
          end
      end
  end.

(** *** What the two charts are drawn from, as functions of the frames *)

(** The data of the pie chart of a joined frame [j]: for each tag its
    label on the chart, the number of records that carry it, and that
    number over the number of joined records. *)
Definition availability_of (j : DataFrame) : availability_data :=
  map (fun tl =>
         (snd tl, List.length (rows (tagged (fst tl) j)),
          {| numerator := List.length (rows (tagged (fst tl) j));
             denominator := List.length (rows j) |}))
      [ ("left_only", "Tylko w lewej");
        ("right_only", "Tylko w prawej");
        ("both", "W obu") ].

(** The [comparison_result] row of a matched record. *)
Definition result_row (jcols keys cols : list string) (brow : list value)
  : list value :=
  VStr "comparison_result"
  :: flags (left_values jcols keys cols brow)
           (right_values jcols keys cols brow).

(** The number of matched records [b] whose [comparison_result] row shows
    [True] under the label [column] of the comparison frame. *)
Definition agreement (keys cols : list string) (b : DataFrame)
  (column : string) : nat :=
  List.length
    (filter (fun brow =>
               py_eq (Pandas.cell ("comparison" :: cols)
                        (result_row (columns b) keys cols brow) column)
                     (VBool true))
            (rows b)).

(** The data of the bar chart: for each column that is not a key, the
    number of agreeing records over the number of matched records. *)
Definition consistency_of (keys cols : list string) (b : DataFrame)
  : consistency_data :=
  map (fun column =>
         (column, {| numerator := agreement keys cols b column;
                     denominator := List.length (rows b) |}))
      (Pandas.nonkeys keys cols).

(** The comparator after the two charts have been prepared. *)
Definition with_charts (o : TableComparator)
  (pie : availability_data) (bar : consistency_data) : TableComparator :=
  {| left_table := left_table o; right_table := right_table o;
     primary_keys := primary_keys o;
     joined := joined o; left_only := left_only o; right_only := right_only o;
     both := both o; comparison_df := comparison_df o;
     record_availability := Some pie;
     record_consistency := Some bar |}.

(** Whether the matched record [brow] has the same value in the column
    [col] on both sides, a missing value counting as the empty string. *)
Definition same_when_filled (jcols : list string) (col : string)
  (brow : list value) : bool :=
  value_eqb (filled (Pandas.cell jcols brow (col ++ "_left_table")))
            (filled (Pandas.cell jcols brow (col ++ "_right_table"))).

(** *** The five result files *)

Definition result_files (path_join : string -> string -> string)
  (result_path : string) (pie : availability_data) (bar : consistency_data)
  (lo ro c : DataFrame) : list written :=
  [ (path_join result_path "record_availability.png", PieChart pie);
    (path_join result_path "record_consistency.png", BarChart bar);
    (path_join result_path "left_only.xlsx", Sheet lo);
    (path_join result_path "right_only.xlsx", Sheet ro);
    (path_join result_path "comparison_df.xlsx", Sheet c) ].

(** A character that is not in a string. *)
Definition free_of (c : ascii) (s : string) : Prop := ~ In c (list_ascii_of_string s).

(** *** Which attributes a method leaves set *)

(** The attributes that [return_results] reads are all set. *)
Definition results_ready (o : TableComparator) : Prop :=
  record_availability o <> None /\
  record_consistency o <> None /\
  left_only o <> None /\
  right_only o <> None /\
  comparison_df o <> None.

(** A method that never assigns to an attribute of [self]. *)
Definition self_kept {A} (m : M A) : Prop :=
  forall s, self (snd (m s)) = self s.

(** Started on a comparator that satisfies [P], the method [m] leaves one
    that satisfies [Q] whenever it returns. *)
Definition establishes {A} (P : TableComparator -> Prop) (m : M A)
  (Q : TableComparator -> Prop) : Prop :=
  forall s a s', P (self s) -> m s = (Ok a, s') -> Q (self s').

(** *** Frames up to the order of their rows

    The order in which an outer merge returns its rows is not fixed by the
    source; what is said about a frame that is cut from the joined frame is
    said up to that order. *)
Definition same_records (a b : DataFrame) : Prop :=
  columns a = columns b /\ Permutation (rows a) (rows b).

(** Two lists with the same entries, whatever their order. *)
Definition same_entries {A} (a b : list A) : Prop :=
  List.length a = List.length b /\ forall x, In x a <-> In x b.

(** * Properties *)

(** ** Schema validation *)

Lemma all_index_eq (a b : list string) :
  List.length a = List.length b -> all (index_eq a b) = true -> a = b.
Proof.
  revert b; induction a as [|x a IH]; intros [|y b] Hlen Hall;
    simpl in *; try discriminate; auto.
  apply andb_true_iff in Hall as [Hxy Hrest].
  apply String.eqb_eq in Hxy; subst y.
  f_equal; apply IH; auto.
Qed.

Lemma index_eq_refl (a : list string) : all (index_eq a a) = true.
Proof.
  induction a as [|x a IH]; simpl; auto.
  rewrite String.eqb_refl; exact IH.
Qed.

(** C9. Two tables whose column labels are the same labels in a different
    order do not pass validation: the column-count assertion holds, and the
    assertion on the label sequences fails with "Columns names are
    inconsistent."  This holds whatever the dtypes are, so the label check
    is decided before the dtypes are looked at. *)
Theorem validate_is_position_sensitive (l r : Table) (keys : list string) :
  Permutation (columns (frame l)) (columns (frame r)) ->
  columns (frame l) <> columns (frame r) ->
  validate_data_quality (init l r keys)
  = (Raise (AssertionError "Columns names are inconsistent."), init l r keys).
Proof.
  intros Hperm Hneq.
  pose proof (Permutation_length Hperm) as Hlen.
  unfold validate_data_quality, bind, get_self, assert; simpl.
  rewrite Hlen, Nat.eqb_refl; simpl.
  destruct (all (index_eq (columns (frame l)) (columns (frame r)))) eqn:Hall.
  - exfalso; apply Hneq; apply all_index_eq; assumption.
  - reflexivity.
Qed.

Lemma validate_is_position_sensitive_witness :
  validate_data_quality (init Ex.swapped_left Ex.swapped_right ["id"])
  = (Raise (AssertionError "Columns names are inconsistent."),
     init Ex.swapped_left Ex.swapped_right ["id"]).
Proof.
  apply validate_is_position_sensitive.
  - simpl. apply perm_swap.
  - simpl. discriminate.
Defined.

(** C1. On the spec's own example (left [age] is int64, right [age] is
    object) validation raises [InconsistentDataTypesError], and the dict it
    is built from names [age] once; but the entry gives the right table's
    type under [left_table] and the left table's type under [right_table]:
    line 56 fills [left_inconsistent_dict] from [self.right_table] and
    line 57 fills [right_inconsistent_dict] from [self.left_table]. *)
Theorem validate_interchanges_the_sides :
  nth 2 (dtypes Ex.typed_left) object_ = int64 /\
  nth 2 (dtypes Ex.typed_right) int64 = object_ /\
  inconsistent_dict_of Ex.typed_left Ex.typed_right
  = Ok [("age", {| Entry.left_table := np_object_;
                   Entry.right_table := np_int64 |})] /\
  fst (validate_data_quality (init Ex.typed_left Ex.typed_right ["id"]))
  = Raise (InconsistentDataTypesError
             (PyStr.nl ++ "The following columns have inconsistent data types:"
              ++ PyStr.nl ++ "Column name: age"
              ++ PyStr.nl ++ "            - left_table: <class 'numpy.object_'>"
              ++ PyStr.nl ++ "            - right_table: <class 'numpy.int64'>")%string).
Proof.
  repeat split; reflexivity.
Qed.

(** ** The field comparator's labels *)

(** C3. With the key in the second column ([name], [id]; key [id]) the
    comparison of the one matched record succeeds, and its [left_table] row
    shows the key value [1] under the label [name] and the name ["a"] under
    the label [id]: the values are laid out keys first (line 95) and then
    labelled with the original column sequence (line 113). *)
Theorem comparison_mislabels_when_key_not_first :
  exists s c,
    prepare_results (init Ex.trailing_key_left Ex.trailing_key_right ["id"])
    = (Ok tt, s) /\
    frame_of comparison_df s = Some c /\
    columns c = ["comparison"; "name"; "id"] /\
    rows c = [ [VStr "left_table"; VInt 1; VStr "a"];
               [VStr "right_table"; VInt 1; VStr "b"];
               [VStr "comparison_result"; VBool true; VBool false] ] /\
    Pandas.cell (columns c) (nth 0 (rows c) []) "name" = VInt 1 /\
    Pandas.cell (columns (frame Ex.trailing_key_left))
                (nth 0 (rows (frame Ex.trailing_key_left)) []) "name" = VStr "a".
Proof.
  eexists; eexists.
  split; [vm_compute; reflexivity|].
  repeat split; reflexivity.
Qed.

(** ** The partition's labels *)

(** C6. With a column labelled [x_left_table] on both sides, the
    [left_only] frame is not a slice of the left table: the test
    ["_left_table" in column_name] of line 79 also selects the right-hand
    column [x_left_table_right_table], and [replace] of line 81 deletes
    every occurrence of the suffix, so the frame has the columns [id], [x]
    and [x_right_table] where the left table has [id] and [x_left_table]. *)
Theorem left_only_is_not_a_slice_for_marked_labels :
  exists s lo,
    join_and_split (init Ex.marked_left Ex.marked_right ["id"]) = (Ok tt, s) /\
    frame_of left_only s = Some lo /\
    columns lo = ["id"; "x"; "x_right_table"] /\
    rows lo = [[VInt 1; VStr "a"; VNull]] /\
    columns (frame Ex.marked_left) = ["id"; "x_left_table"].
Proof.
  eexists; eexists.
  split; [vm_compute; reflexivity|].
  repeat split; reflexivity.
Qed.

(** ** The store: what a method may overwrite *)

Lemma length_replace_nth {A} (n : nat) (x : A) (l : list A) :
  List.length (replace_nth n x l) = List.length l.
Proof.
  revert n; induction l as [|y l IH]; intros [|n]; simpl; auto.
Qed.

Lemma nth_error_replace_nth_other {A} (n m : nat) (x : A) (l : list A) :
  m <> n -> nth_error (replace_nth n x l) m = nth_error l m.
Proof.
  revert n m; induction l as [|y l IH]; intros [|n] [|m] Hneq; simpl; auto;
    try congruence.
Qed.

Lemma nth_app_new {A} (x d : A) (l : list A) :
  nth (List.length l) (l ++ [x]) d = x.
Proof.
  rewrite app_nth2 by lia. rewrite Nat.sub_diag. reflexivity.
Qed.

Lemma keeps_refl n s : n <= List.length (store s) -> keeps n s s.
Proof. intros H; split; auto. Qed.

Lemma keeps_trans n s1 s2 s3 : keeps n s1 s2 -> keeps n s2 s3 -> keeps n s1 s3.
Proof.
  intros [H1 H2] [H3 H4]; split; auto.
  intros l Hl; rewrite H4, H2; auto.
Qed.

Lemma keeps_alloc n s df :
  n <= List.length (store s) ->
  keeps n s (snd (alloc df s)) /\ fst (alloc df s) = Ok (List.length (store s)).
Proof.
  intros H; split; [split|]; simpl; auto.
  - rewrite length_app; simpl; lia.
  - intros l Hl. apply nth_error_app1; lia.
Qed.

Lemma keeps_overwrite n s l df :
  n <= List.length (store s) -> n <= l ->
  keeps n s (snd (overwrite l df s)).
Proof.
  intros H Hl; split; simpl.
  - rewrite length_replace_nth; auto.
  - intros m Hm. apply nth_error_replace_nth_other; lia.
Qed.

Lemma same_partition_refs_refl s : same_partition_refs s s.
Proof. repeat split. Qed.

Lemma same_partition_refs_trans s1 s2 s3 :
  same_partition_refs s1 s2 -> same_partition_refs s2 s3 ->
  same_partition_refs s1 s3.
Proof.
  intros (A1 & A2 & A3 & A4) (B1 & B2 & B3 & B4).
  repeat split; congruence.
Qed.

Lemma frame_safe_bind {A B} n (m : M A) (k : A -> M B) post post' :
  frame_safe n m post ->
  (forall a, post a -> frame_safe n (k a) post') ->
  frame_safe n (bind m k) post'.
Proof.
  intros Hm Hk s Hs.
  destruct (Hm s Hs) as (K1 & R1 & P1).
  unfold bind. destruct (m s) as [[a|e] s1]; simpl in *.
  - destruct (Hk a (P1 a eq_refl) s1 (proj1 K1)) as (K2 & R2 & P2).
    split; [eapply keeps_trans; eauto|].
    split; [eapply same_partition_refs_trans; eauto|]. exact P2.
  - repeat split; try apply K1; try apply R1. discriminate.
Qed.

Lemma frame_safe_pure {A} n (m : M A) :
  (forall s, snd (m s) = s) -> frame_safe n m (fun _ => True).
Proof.
  intros Hpure s Hs. rewrite Hpure.
  split; [apply keeps_refl; auto|].
  split; [apply same_partition_refs_refl|auto].
Qed.

Lemma frame_safe_lift {A} n (o : outcome A) : frame_safe n (lift o) (fun _ => True).
Proof. apply frame_safe_pure; reflexivity. Qed.

Lemma frame_safe_get_self n : frame_safe n get_self (fun _ => True).
Proof. apply frame_safe_pure; reflexivity. Qed.

Lemma frame_safe_load n l : frame_safe n (load l) (fun _ => True).
Proof. apply frame_safe_pure; reflexivity. Qed.

Lemma frame_safe_attr {A} n (field : TableComparator -> option A) name :
  frame_safe n (attr field name) (fun _ => True).
Proof.
  apply frame_safe_pure. intros s. unfold attr.
  destruct (field (self s)); reflexivity.
Qed.

Lemma frame_safe_alloc n df : frame_safe n (alloc df) (fun l => n <= l).
Proof.
  intros s Hs. destruct (@keeps_alloc n s df Hs) as [K E].
  split; [exact K|]. split; [repeat split|].
  intros a Ha. rewrite E in Ha. injection Ha as <-. exact Hs.
Qed.

Lemma frame_safe_overwrite n l df :
  n <= l -> frame_safe n (overwrite l df) (fun _ => True).
Proof.
  intros Hl s Hs. split; [apply keeps_overwrite; auto|].
  split; [repeat split|auto].
Qed.

Lemma frame_safe_copy n l : frame_safe n (copy l) (fun l' => n <= l').
Proof.
  unfold copy. eapply frame_safe_bind; [apply frame_safe_load|].
  intros df _. apply frame_safe_alloc.
Qed.

Lemma frame_safe_fillna_inplace n l v :
  n <= l -> frame_safe n (fillna_inplace l v) (fun _ => True).
Proof.
  intros Hl. unfold fillna_inplace.
  eapply frame_safe_bind; [apply frame_safe_load|].
  intros df _. apply frame_safe_overwrite; assumption.
Qed.

Lemma frame_safe_set_columns_inplace n l labels :
  n <= l -> frame_safe n (set_columns_inplace l labels) (fun _ => True).
Proof.
  intros Hl. unfold set_columns_inplace.
  eapply frame_safe_bind; [apply frame_safe_load|]. intros df _.
  eapply frame_safe_bind; [apply frame_safe_lift|]. intros df' _.
  apply frame_safe_overwrite; assumption.
Qed.

(** The field comparison never writes below the top of the store it
    started from: it overwrites only the two frames it has allocated
    itself ([both_copy] for [fillna], the concatenation for the new
    labels), whether it finishes or raises. *)
Lemma compare_frame_safe n :
  frame_safe n compare_records_in_both (fun _ => True).
Proof.
  unfold compare_records_in_both.
  eapply frame_safe_bind; [apply frame_safe_get_self|]. intros me _.
  eapply frame_safe_bind; [apply frame_safe_attr|]. intros bl _.
  eapply frame_safe_bind; [apply frame_safe_load|]. intros self_both _.
  eapply frame_safe_bind; [apply frame_safe_lift|]. intros without_merge _.
  eapply frame_safe_bind; [apply frame_safe_alloc|]. intros selected _.
  eapply frame_safe_bind; [apply frame_safe_copy|]. intros both_copy Hcopy.
  eapply frame_safe_bind; [apply frame_safe_fillna_inplace; exact Hcopy|].
  intros _ _.
  eapply frame_safe_bind; [apply frame_safe_load|]. intros filled _.
  eapply frame_safe_bind; [apply frame_safe_lift|]. intros comparison_df_list _.
  eapply frame_safe_bind; [apply frame_safe_lift|]. intros concatenated _.
  eapply frame_safe_bind; [apply frame_safe_alloc|]. intros cl Hcl.
  eapply frame_safe_bind; [apply frame_safe_set_columns_inplace; exact Hcl|].
  intros _ _.
  eapply frame_safe_bind; [apply frame_safe_load|]. intros relabelled _.
  eapply frame_safe_bind; [apply frame_safe_lift|]. intros reordered _.
  eapply frame_safe_bind; [apply frame_safe_alloc|]. intros rl _.
  eapply frame_safe_bind; [apply frame_safe_copy|]. intros final _.
  intros s Hs. split; [split; [exact Hs|reflexivity]|].
  split; [repeat split|auto].
Qed.

Lemma compare_keeps (s : state) :
  keeps (List.length (store s)) s (snd (compare_records_in_both s)) /\
  same_partition_refs s (snd (compare_records_in_both s)).
Proof.
  destruct (@compare_frame_safe (List.length (store s)) s (le_n _)) as (K & R & _).
  split; assumption.
Qed.

(** C10. Whatever [compare_records_in_both] returns or raises, the frames
    behind [self.joined] and [self.both] are afterwards the frames they
    were before, and so are those behind [self.left_only] and
    [self.right_only]: the replacement of missing values by [""] is done
    in place on the copy made in line 98 and nowhere else. *)
Theorem compare_does_not_modify_joined_or_both (s : state) (j b : DataFrame) :
  frame_of joined s = Some j ->
  frame_of both s = Some b ->
  let s' := snd (compare_records_in_both s) in
  frame_of joined s' = Some j /\
  frame_of both s' = Some b /\
  (forall d, frame_of left_only s = Some d -> frame_of left_only s' = Some d) /\
  (forall d, frame_of right_only s = Some d -> frame_of right_only s' = Some d).
Proof.
  intros Hj Hb s'.
  destruct (compare_keeps s) as [[_ Hkeep] (Ej & El & Er & Eb)].
  fold s' in Hkeep, Ej, El, Er, Eb.
  assert (Hfield : forall field d,
             field (self s') = field (self s) ->
             frame_of field s = Some d -> frame_of field s' = Some d).
  { intros field d E. unfold frame_of. rewrite E.
    destruct (field (self s)) as [l|]; [|discriminate].
    intros Hl. rewrite Hkeep; auto.
    apply nth_error_Some. congruence. }
  repeat split; eauto.
Qed.

Lemma compare_does_not_modify_joined_or_both_witness :
  let s := snd (join_and_split
                  (init Ex.with_nulls_left Ex.with_nulls_right ["id"])) in
  let s' := snd (compare_records_in_both s) in
  fst (compare_records_in_both s) = Ok tt /\
  frame_of joined s' = Some Ex.with_nulls_joined /\
  frame_of both s' = Some Ex.with_nulls_both.
Proof.
  intros s s'.
  destruct (@compare_does_not_modify_joined_or_both
              s Ex.with_nulls_joined Ex.with_nulls_both)
    as (Hj & Hb & _); [reflexivity | reflexivity |].
  split; [reflexivity|]. split; assumption.
Defined.

(** ** Labels: membership and selection *)

Lemma mem_In (x : string) (l : list string) : mem x l = true <-> In x l.
Proof.
  unfold mem. rewrite existsb_exists. split.
  - intros (y & Hy & E). apply String.eqb_eq in E. subst; assumption.
  - intros H. exists x. split; [assumption|apply String.eqb_refl].
Qed.

Lemma mem_false (x : string) (l : list string) : mem x l = false <-> ~ In x l.
Proof.
  rewrite <- mem_In. destruct (mem x l); split; intros; congruence.
Qed.

Lemma missing_label_None (labels cols : list string) :
  Pandas.missing_label labels cols = None <-> incl labels cols.
Proof.
  unfold Pandas.missing_label. split.
  - intros H x Hx. pose proof (find_none _ _ H x Hx) as E.
    apply negb_false_iff in E. apply mem_In; assumption.
  - intros H. induction labels as [|x labels IH]; simpl; auto.
    assert (Hx : mem x cols = true) by (apply mem_In, H; left; reflexivity).
    rewrite Hx; simpl. apply IH. intros y Hy. apply H; right; assumption.
Qed.

Lemma missing_label_app (a b cols : list string) :
  Pandas.missing_label a cols = None ->
  Pandas.missing_label b cols = None ->
  Pandas.missing_label (a ++ b) cols = None.
Proof.
  rewrite !missing_label_None. intros Ha Hb. apply incl_app; assumption.
Qed.

Lemma missing_label_filter (f : string -> bool) (cols : list string) :
  Pandas.missing_label (filter f cols) cols = None.
Proof.
  apply missing_label_None. intros x Hx. apply filter_In in Hx. tauto.
Qed.

(** ** Validation: what passing it means *)

Lemma bind_pure {A B} (m : M A) (k : A -> M B) :
  (forall s, snd (m s) = s) -> (forall a s, snd (k a s) = s) ->
  forall s, snd (bind m k s) = s.
Proof.
  intros Hm Hk s. unfold bind. specialize (Hm s).
  destruct (m s) as [[a|e] s1]; simpl in *; subst; auto.
Qed.

Lemma assert_pure cond msg s : snd (assert cond msg s) = s.
Proof. destruct cond; reflexivity. Qed.

Lemma validate_state (s : state) : snd (validate_data_quality s) = s.
Proof.
  revert s. unfold validate_data_quality.
  apply bind_pure; [reflexivity|]. intros me.
  apply bind_pure; [apply assert_pure|]. intros _.
  apply bind_pure; [apply assert_pure|]. intros _.
  apply bind_pure.
  { destruct (Bool.eqb _ false); [|reflexivity].
    apply bind_pure; [reflexivity|]. reflexivity. }
  intros _.
  apply bind_pure; [reflexivity|]. intros ldup.
  apply bind_pure; [apply assert_pure|]. intros _.
  apply bind_pure; [reflexivity|]. intros rdup.
  apply assert_pure.
Qed.

Lemma validate_ok_inv (l r : Table) (keys : list string) :
  fst (validate_data_quality (init l r keys)) = Ok tt ->
  validated l r keys.
Proof.
  unfold validate_data_quality, bind, get_self, assert, lift, raise, ret,
    Pandas.duplicated.
  simpl.
  destruct (Nat.eqb _ _) eqn:Hlen; simpl; [|discriminate].
  destruct (all (index_eq _ _)) eqn:Hcols; simpl; [|discriminate].
  apply Nat.eqb_eq in Hlen.
  pose proof (all_index_eq _ _ Hlen Hcols) as Ecols.
  destruct (all (dtypes_eq _ _)) eqn:Hty; simpl.
  2:{ destruct (inconsistent_dict_of l r); simpl; discriminate. }
  destruct (Pandas.missing_label keys (columns (frame l))) eqn:Hkl; simpl;
    [discriminate|].
  destruct (all (eq_False (Pandas.duplicated_from (columns (frame l)) _ _ _)))
    eqn:Hdl; simpl; [|discriminate].
  destruct (Pandas.missing_label keys (columns (frame r))) eqn:Hkr; simpl;
    [discriminate|].
  destruct (all (eq_False (Pandas.duplicated_from (columns (frame r)) _ _ _)))
    eqn:Hdr; simpl; [|discriminate].
  intros _. constructor; auto.
  apply missing_label_None; assumption.
Qed.

Lemma validated_validate_ok (l r : Table) (keys : list string) :
  validated l r keys ->
  validate_data_quality (init l r keys) = (Ok tt, init l r keys).
Proof.
  intros [Hc Ht Hk Hl Hr].
  unfold validate_data_quality, bind, get_self, assert, lift, raise, ret,
    Pandas.duplicated.
  simpl. rewrite <- Hc in *. rewrite Nat.eqb_refl, index_eq_refl, Ht. simpl.
  apply missing_label_None in Hk. rewrite Hk. simpl.
  rewrite Hl. simpl. rewrite Hr. reflexivity.
Qed.

(** ** The join: what its success means *)

Lemma merge_ok_inv (l r : DataFrame) (keys : list string) (j : DataFrame) :
  Pandas.merge_outer_indicator l r keys "_left_table" "_right_table" = Ok j ->
  merged l r keys j.
Proof.
  unfold Pandas.merge_outer_indicator.
  destruct (Pandas.missing_label keys (columns r)) eqn:Hkr; [discriminate|].
  destruct (Pandas.missing_label keys (columns l)) eqn:Hkl; [discriminate|].
  destruct (existsb _ Pandas.indicator_reserved); [discriminate|].
  destruct (mem "_merge" (columns l)) eqn:Hml; simpl; [discriminate|].
  destruct (mem "_merge" (columns r)) eqn:Hmr; simpl; [discriminate|].
  destruct (Pandas.suffix_duplicates (columns l) _ ++ _) eqn:Hdup;
    [|discriminate].
  intros E. injection E as <-.
  apply app_eq_nil in Hdup.
  constructor; simpl; auto.
  - apply missing_label_None; assumption.
  - apply missing_label_None; assumption.
  - apply mem_false; assumption.
  - apply mem_false; assumption.
Qed.

(** ** The partition step, computed *)

Lemma replace_nth_last {A} (l : list A) (x y : A) :
  replace_nth (List.length l) x (l ++ [y]) = l ++ [x].
Proof. induction l as [|z l IH]; simpl; [reflexivity|]. rewrite IH; reflexivity. Qed.

Lemma tagged_copy_spec (s : state) (jl : loc) (tag : string) :
  joined (self s) = Some jl ->
  In "_merge" (columns (nth jl (store s) empty_frame)) ->
  let j := nth jl (store s) empty_frame in
  tagged_copy tag s
  = (Ok (S (List.length (store s))),
     {| store := store s ++ [tagged tag j; tagged tag j]; self := self s |}).
Proof.
  intros Hj Hm j.
  unfold tagged_copy, bind, attr, load, lift, alloc, copy, bind, load, alloc.
  rewrite Hj. simpl. fold j.
  unfold Pandas.getitem_column.
  apply mem_In in Hm. fold j in Hm. rewrite Hm. simpl.
  rewrite nth_app_new. rewrite length_app. simpl.
  rewrite Nat.add_1_r. rewrite <- app_assoc. reflexivity.
Qed.

Lemma one_side_spec (s : state) (jl : loc) (tag suffix : string) :
  joined (self s) = Some jl ->
  let j := nth jl (store s) empty_frame in
  In "_merge" (columns j) ->
  incl (primary_keys (self s)) (columns j) ->
  one_side tag suffix s
  = (Ok (S (S (List.length (store s)))),
     {| store := store s ++ [tagged tag j; tagged tag j;
                             side_frame tag suffix (primary_keys (self s)) j];
        self := self s |}).
Proof.
  intros Hj j Hm Hk.
  unfold one_side. unfold bind at 1. unfold get_self.
  unfold bind at 1. rewrite (tagged_copy_spec s tag Hj Hm). fold j.
  unfold bind, load, lift, alloc, set_columns_inplace, bind, load, lift,
    overwrite, ret. simpl.
  replace (nth (S (List.length (store s))) (store s ++ [tagged tag j; tagged tag j])
             empty_frame) with (tagged tag j).
  2:{ rewrite app_nth2 by lia.
      replace (S (List.length (store s)) - List.length (store s)) with 1 by lia.
      reflexivity. }
  unfold Pandas.getitem_columns. simpl.
  rewrite missing_label_app;
    [|apply missing_label_None; exact Hk|apply missing_label_filter].
  simpl.
  rewrite !length_app. simpl.
  replace (List.length (store s) + 2) with
    (List.length (store s ++ [tagged tag j; tagged tag j]))
    by (rewrite length_app; reflexivity).
  rewrite nth_app_new. simpl.
  unfold Pandas.set_columns. simpl. rewrite length_map, Nat.eqb_refl. simpl.
  rewrite replace_nth_last. rewrite length_app. simpl.
  rewrite <- app_assoc. simpl. unfold side_frame, side_labels.
  replace (List.length (store s) + 2) with (S (S (List.length (store s)))) by lia.
  reflexivity.
Qed.

Lemma suffixed_key (keys other : list string) (suffix c : string) :
  In c keys -> Pandas.suffixed keys other suffix c = c.
Proof.
  intros H. unfold Pandas.suffixed. apply mem_In in H. rewrite H. reflexivity.
Qed.

Lemma merged_has_indicator l r keys j :
  merged l r keys j -> In "_merge" (columns j).
Proof.
  intros H. rewrite (merged_columns H). rewrite !in_app_iff. right; right; left.
  reflexivity.
Qed.

Lemma merged_has_keys l r keys j :
  merged l r keys j -> incl keys (columns j).
Proof.
  intros H k Hk. rewrite (merged_columns H). apply in_or_app; left.
  unfold Pandas.left_labels. apply in_map_iff. exists k. split.
  - apply suffixed_key; assumption.
  - apply (merged_keys_left H); assumption.
Qed.

(** When validation passes and the merge returns [j], the partition step
    goes through, and leaves the frames of [split_state]. *)
Lemma join_and_split_ok (l r : Table) (keys : list string) (j : DataFrame) :
  fst (validate_data_quality (init l r keys)) = Ok tt ->
  Pandas.merge_outer_indicator (frame l) (frame r) keys
    "_left_table" "_right_table" = Ok j ->
  join_and_split (init l r keys) = (Ok tt, split_state l r keys j).
Proof.
  intros Hv Hmerge.
  pose proof (merge_ok_inv _ _ _ Hmerge) as Hm.
  unfold join_and_split.
  unfold bind at 1.
  rewrite (validated_validate_ok (validate_ok_inv _ _ _ Hv)).
  unfold bind at 1. unfold join_tables.
  unfold bind at 1. unfold get_self. cbn [self init].
  unfold bind at 1. unfold lift. cbn [left_table right_table primary_keys].
  rewrite Hmerge.
  unfold bind at 1. unfold alloc. cbn [store init List.length app].
  unfold set_self. cbn [self store left_table right_table primary_keys
    joined left_only right_only both comparison_df record_availability
    record_consistency].
  unfold split_joined_table.
  unfold bind at 1.
  erewrite (@one_side_spec _ 0 "left_only" "_left_table");
    [|reflexivity|exact (merged_has_indicator Hm)|exact (merged_has_keys Hm)].
  cbn [store self nth List.length app primary_keys].
  unfold bind at 1. unfold set_self at 1.
  cbn [self store left_table right_table primary_keys
    joined left_only right_only both comparison_df record_availability
    record_consistency].
  unfold bind at 1.
  erewrite (@one_side_spec _ 0 "right_only" "_right_table");
    [|reflexivity|exact (merged_has_indicator Hm)|exact (merged_has_keys Hm)].
  cbn [store self nth List.length app primary_keys].
  unfold bind at 1. unfold set_self at 1.
  cbn [self store left_table right_table primary_keys
    joined left_only right_only both comparison_df record_availability
    record_consistency].
  unfold bind at 1.
  erewrite (@tagged_copy_spec _ 0 "both");
    [|reflexivity|exact (merged_has_indicator Hm)].
  cbn [store self nth List.length app primary_keys].
  unfold set_self.
  cbn [self store left_table right_table primary_keys
    joined left_only right_only both comparison_df record_availability
    record_consistency].
  reflexivity.
Qed.

(** ** An empty matched set *)

Lemma prepare_results_after_split (s : state) :
  prepare_results s
  = match join_and_split s with
    | (Ok _, s') => compare_records_in_both s'
    | (Raise e, s') => (Raise e, s')
    end.
Proof.
  unfold prepare_results, join_and_split, bind.
  destruct (validate_data_quality s) as [[[]|e] s1]; [|reflexivity].
  destruct (join_tables s1) as [[[]|e] s2]; [|reflexivity].
  destruct (split_joined_table s2) as [[[]|e] s3]; reflexivity.
Qed.

(** The frame of line 98 before its missing values are filled. *)
Lemma compare_on_empty (s : state) (bl : loc) :
  both (self s) = Some bl ->
  rows (nth bl (store s) empty_frame) = [] ->
  exists tmp1 tmp2,
    compare_records_in_both s
    = (Raise (ValueError "No objects to concatenate"),
       {| store := (store s ++ [tmp1]) ++ [tmp2]; self := self s |}).
Proof.
  intros Hb Hrows.
  unfold compare_records_in_both.
  unfold bind at 1. unfold get_self.
  unfold bind at 1. unfold attr. rewrite Hb.
  unfold bind at 1. unfold load at 1.
  unfold bind at 1. unfold lift at 1.
  unfold Pandas.getitem_columns. rewrite missing_label_filter, Hrows.
  set (tmp1 := {| columns := _; rows := _ |}).
  exists tmp1, (Pandas.fillna (VStr "") tmp1).
  unfold bind at 1. unfold alloc at 1.
  unfold bind at 1. unfold copy, bind, load, alloc. cbn [store self].
  rewrite nth_app_new.
  unfold fillna_inplace, bind, load, overwrite. cbn [store self].
  rewrite length_app. cbn [List.length].
  replace (List.length (store s) + 1) with (List.length (store s ++ [tmp1]))
    by (rewrite length_app; reflexivity).
  rewrite nth_app_new, replace_nth_last, nth_app_new.
  subst tmp1. unfold lift. simpl. reflexivity.
Qed.



(** Comparisons with the literal tags and labels are kept folded. *)
Arguments String.eqb : simpl never.

(** ** Key tuples *)

Lemma value_eqb_eq (a b : value) : value_eqb a b = true <-> a = b.
Proof.
  destruct a, b; simpl; split; intros H; try discriminate; try reflexivity.
  - apply Z.eqb_eq in H; congruence.
  - injection H as ->. apply Z.eqb_refl.
  - apply String.eqb_eq in H; congruence.
  - injection H as ->. apply String.eqb_refl.
  - apply Bool.eqb_prop in H; congruence.
  - injection H as ->. apply Bool.eqb_reflx.
Qed.

Lemma key_eqb_eq (k1 k2 : list value) : key_eqb k1 k2 = true <-> k1 = k2.
Proof.
  revert k2; induction k1 as [|a k1 IH]; intros [|b k2]; simpl;
    split; intros H; try discriminate; try reflexivity.
  - apply andb_true_iff in H as [Ha Hk].
    apply value_eqb_eq in Ha. apply IH in Hk. congruence.
  - injection H as -> ->. apply andb_true_iff. split.
    + apply value_eqb_eq; reflexivity.
    + apply IH; reflexivity.
Qed.

Lemma key_eqb_refl (k : list value) : key_eqb k k = true.
Proof. apply key_eqb_eq; reflexivity. Qed.

Lemma key_mem_In (k : list value) (ks : list (list value)) :
  key_mem k ks = true <-> In k ks.
Proof.
  unfold key_mem. rewrite existsb_exists. split.
  - intros (x & Hx & E). apply key_eqb_eq in E. subst; assumption.
  - intros H. exists k. split; [assumption|apply key_eqb_refl].
Qed.

(** [duplicated] marks nothing exactly when the key tuples are pairwise
    different. *)
Lemma duplicated_from_NoDup (cols keys : list string) (seen : list (list value))
  (rs : list (list value)) :
  all (eq_False (Pandas.duplicated_from cols keys seen rs)) = true <->
  NoDup (map (Pandas.key_of cols keys) rs) /\
  (forall k, In k (map (Pandas.key_of cols keys) rs) -> ~ In k seen).
Proof.
  revert seen; induction rs as [|row rs IH]; intros seen; simpl.
  - split; [intros _; split; [constructor|intros k []]|reflexivity].
  - unfold all in *. simpl. rewrite andb_true_iff. fold (all (eq_False
      (Pandas.duplicated_from cols keys (Pandas.key_of cols keys row :: seen) rs))).
    unfold all. rewrite IH. clear IH.
    set (k0 := Pandas.key_of cols keys row).
    assert (Hseen : Bool.eqb (existsb (key_eqb k0) seen) false = true
                    <-> ~ In k0 seen).
    { fold (key_mem k0 seen). rewrite <- key_mem_In.
      destruct (key_mem k0 seen); simpl; split; intros; congruence. }
    rewrite Hseen. split.
    + intros (H0 & Hnd & Hns). split.
      * constructor; [|assumption]. intros Hin. apply (Hns k0 Hin). left; reflexivity.
      * intros k [<-|Hk]; [assumption|].
        intros Hin. apply (Hns k Hk). right; assumption.
    + intros (Hnd & Hns). inversion Hnd as [|? ? Hnotin Hnd']; subst.
      split; [apply Hns; left; reflexivity|]. split; [assumption|].
      intros k Hk [<-|Hin]; [contradiction|].
      apply (Hns k); [right; assumption|assumption].
Qed.

Lemma validated_left_NoDup l r keys :
  validated l r keys -> NoDup (key_tuples keys (frame l)).
Proof.
  intros H. apply (duplicated_from_NoDup _ _ [] _). exact (left_unique H).
Qed.

Lemma validated_right_NoDup l r keys :
  validated l r keys -> NoDup (key_tuples keys (frame r)).
Proof.
  intros H. apply (duplicated_from_NoDup _ _ [] _). exact (right_unique H).
Qed.

(** ** Counting with filters *)

Lemma filter_split_length {A} (p : A -> bool) (l : list A) :
  List.length (filter p l) + List.length (filter (fun x => negb (p x)) l)
  = List.length l.
Proof.
  induction l as [|x l IH]; simpl; [reflexivity|].
  destruct (p x); simpl; lia.
Qed.

Lemma filter_map_comm {A B} (f : A -> B) (p : B -> bool) (l : list A) :
  filter p (map f l) = map f (filter (fun x => p (f x)) l).
Proof.
  induction l as [|x l IH]; simpl; [reflexivity|].
  destruct (p (f x)); simpl; rewrite IH; reflexivity.
Qed.

Lemma mask_rows_map {A} (p : A -> bool) (l : list A) :
  Pandas.mask_rows (map p l) l = filter p l.
Proof.
  induction l as [|x l IH]; simpl; [reflexivity|].
  rewrite IH; reflexivity.
Qed.

Lemma filter_flat_map_length {A B} (p : B -> bool) (f : A -> list B) (l : list A) :
  List.length (filter p (flat_map f l))
  = list_sum (map (fun x => List.length (filter p (f x))) l).
Proof.
  induction l as [|x l IH]; simpl; [reflexivity|].
  rewrite filter_app, length_app, IH. reflexivity.
Qed.

Lemma list_sum_indicator {A} (p : A -> bool) (l : list A) :
  list_sum (map (fun x => if p x then 1 else 0) l) = List.length (filter p l).
Proof.
  induction l as [|x l IH]; simpl; [reflexivity|].
  destruct (p x); simpl; rewrite IH; reflexivity.
Qed.

Lemma filter_none {A} (p : A -> bool) (l : list A) :
  (forall x, In x l -> p x = false) -> filter p l = [].
Proof.
  induction l as [|x l IH]; simpl; intros H; [reflexivity|].
  rewrite (H x) by (left; reflexivity). apply IH. intros y Hy; apply H; right; assumption.
Qed.

Lemma filter_all {A} (p : A -> bool) (l : list A) :
  (forall x, In x l -> p x = true) -> filter p l = l.
Proof.
  induction l as [|x l IH]; simpl; intros H; [reflexivity|].
  rewrite (H x) by (left; reflexivity). f_equal. apply IH.
  intros y Hy; apply H; right; assumption.
Qed.

(** In a list without repeated images, at most one element has a given
    image. *)
Lemma unique_match_length {A} (f : A -> list value) (k : list value) (l : list A) :
  NoDup (map f l) ->
  List.length (filter (fun x => key_eqb k (f x)) l)
  = if key_mem k (map f l) then 1 else 0.
Proof.
  induction l as [|x l IH]; simpl; intros Hnd; [reflexivity|].
  inversion Hnd as [|? ? Hnotin Hnd']; subst.
  destruct (key_eqb k (f x)) eqn:E; simpl.
  - apply key_eqb_eq in E. subst k.
    rewrite filter_none; [reflexivity|].
    intros y Hy. destruct (key_eqb (f x) (f y)) eqn:E'; [|reflexivity].
    apply key_eqb_eq in E'. exfalso. apply Hnotin. rewrite E'.
    apply in_map; assumption.
  - apply IH; assumption.
Qed.

(** Two lists without repetition have as many elements of the one in the
    other as the other way round. *)
Lemma shared_count_sym (ks1 ks2 : list (list value)) :
  NoDup ks1 -> NoDup ks2 ->
  List.length (filter (fun k => key_mem k ks2) ks1)
  = List.length (filter (fun k => key_mem k ks1) ks2).
Proof.
  intros H1 H2. apply Permutation_length. apply NoDup_Permutation.
  - apply NoDup_filter; assumption.
  - apply NoDup_filter; assumption.
  - intros k. rewrite !filter_In, !key_mem_In. tauto.
Qed.

(** ** Strings and labels *)

Lemma string_length_append (a b : string) :
  String.length (a ++ b) = String.length a + String.length b.
Proof. induction a as [|c a IH]; simpl; [reflexivity|]. rewrite IH; reflexivity. Qed.

Lemma suffixed_cases (keys other : list string) (suffix c : string) :
  Pandas.suffixed keys other suffix c = c \/
  Pandas.suffixed keys other suffix c = (c ++ suffix)%string.
Proof.
  unfold Pandas.suffixed. destruct (mem c keys); [left; reflexivity|].
  destruct (mem c other); [right|left]; reflexivity.
Qed.

Lemma suffixed_not_indicator (keys other : list string) (suffix c : string) :
  6 < String.length suffix -> c <> "_merge" ->
  Pandas.suffixed keys other suffix c <> "_merge".
Proof.
  intros Hlen Hc. destruct (suffixed_cases keys other suffix c) as [-> | ->];
    [assumption|].
  intros E. apply (f_equal String.length) in E.
  rewrite string_length_append in E. simpl in E. lia.
Qed.

(** ** Cells of a row built from parts *)

Lemma cell_app_r (cols1 cols2 : list string) (r1 r2 : list value) (c : string) :
  ~ In c cols1 -> List.length r1 = List.length cols1 ->
  Pandas.cell (cols1 ++ cols2) (r1 ++ r2) c = Pandas.cell cols2 r2 c.
Proof.
  revert r1; induction cols1 as [|k cols1 IH]; intros [|v r1] Hnotin Hlen;
    simpl in *; try discriminate; [reflexivity|].
  destruct (String.eqb_spec c k) as [->|Hneq].
  - exfalso; apply Hnotin; left; reflexivity.
  - apply IH; [tauto|lia].
Qed.

Lemma cell_app_l (cols1 cols2 : list string) (r1 r2 : list value) (c : string) :
  In c cols1 -> List.length r1 = List.length cols1 ->
  Pandas.cell (cols1 ++ cols2) (r1 ++ r2) c = Pandas.cell cols1 r1 c.
Proof.
  revert r1; induction cols1 as [|k cols1 IH]; intros [|v r1] Hin Hlen;
    simpl in *; try discriminate; [contradiction|].
  destruct (String.eqb_spec c k) as [->|Hneq]; [reflexivity|].
  apply IH; [destruct Hin; [congruence|assumption]|lia].
Qed.

(** ** The joined frame, row by row *)

Section Joined.

Variables (l r : DataFrame) (keys : list string) (j : DataFrame).
Hypothesis Hm : merged l r keys j.
Hypothesis Hrl : rectangular l.
Hypothesis Hrr : rectangular r.

Local Abbreviation ll :=
  (Pandas.left_labels (columns l) (columns r) keys "_left_table").
Local Abbreviation rl :=
  (Pandas.right_labels (columns l) (columns r) keys "_right_table").
Local Abbreviation lkey := (Pandas.key_of (columns l) keys).
Local Abbreviation rkey := (Pandas.key_of (columns r) keys).
Local Abbreviation tagp := (is_tagged j).
Local Abbreviation from_left := (Pandas.rows_of_left l r keys).
Local Abbreviation from_right := (Pandas.row_of_right l r keys).
Local Abbreviation unmatched_right := (Pandas.unmatched_right l r keys).
Local Abbreviation matchedp := (matched_left l r keys).

Lemma tagged_rows (tag : string) :
  rows (tagged tag j) = filter (tagp tag) (rows j).
Proof.
  unfold tagged, Pandas.getitem_mask, Pandas.series_eq_scalar. simpl.
  rewrite map_map. apply mask_rows_map.
Qed.

Lemma indicator_fresh : ~ In "_merge" (ll ++ rl).
Proof.
  intros Hin. apply in_app_or in Hin as [Hin|Hin].
  - apply in_map_iff in Hin as (c & E & Hc).
    revert E. apply suffixed_not_indicator; [simpl; lia|].
    intros ->. exact (merged_no_indicator_left Hm Hc).
  - apply in_map_iff in Hin as (c & E & Hc).
    revert E. apply suffixed_not_indicator; [simpl; lia|].
    intros ->. apply filter_In in Hc as [Hc _].
    exact (merged_no_indicator_right Hm Hc).
Qed.

Lemma is_tagged_built (body : list value) (t tag : string) :
  List.length body = List.length (ll ++ rl) ->
  tagp tag (body ++ [VStr t]) = String.eqb t tag.
Proof.
  intros Hlen. unfold is_tagged. rewrite (merged_columns Hm).
  fold ll rl. rewrite app_assoc.
  rewrite cell_app_r; [|exact indicator_fresh|exact Hlen].
  simpl. reflexivity.
Qed.

Lemma left_body_length (lrow x : list value) :
  In lrow (rows l) -> List.length x = List.length rl ->
  List.length (lrow ++ x) = List.length (ll ++ rl).
Proof.
  intros Hin Hx. rewrite !length_app, Hx. f_equal.
  unfold ll, Pandas.left_labels. rewrite length_map.
  exact (proj1 (Forall_forall _ _) Hrl lrow Hin).
Qed.

Lemma nonkey_values_length (rrow : list value) :
  List.length (Pandas.nonkey_values (columns r) keys rrow) = List.length rl.
Proof.
  unfold Pandas.nonkey_values, rl, Pandas.right_labels.
  rewrite !length_map. reflexivity.
Qed.

Lemma merged_rows_shape :
  rows j = flat_map from_left (rows l)
           ++ map from_right (filter unmatched_right (rows r)).
Proof. rewrite (merged_rows Hm). reflexivity. Qed.

Lemma from_left_tags (lrow : list value) (tag : string) :
  In lrow (rows l) ->
  filter (tagp tag) (from_left lrow)
  = match filter (fun rrow => key_eqb (lkey lrow) (rkey rrow)) (rows r) with
    | [] => if String.eqb "left_only" tag then from_left lrow else []
    | _ => if String.eqb "both" tag then from_left lrow else []
    end.
Proof.
  intros Hin. unfold Pandas.rows_of_left.
  destruct (filter _ (rows r)) as [|m ms] eqn:E.
  - simpl. rewrite app_assoc, is_tagged_built.
    + destruct (String.eqb "left_only" tag); reflexivity.
    + apply left_body_length; [assumption|].
      unfold rl, Pandas.right_labels. rewrite !length_map. reflexivity.
  - destruct (String.eqb "both" tag) eqn:Et.
    + apply filter_all. intros row Hrow.
      apply in_map_iff in Hrow as (rrow & <- & _).
      rewrite app_assoc, is_tagged_built; [assumption|].
      apply left_body_length; [assumption|apply nonkey_values_length].
    + apply filter_none. intros row Hrow.
      apply in_map_iff in Hrow as (rrow & <- & _).
      rewrite app_assoc, is_tagged_built; [assumption|].
      apply left_body_length; [assumption|apply nonkey_values_length].
Qed.

Lemma from_right_tag (rrow : list value) (tag : string) :
  tagp tag (from_right rrow) = String.eqb "right_only" tag.
Proof.
  unfold Pandas.row_of_right. rewrite app_assoc. apply is_tagged_built.
  rewrite !length_app, nonkey_values_length. f_equal.
  unfold ll, Pandas.left_labels. rewrite !length_map. reflexivity.
Qed.

Lemma no_match_iff (lrow : list value) :
  filter (fun rrow => key_eqb (lkey lrow) (rkey rrow)) (rows r) = []
  <-> matchedp lrow = false.
Proof.
  unfold matched_left, key_mem, key_tuples.
  induction (rows r) as [|x xs IH]; simpl; [tauto|].
  destruct (key_eqb (lkey lrow) (rkey x)); simpl; [split; discriminate|].
  exact IH.
Qed.

(** The [left_only] records are the left rows without a match. *)
Lemma left_only_count :
  List.length (rows (tagged "left_only" j))
  = List.length (filter (fun lrow => negb (matchedp lrow)) (rows l)).
Proof.
  rewrite tagged_rows, merged_rows_shape, filter_app, length_app.
  rewrite (@filter_none _ _ (map from_right _)).
  2:{ intros row Hrow. apply in_map_iff in Hrow as (rrow & <- & _).
      rewrite from_right_tag. reflexivity. }
  simpl. rewrite Nat.add_0_r, filter_flat_map_length.
  rewrite <- list_sum_indicator. f_equal.
  apply map_ext_in. intros lrow Hin.
  rewrite from_left_tags by assumption. simpl.
  pose proof (no_match_iff lrow) as Hiff. unfold Pandas.rows_of_left.
  destruct (filter _ (rows r)) as [|m ms].
  - rewrite (proj1 Hiff eq_refl). reflexivity.
  - destruct (matchedp lrow); [reflexivity|].
    exfalso. assert (E : m :: ms = []) by (apply Hiff; reflexivity).
    discriminate.
Qed.

(** The [right_only] records are the right rows without a match. *)
Lemma right_only_count :
  List.length (rows (tagged "right_only" j))
  = List.length (filter unmatched_right (rows r)).
Proof.
  rewrite tagged_rows, merged_rows_shape, filter_app, length_app.
  rewrite (@filter_all _ _ (map from_right _)).
  2:{ intros row Hrow. apply in_map_iff in Hrow as (rrow & <- & _).
      rewrite from_right_tag. reflexivity. }
  rewrite length_map.
  assert (E : List.length (filter (tagp "right_only")
                             (flat_map from_left (rows l))) = 0).
  { rewrite filter_flat_map_length.
    rewrite (@map_ext_in _ _ _ (fun _ => 0)).
    - induction (rows l); simpl; auto.
    - intros lrow Hin. rewrite from_left_tags by assumption. simpl.
      destruct (filter _ (rows r)); reflexivity. }
  rewrite E. reflexivity.
Qed.

(** When the right keys are unique, the [both] records are the left rows
    with a match, one record each. *)
Lemma both_count :
  NoDup (map rkey (rows r)) ->
  List.length (rows (tagged "both" j))
  = List.length (filter matchedp (rows l)).
Proof.
  intros Hnd.
  rewrite tagged_rows, merged_rows_shape, filter_app, length_app.
  rewrite (@filter_none _ _ (map from_right _)).
  2:{ intros row Hrow. apply in_map_iff in Hrow as (rrow & <- & _).
      rewrite from_right_tag. reflexivity. }
  simpl. rewrite Nat.add_0_r, filter_flat_map_length.
  rewrite <- list_sum_indicator. f_equal.
  apply map_ext_in. intros lrow Hin.
  rewrite from_left_tags by assumption. simpl.
  pose proof (unique_match_length rkey (lkey lrow) (rows r) Hnd) as Hlen.
  change (key_mem (lkey lrow) (map rkey (rows r))) with (matchedp lrow) in Hlen.
  unfold Pandas.rows_of_left.
  destruct (filter _ (rows r)) as [|m ms].
  - simpl in Hlen. destruct (matchedp lrow); [discriminate|reflexivity].
  - rewrite length_map. exact Hlen.
Qed.

End Joined.

(** ** Key cells of the joined frame

    The merge refuses labels that its suffixes make collide, so a key label
    is found in the joined frame where it is in the input. *)

Section KeyLabels.

Variables (keys other : list string) (suffix k : string).
Hypothesis Hk : In k keys.

Local Abbreviation f := (Pandas.suffixed keys other suffix).

Local Abbreviation collisions sr so cols :=
  (Pandas.mask_rows
     (map (fun p : bool * bool => fst p && negb (snd p))
          (combine (Pandas.index_duplicated_from sr (map f cols))
                   (Pandas.index_duplicated_from so cols)))
     (map f cols)).

Lemma collision_found (cols sr so : list string) :
  In k cols -> ~ In k so -> In k sr -> collisions sr so cols <> [].
Proof.
  revert sr so; induction cols as [|c cols IH]; intros sr so Hin Hso Hsr;
    [contradiction|].
  simpl. destruct (String.eqb_spec c k) as [->|Hneq].
  - rewrite (@suffixed_key keys other suffix k Hk).
    apply mem_In in Hsr. apply mem_false in Hso. rewrite Hsr, Hso. simpl.
    discriminate.
  - assert (Hrest : collisions (f c :: sr) (c :: so) cols <> []).
    { apply IH.
      - destruct Hin; [congruence|assumption].
      - intros [E|E]; [congruence|contradiction].
      - right; assumption. }
    destruct (mem (f c) sr && negb (mem c so)); [discriminate|exact Hrest].
Qed.

Lemma key_cell_kept (cols sr so : list string) (row : list value) :
  collisions sr so cols = [] ->
  In k cols -> ~ In k so -> ~ In k sr ->
  Pandas.cell (map f cols) row k = Pandas.cell cols row k.
Proof.
  revert sr so row; induction cols as [|c cols IH];
    intros sr so [|v row] Hnone Hin Hso Hsr; simpl; try reflexivity.
  simpl in Hnone.
  destruct (String.eqb_spec c k) as [->|Hneq].
  - rewrite (@suffixed_key keys other suffix k Hk), String.eqb_refl. reflexivity.
  - assert (Hin' : In k cols) by (destruct Hin; [congruence|assumption]).
    assert (Hso' : ~ In k (c :: so)) by (intros [E|E]; [congruence|contradiction]).
    assert (Hrest : collisions (f c :: sr) (c :: so) cols = []).
    { destruct (mem (f c) sr && negb (mem c so)); [discriminate|exact Hnone]. }
    destruct (String.eqb_spec k (f c)) as [E|E].
    + exfalso. apply (@collision_found cols (f c :: sr) (c :: so)); auto.
      left; symmetry; exact E.
    + destruct (String.eqb_spec k c) as [E'|_]; [congruence|].
      apply (IH (f c :: sr) (c :: so)); auto.
      intros [E'|E']; [congruence|contradiction].
Qed.

End KeyLabels.

Lemma cell_map_self (cols : list string) (h : string -> value) (c : string) :
  In c cols -> Pandas.cell cols (map h cols) c = h c.
Proof.
  induction cols as [|k cols IH]; simpl; intros Hin; [contradiction|].
  destruct (String.eqb_spec c k) as [->|Hneq]; [reflexivity|].
  apply IH. destruct Hin; [congruence|assumption].
Qed.

Lemma key_eqb_sym (a b : list value) : key_eqb a b = key_eqb b a.
Proof.
  destruct (key_eqb a b) eqn:E1, (key_eqb b a) eqn:E2; auto.
  - apply key_eqb_eq in E1. subst. rewrite key_eqb_refl in E2. discriminate.
  - apply key_eqb_eq in E2. subst. rewrite key_eqb_refl in E1. discriminate.
Qed.

Section JoinedKeys.

Variables (l r : DataFrame) (keys : list string) (j : DataFrame).
Hypothesis Hm : merged l r keys j.
Hypothesis Hrl : rectangular l.
Hypothesis Hrr : rectangular r.

Local Abbreviation ll :=
  (Pandas.left_labels (columns l) (columns r) keys "_left_table").
Local Abbreviation rl :=
  (Pandas.right_labels (columns l) (columns r) keys "_right_table").
Local Abbreviation lkey := (Pandas.key_of (columns l) keys).
Local Abbreviation rkey := (Pandas.key_of (columns r) keys).
Local Abbreviation jkey := (Pandas.key_of (columns j) keys).

Lemma joined_key_cell (body rest : list value) (k : string) :
  In k keys -> List.length body = List.length (columns l) ->
  Pandas.cell (columns j) (body ++ rest) k = Pandas.cell (columns l) body k.
Proof.
  intros Hk Hlen.
  pose proof (merged_keys_left Hm k Hk) as Hin.
  rewrite (merged_columns Hm).
  rewrite cell_app_l.
  - apply (@key_cell_kept keys (columns r) "_left_table" k Hk (columns l) [] []);
      auto.
    exact (proj1 (merged_no_suffix_duplicates Hm)).
  - apply in_map_iff. exists k. split; [apply suffixed_key|]; assumption.
  - unfold Pandas.left_labels. rewrite length_map. exact Hlen.
Qed.

Lemma joined_key_of_left (lrow row : list value) :
  In lrow (rows l) -> In row (Pandas.rows_of_left l r keys lrow) ->
  jkey row = lkey lrow.
Proof.
  intros Hin Hrow.
  pose proof (proj1 (Forall_forall _ _) Hrl lrow Hin) as Hlen.
  assert (Hshape : exists rest, row = lrow ++ rest).
  { unfold Pandas.rows_of_left in Hrow. destruct (filter _ (rows r)).
    - destruct Hrow as [<-|[]]. eexists; reflexivity.
    - apply in_map_iff in Hrow as (rrow & <- & _). eexists; reflexivity. }
  destruct Hshape as (rest & ->).
  unfold Pandas.key_of. apply map_ext_in. intros k Hk.
  apply joined_key_cell; assumption.
Qed.

Lemma joined_key_of_right (rrow : list value) :
  jkey (Pandas.row_of_right l r keys rrow) = rkey rrow.
Proof.
  unfold Pandas.key_of, Pandas.row_of_right. apply map_ext_in. intros k Hk.
  rewrite joined_key_cell; [|assumption|apply length_map].
  rewrite cell_map_self by (exact (merged_keys_left Hm k Hk)).
  apply mem_In in Hk. rewrite Hk. reflexivity.
Qed.

Lemma rows_of_left_one (lrow : list value) :
  NoDup (key_tuples keys r) ->
  List.length (Pandas.rows_of_left l r keys lrow) = 1.
Proof.
  intros Hnd. unfold Pandas.rows_of_left.
  pose proof (unique_match_length rkey (lkey lrow) (rows r) Hnd) as Hlen.
  destruct (filter _ (rows r)) as [|m ms]; [reflexivity|].
  rewrite length_map.
  destruct (key_mem _ _); [exact Hlen|discriminate].
Qed.

Lemma unmatched_right_key (rrow : list value) :
  Pandas.unmatched_right l r keys rrow
  = negb (key_mem (rkey rrow) (key_tuples keys l)).
Proof.
  unfold Pandas.unmatched_right, key_mem, key_tuples. f_equal.
  induction (rows l) as [|x xs IH]; simpl; [reflexivity|].
  rewrite IH, key_eqb_sym. reflexivity.
Qed.

(** With unique right keys, the key tuples of the joined frame are those
    of the left table followed by those of the right table that the left
    table does not have. *)
Lemma joined_key_tuples :
  NoDup (key_tuples keys r) ->
  key_tuples keys j
  = key_tuples keys l
    ++ filter (fun k => negb (key_mem k (key_tuples keys l)))
              (key_tuples keys r).
Proof.
  intros Hnd. unfold key_tuples at 1.
  rewrite (merged_rows Hm). unfold Pandas.merge_rows.
  rewrite map_app. f_equal.
  - unfold key_tuples.
    assert (Hall : forall rs, incl rs (rows l) ->
              map jkey (flat_map (Pandas.rows_of_left l r keys) rs)
              = map lkey rs).
    { induction rs as [|lrow rs IH]; intros Hincl; [reflexivity|].
      simpl. rewrite map_app, IH by (intros x Hx; apply Hincl; right; exact Hx).
      assert (Hin : In lrow (rows l)) by (apply Hincl; left; reflexivity).
      pose proof (rows_of_left_one lrow Hnd) as Hone.
      destruct (Pandas.rows_of_left l r keys lrow) as [|row [|row' rest]] eqn:E;
        simpl in Hone; try discriminate.
      simpl. f_equal. apply joined_key_of_left; [assumption|].
      rewrite E; left; reflexivity. }
    apply Hall. apply incl_refl.
  - rewrite map_map. unfold key_tuples. rewrite filter_map_comm.
    rewrite (map_ext _ rkey) by (exact joined_key_of_right).
    f_equal. apply filter_ext. intros rrow. apply unmatched_right_key.
Qed.

End JoinedKeys.

(** ** Row counts of the partition *)

Lemma shared_keys_as_matched (l r : DataFrame) (keys : list string) :
  shared_keys keys l r = List.length (filter (matched_left l r keys) (rows l)).
Proof.
  unfold shared_keys, key_tuples at 2. rewrite filter_map_comm, length_map.
  reflexivity.
Qed.

Lemma side_frame_rows_length (tag suffix : string) (keys : list string)
  (j : DataFrame) :
  List.length (rows (side_frame tag suffix keys j))
  = List.length (rows (tagged tag j)).
Proof. unfold side_frame. simpl. apply length_map. Qed.

Lemma NoDup_app_disjoint {A} (a b : list A) :
  NoDup a -> NoDup b -> (forall x, In x a -> ~ In x b) -> NoDup (a ++ b).
Proof.
  induction a as [|x a IH]; simpl; intros Ha Hb Hd; [assumption|].
  inversion Ha as [|? ? Hx Ha']; subst. constructor.
  - intros Hin. apply in_app_or in Hin as [Hin|Hin]; [contradiction|].
    apply (Hd x); [left; reflexivity|assumption].
  - apply IH; auto.
Qed.

(** C5. For two rectangular tables that pass validation (same columns,
    unique keys on each side) and whose merge pandas accepts, the partition
    step completes; the joined frame has exactly one record for every key
    tuple that occurs in the left or in the right table; and with [n] the
    number of key tuples the two tables share, [left_only] has [n] rows
    fewer than the left table, [right_only] has [n] rows fewer than the
    right table, and [n] records are tagged [both]. *)
Theorem join_has_one_record_per_key
  (l r : Table) (keys : list string) (j : DataFrame) :
  rectangular (frame l) ->
  rectangular (frame r) ->
  fst (validate_data_quality (init l r keys)) = Ok tt ->
  Pandas.merge_outer_indicator (frame l) (frame r) keys
    "_left_table" "_right_table" = Ok j ->
  let n := shared_keys keys (frame l) (frame r) in
  (exists s lo ro,
      join_and_split (init l r keys) = (Ok tt, s) /\
      frame_of joined s = Some j /\
      frame_of left_only s = Some lo /\
      frame_of right_only s = Some ro /\
      List.length (rows lo) + n = List.length (rows (frame l)) /\
      List.length (rows ro) + n = List.length (rows (frame r))) /\
  NoDup (key_tuples keys j) /\
  (forall k, In k (key_tuples keys j) <->
             In k (key_tuples keys (frame l)) \/
             In k (key_tuples keys (frame r))) /\
  List.length (rows (tagged "both" j)) = n.
Proof.
  intros Hrl Hrr Hv Hmerge n.
  pose proof (validate_ok_inv _ _ _ Hv) as Hval.
  pose proof (merge_ok_inv _ _ _ Hmerge) as Hm.
  pose proof (validated_left_NoDup Hval) as HndL.
  pose proof (validated_right_NoDup Hval) as HndR.
  assert (Hn : n = List.length (filter (matched_left (frame l) (frame r) keys)
                                       (rows (frame l))))
    by apply shared_keys_as_matched.
  split; [|split; [|split]].
  - exists (split_state l r keys j).
    exists (side_frame "left_only" "_left_table" keys j).
    exists (side_frame "right_only" "_right_table" keys j).
    split; [apply join_and_split_ok; assumption|].
    repeat (split; [reflexivity|]).
    rewrite !side_frame_rows_length. split.
    + rewrite (left_only_count Hm Hrl), Hn.
      rewrite Nat.add_comm. apply filter_split_length.
    + rewrite (right_only_count Hm Hrl).
      rewrite (filter_ext _ _ (unmatched_right_key (frame l) (frame r) keys)).
      unfold n, shared_keys. rewrite (shared_count_sym HndL HndR).
      unfold key_tuples at 3. rewrite filter_map_comm, length_map.
      rewrite Nat.add_comm. apply filter_split_length.
  - rewrite (joined_key_tuples Hm Hrl HndR).
    apply NoDup_app_disjoint; [assumption|apply NoDup_filter; assumption|].
    intros k Hk Hin. apply filter_In in Hin as [_ Hin].
    apply negb_true_iff in Hin.
    apply key_mem_In in Hk. congruence.
  - intros k. rewrite (joined_key_tuples Hm Hrl HndR).
    rewrite in_app_iff, filter_In, negb_true_iff.
    destruct (key_mem k (key_tuples keys (frame l))) eqn:E.
    + apply key_mem_In in E. tauto.
    + split; [tauto|]. intros [H|H]; [left; exact H|right; tauto].
  - rewrite (both_count Hm Hrl HndR). symmetry; exact Hn.
Qed.

Lemma join_has_one_record_per_key_witness :
  exists s lo ro,
    join_and_split (init Ex.scenario_left Ex.scenario_right ["id"]) = (Ok tt, s) /\
    frame_of left_only s = Some lo /\
    frame_of right_only s = Some ro /\
    List.length (rows lo) + 1 = 2 /\
    List.length (rows ro) + 1 = 2.
Proof.
  destruct (@join_has_one_record_per_key
              Ex.scenario_left Ex.scenario_right ["id"]
              {| columns := ["id"; "v_left_table"; "v_right_table"; "_merge"];
                 rows := [[VInt 1; VStr "a"; VNull; VStr "left_only"];
                          [VInt 2; VStr "b"; VStr "b"; VStr "both"];
                          [VInt 3; VNull; VStr "c"; VStr "right_only"]] |})
    as ((s & lo & ro & Hs & _ & Hlo & Hro & Hl & Hr) & _).
  - repeat constructor.
  - repeat constructor.
  - reflexivity.
  - reflexivity.
  - exists s, lo, ro. repeat split; assumption.
Defined.

(** ** Occurrences of a suffix in a suffixed label *)

Lemma startswith_refl (p : string) : PyStr.startswith p p = true.
Proof.
  induction p as [|a p IH]; simpl; [reflexivity|].
  rewrite Ascii.eqb_refl. exact IH.
Qed.

Lemma startswith_contains (p s : string) :
  PyStr.startswith p s = true -> PyStr.contains p s = true.
Proof. intros H. destruct s; simpl in *; rewrite H; reflexivity. Qed.

Lemma contains_cons (p : string) (c : ascii) (s : string) :
  PyStr.contains p (String c s)
  = PyStr.startswith p (String c s) || PyStr.contains p s.
Proof. reflexivity. Qed.

(** A suffixed label contains its suffix. *)
Lemma contains_suffix (p s : string) : PyStr.contains p (s ++ p) = true.
Proof.
  induction s as [|c s IH].
  - simpl. apply startswith_contains, startswith_refl.
  - change (String c s ++ p)%string with (String c (s ++ p)).
    rewrite contains_cons, IH. apply orb_true_r.
Qed.

(** An occurrence of [p] at the start of [t ++ q] lies within [t], or it
    runs over into [q], where its remaining tail starts [q]. *)
Lemma startswith_app_inv (p t q : string) :
  PyStr.startswith p (t ++ q) = true ->
  PyStr.startswith p t = true \/
  (String.length t < String.length p /\
   PyStr.startswith (string_drop (String.length t) p) q = true).
Proof.
  revert t; induction p as [|a p IH]; intros t H; [left; reflexivity|].
  destruct t as [|b t].
  - right. split; [simpl; lia|exact H].
  - simpl in H |- *. destruct (Ascii.eqb a b); [|discriminate].
    destruct (IH t H) as [Hl|[Hlt Hr]]; [left; assumption|].
    right. split; [lia|assumption].
Qed.

Lemma straddles_found (p q : string) (n : nat) :
  0 < n -> n < String.length p ->
  PyStr.startswith (string_drop n p) q = true ->
  straddles p q = true.
Proof.
  intros H0 Hlt Hs. unfold straddles. apply existsb_exists.
  exists n. split; [|assumption]. apply in_seq. lia.
Qed.

Lemma contains_app_inv (p s q : string) :
  PyStr.contains p (s ++ q) = true ->
  PyStr.contains p s = true \/ PyStr.contains p q = true \/ straddles p q = true.
Proof.
  induction s as [|c s IH]; intros H.
  - right; left; exact H.
  - change (String c s ++ q)%string with (String c (s ++ q)) in H.
    rewrite contains_cons in H. apply orb_true_iff in H as [H|H].
    + change (String c (s ++ q)) with (String c s ++ q)%string in H.
      apply startswith_app_inv in H as [H|[Hlt H]].
      * left. apply startswith_contains; assumption.
      * right; right. apply (@straddles_found p q (String.length (String c s)));
          [simpl; lia|assumption|assumption].
    + destruct (IH H) as [H'|H']; [|right; exact H'].
      left. rewrite contains_cons, H'. apply orb_true_r.
Qed.

(** A plain label with one suffix appended does not contain the other
    suffix. *)
Lemma left_suffixed_has_no_right (s : string) :
  PyStr.contains "_right_table" s = false ->
  PyStr.contains "_right_table" (s ++ "_left_table") = false.
Proof.
  intros Hs. destruct (PyStr.contains _ (s ++ _)) eqn:E; [|reflexivity].
  apply contains_app_inv in E as [E|[E|E]]; [congruence| |];
    vm_compute in E; discriminate.
Qed.

Lemma right_suffixed_has_no_left (s : string) :
  PyStr.contains "_left_table" s = false ->
  PyStr.contains "_left_table" (s ++ "_right_table") = false.
Proof.
  intros Hs. destruct (PyStr.contains _ (s ++ _)) eqn:E; [|reflexivity].
  apply contains_app_inv in E as [E|[E|E]]; [congruence| |];
    vm_compute in E; discriminate.
Qed.

(** ** Deleting the suffix again *)

Lemma remove_scan_no_occurrence (p s : string) :
  PyStr.contains p s = false -> PyStr.remove_scan p 0 s = s.
Proof.
  induction s as [|c s IH]; intros H; [reflexivity|].
  rewrite contains_cons in H. apply orb_false_iff in H as [H1 H2].
  cbn [PyStr.remove_scan]. rewrite H1, (IH H2). reflexivity.
Qed.

Lemma remove_scan_suffix (p s : string) :
  p <> EmptyString ->
  straddles p p = false ->
  PyStr.contains p s = false ->
  PyStr.remove_scan p 0 (s ++ p) = s.
Proof.
  intros Hp Hstr. induction s as [|c s IH]; intros H.
  - destruct p as [|a p]; [congruence|].
    change ("" ++ String a p)%string with (String a p).
    cbn [PyStr.remove_scan]. rewrite startswith_refl.
    replace (String.length (String a p) - 1) with (String.length p)
      by (simpl; lia).
    generalize (String a p). clear. intros q.
    induction p as [|c p IH]; simpl; [reflexivity|exact IH].
  - rewrite contains_cons in H. apply orb_false_iff in H as [H1 H2].
    change (String c s ++ p)%string with (String c (s ++ p)).
    cbn [PyStr.remove_scan].
    destruct (PyStr.startswith p (String c (s ++ p))) eqn:E.
    + change (String c (s ++ p)) with (String c s ++ p)%string in E.
      apply startswith_app_inv in E as [E|[Hlt E]]; [congruence|].
      exfalso.
      assert (straddles p p = true).
      { apply (@straddles_found p p (String.length (String c s)));
          [simpl; lia|assumption|assumption]. }
      congruence.
    + rewrite (IH H2). reflexivity.
Qed.

Lemma remove_all_plain (p s : string) :
  PyStr.contains p s = false -> PyStr.remove_all p s = s.
Proof.
  intros H. unfold PyStr.remove_all. destruct p; [reflexivity|].
  apply remove_scan_no_occurrence; assumption.
Qed.

Lemma remove_all_left_suffix (s : string) :
  PyStr.contains "_left_table" s = false ->
  PyStr.remove_all "_left_table" (s ++ "_left_table") = s.
Proof.
  intros H. apply remove_scan_suffix; [discriminate|reflexivity|assumption].
Qed.

Lemma remove_all_right_suffix (s : string) :
  PyStr.contains "_right_table" s = false ->
  PyStr.remove_all "_right_table" (s ++ "_right_table") = s.
Proof.
  intros H. apply remove_scan_suffix; [discriminate|reflexivity|assumption].
Qed.

Lemma string_app_inv_tail (a b p : string) :
  (a ++ p)%string = (b ++ p)%string -> a = b.
Proof.
  revert b; induction a as [|x a IH]; intros [|y b] H.
  - reflexivity.
  - exfalso. apply (f_equal String.length) in H.
    simpl in H. rewrite string_length_append in H. lia.
  - exfalso. apply (f_equal String.length) in H.
    simpl in H. rewrite string_length_append in H. lia.
  - simpl in H. injection H as -> H. f_equal. apply IH; assumption.
Qed.

(** ** The labels of the joined frame when the input labels are plain *)

Lemma plain_label_inv (c : string) :
  plain_label c = true ->
  PyStr.contains "_left_table" c = false /\
  PyStr.contains "_right_table" c = false /\
  ~ In c reserved_labels.
Proof.
  unfold plain_label. rewrite !andb_true_iff, !negb_true_iff.
  intros [[H1 H2] H3]. repeat split; try assumption.
  apply mem_false; assumption.
Qed.

Lemma NoDup_map_on {A B} (f : A -> B) (l : list A) :
  NoDup l ->
  (forall x y, In x l -> In y l -> f x = f y -> x = y) ->
  NoDup (map f l).
Proof.
  induction l as [|x l IH]; simpl; intros Hnd Hinj; [constructor|].
  inversion Hnd as [|? ? Hx Hnd']; subst. constructor.
  - intros Hin. apply in_map_iff in Hin as (y & E & Hy).
    assert (y = x) by (apply Hinj; auto). subst. contradiction.
  - apply IH; auto.
Qed.

Section PlainLabels.

Variables (cols keys : list string).
Hypothesis Hplain : forallb plain_label cols = true.
Hypothesis Hnd : NoDup cols.
Hypothesis Hkeys : incl keys cols.

Local Abbreviation ll := (Pandas.left_labels cols cols keys "_left_table").
Local Abbreviation rl := (Pandas.right_labels cols cols keys "_right_table").
Local Abbreviation nk := (Pandas.nonkeys keys cols).

Lemma plain_col (c : string) : In c cols -> plain_label c = true.
Proof. intros H. exact (proj1 (forallb_forall _ _) Hplain c H). Qed.

Lemma nonkey_col (c : string) : In c nk -> In c cols /\ mem c keys = false.
Proof.
  unfold Pandas.nonkeys. rewrite filter_In, negb_true_iff. tauto.
Qed.

Lemma suffixed_col (suffix c : string) :
  In c cols ->
  Pandas.suffixed keys cols suffix c
  = if mem c keys then c else (c ++ suffix)%string.
Proof.
  intros H. unfold Pandas.suffixed. apply mem_In in H. rewrite H. reflexivity.
Qed.

Lemma right_labels_plain : rl = map (fun c => (c ++ "_right_table")%string) nk.
Proof.
  unfold Pandas.right_labels. apply map_ext_in. intros c Hc.
  apply nonkey_col in Hc as [Hc Hk]. rewrite suffixed_col by assumption.
  rewrite Hk. reflexivity.
Qed.

Lemma left_marked_among (cs : list string) :
  incl cs cols ->
  filter (PyStr.contains "_left_table")
         (map (Pandas.suffixed keys cols "_left_table") cs)
  = map (fun c => (c ++ "_left_table")%string) (Pandas.nonkeys keys cs).
Proof.
  unfold Pandas.nonkeys.
  induction cs as [|c cs IH]; intros Hsub; [reflexivity|].
  assert (Hc : In c cols) by (apply Hsub; left; reflexivity).
  assert (Hcs : incl cs cols) by (intros x Hx; apply Hsub; right; exact Hx).
  cbn [map filter]. rewrite suffixed_col by assumption.
  destruct (mem c keys); cbn [negb].
  - rewrite (proj1 (plain_label_inv c (plain_col c Hc))). apply IH; assumption.
  - rewrite contains_suffix. cbn [map]. f_equal. apply IH; assumption.
Qed.

(** Line 95: the labels with [_left_table] in them are the suffixed
    non-key columns of the left table, in order. *)
Lemma left_marked_labels :
  filter (PyStr.contains "_left_table") (ll ++ rl ++ ["_merge"])
  = map (fun c => (c ++ "_left_table")%string) nk.
Proof.
  rewrite !filter_app.
  rewrite (@filter_none _ _ rl), (@filter_none _ _ ["_merge"]); cycle 1.
  { intros x [<-|[]]. reflexivity. }
  { rewrite right_labels_plain. intros x Hx.
    apply in_map_iff in Hx as (c & <- & Hc). apply nonkey_col in Hc as [Hc _].
    apply right_suffixed_has_no_left.
    apply (plain_label_inv c (plain_col c Hc)). }
  rewrite !app_nil_r. apply left_marked_among. apply incl_refl.
Qed.

(** Line 96: the labels with [_right_table] in them are the suffixed
    non-key columns of the right table, in order. *)
Lemma right_marked_labels :
  filter (PyStr.contains "_right_table") (ll ++ rl ++ ["_merge"])
  = map (fun c => (c ++ "_right_table")%string) nk.
Proof.
  rewrite !filter_app.
  rewrite (@filter_none _ _ ll), (@filter_none _ _ ["_merge"]); cycle 1.
  { intros x [<-|[]]. reflexivity. }
  { intros x Hx. apply in_map_iff in Hx as (c & <- & Hc).
    rewrite suffixed_col by assumption.
    destruct (plain_label_inv c (plain_col c Hc)) as (H1 & H2 & _).
    destruct (mem c keys); [assumption|].
    apply left_suffixed_has_no_right; assumption. }
  rewrite app_nil_r. simpl. rewrite right_labels_plain.
  apply filter_all. intros x Hx. apply in_map_iff in Hx as (c & <- & _).
  apply contains_suffix.
Qed.

Lemma suffixed_left_inj (x c : string) :
  In x cols -> In c cols ->
  Pandas.suffixed keys cols "_left_table" x
  = Pandas.suffixed keys cols "_left_table" c -> x = c.
Proof.
  intros Hx Hc. rewrite !suffixed_col by assumption.
  destruct (plain_label_inv x (plain_col x Hx)) as (Hx1 & _).
  destruct (plain_label_inv c (plain_col c Hc)) as (Hc1 & _).
  destruct (mem x keys), (mem c keys); intros E.
  - assumption.
  - exfalso. rewrite E, contains_suffix in Hx1. discriminate.
  - exfalso. rewrite <- E, contains_suffix in Hc1. discriminate.
  - apply string_app_inv_tail in E; assumption.
Qed.

Lemma left_labels_NoDup : NoDup ll.
Proof.
  apply NoDup_map_on; [assumption|].
  intros x y Hx Hy. apply suffixed_left_inj; assumption.
Qed.

Lemma right_labels_NoDup : NoDup rl.
Proof.
  rewrite right_labels_plain. apply NoDup_map_on.
  - apply NoDup_filter; assumption.
  - intros x y _ _ E. apply string_app_inv_tail in E; assumption.
Qed.

Lemma left_label_has_no_right (x : string) :
  In x ll -> PyStr.contains "_right_table" x = false.
Proof.
  intros Hx. apply in_map_iff in Hx as (c & <- & Hc).
  rewrite suffixed_col by assumption.
  destruct (plain_label_inv c (plain_col c Hc)) as (H1 & H2 & _).
  destruct (mem c keys); [assumption|].
  apply left_suffixed_has_no_right; assumption.
Qed.

Lemma reserved_not_label (x : string) :
  In x reserved_labels -> ~ In x (ll ++ rl).
Proof.
  intros Hres Hin.
  assert (Hcases : exists c, In c cols /\
                     (x = c \/ x = (c ++ "_left_table")%string
                      \/ x = (c ++ "_right_table")%string)).
  { apply in_app_or in Hin as [Hin|Hin].
    - apply in_map_iff in Hin as (c & <- & Hc). exists c. split; [assumption|].
      rewrite suffixed_col by assumption. destruct (mem c keys); auto.
    - rewrite right_labels_plain in Hin.
      apply in_map_iff in Hin as (c & <- & Hc). apply nonkey_col in Hc as [Hc _].
      exists c. auto. }
  destruct Hcases as (c & Hc & [->|[->| ->]]).
  - exact (proj2 (proj2 (plain_label_inv c (plain_col c Hc))) Hres).
  - assert (E : PyStr.contains "_left_table" (c ++ "_left_table") = true)
      by apply contains_suffix.
    simpl in Hres. destruct Hres as [H|[H|[H|[H|[]]]]];
      rewrite <- H in E; vm_compute in E; discriminate.
  - assert (E : PyStr.contains "_right_table" (c ++ "_right_table") = true)
      by apply contains_suffix.
    simpl in Hres. destruct Hres as [H|[H|[H|[H|[]]]]];
      rewrite <- H in E; vm_compute in E; discriminate.
Qed.

(** The labels of the joined frame are pairwise different. *)
Lemma joined_labels_NoDup : NoDup (ll ++ rl ++ ["_merge"]).
Proof.
  rewrite app_assoc. apply NoDup_app_disjoint.
  - apply NoDup_app_disjoint;
      [apply left_labels_NoDup|apply right_labels_NoDup|].
    intros x Hl Hr. apply left_label_has_no_right in Hl.
    rewrite right_labels_plain in Hr.
    apply in_map_iff in Hr as (c & <- & _).
    rewrite contains_suffix in Hl. discriminate.
  - repeat constructor. intros [].
  - intros x Hx [<-|[]]. revert Hx. apply reserved_not_label.
    left; reflexivity.
Qed.

Lemma body_labels_NoDup : NoDup (ll ++ rl).
Proof.
  pose proof joined_labels_NoDup as H. rewrite app_assoc in H.
  apply NoDup_app_remove_r in H. exact H.
Qed.

End PlainLabels.

(** ** Selection by label in a frame with pairwise different labels *)

Lemma lookup_all_absent (cols : list string) (row : list value) (c : string) :
  ~ In c cols -> Pandas.lookup_all cols row c = [].
Proof.
  revert row; induction cols as [|k cols IH]; intros [|v row] H; simpl; auto.
  destruct (String.eqb_spec c k) as [->|_].
  - exfalso; apply H; left; reflexivity.
  - apply IH. intros Hin; apply H; right; assumption.
Qed.

Lemma lookup_all_unique (cols : list string) (row : list value) (c : string) :
  NoDup cols -> In c cols -> List.length row = List.length cols ->
  Pandas.lookup_all cols row c = [Pandas.cell cols row c].
Proof.
  revert row; induction cols as [|k cols IH]; intros [|v row] Hnd Hin Hlen;
    simpl in *; try discriminate; [contradiction|].
  inversion Hnd as [|? ? Hk Hnd']; subst.
  destruct (String.eqb_spec c k) as [->|Hneq].
  - rewrite lookup_all_absent by assumption. reflexivity.
  - apply IH; [assumption|destruct Hin; [congruence|assumption]|lia].
Qed.

Lemma take_labels_cells (cols labels : list string) (row : list value) :
  NoDup cols -> incl labels cols -> List.length row = List.length cols ->
  Pandas.take_labels cols labels row = map (Pandas.cell cols row) labels.
Proof.
  intros Hnd Hincl Hlen. unfold Pandas.take_labels.
  induction labels as [|x labels IH]; simpl; [reflexivity|].
  rewrite lookup_all_unique; auto.
  - simpl. f_equal. apply IH. intros y Hy; apply Hincl; right; exact Hy.
  - apply Hincl; left; reflexivity.
Qed.

Lemma filter_eqb_unique (cols : list string) (c : string) :
  NoDup cols -> In c cols -> filter (String.eqb c) cols = [c].
Proof.
  induction cols as [|k cols IH]; simpl; intros Hnd Hin; [contradiction|].
  inversion Hnd as [|? ? Hk Hnd']; subst.
  destruct (String.eqb_spec c k) as [->|Hneq].
  - f_equal. apply filter_none. intros x Hx.
    apply String.eqb_neq. intros ->. contradiction.
  - apply IH; [assumption|destruct Hin; [congruence|assumption]].
Qed.

Lemma selected_labels_unique (cols labels : list string) :
  NoDup cols -> incl labels cols -> Pandas.selected_labels cols labels = labels.
Proof.
  intros Hnd Hincl. unfold Pandas.selected_labels.
  induction labels as [|x labels IH]; simpl; [reflexivity|].
  rewrite filter_eqb_unique; auto.
  - simpl. f_equal. apply IH. intros y Hy; apply Hincl; right; exact Hy.
  - apply Hincl; left; reflexivity.
Qed.

Lemma cells_self (cols : list string) (row : list value) :
  NoDup cols -> List.length row = List.length cols ->
  map (Pandas.cell cols row) cols = row.
Proof.
  revert row; induction cols as [|k cols IH]; intros [|v row] Hnd Hlen;
    simpl in *; try discriminate; [reflexivity|].
  inversion Hnd as [|? ? Hk Hnd']; subst.
  rewrite String.eqb_refl. f_equal.
  transitivity (map (Pandas.cell cols row) cols); [|apply IH; [assumption|lia]].
  apply map_ext_in. intros c Hc.
  destruct (String.eqb_spec c k) as [->|_]; [contradiction|reflexivity].
Qed.

(** The key columns and the other columns make up the columns. *)
Lemma keys_nonkeys_length (keys cols : list string) :
  NoDup keys -> NoDup cols -> incl keys cols ->
  List.length keys + List.length (Pandas.nonkeys keys cols) = List.length cols.
Proof.
  intros Hk Hc Hincl.
  rewrite <- (filter_split_length (fun c => mem c keys) cols).
  f_equal. apply Permutation_length. apply NoDup_Permutation.
  - assumption.
  - apply NoDup_filter; assumption.
  - intros x. rewrite filter_In, mem_In. split; [|tauto].
    intros Hx. split; [apply Hincl|]; assumption.
Qed.

(** ** The field comparison, step by step *)

Lemma compare_run (s : state) (bl : loc)
  (wm cat rel c : DataFrame) (dfs : list DataFrame) :
  both (self s) = Some bl ->
  Pandas.getitem_columns
    (filter (fun c => negb (String.eqb c "_merge"))
            (columns (nth bl (store s) empty_frame)))
    (nth bl (store s) empty_frame) = Ok wm ->
  comparison_loop (columns (Pandas.fillna (VStr "") wm))
    (primary_keys (self s)
     ++ filter (PyStr.contains "_left_table")
               (columns (nth bl (store s) empty_frame)))
    (primary_keys (self s)
     ++ filter (PyStr.contains "_right_table")
               (columns (nth bl (store s) empty_frame)))
    (rows (Pandas.fillna (VStr "") wm)) = Ok dfs ->
  Pandas.concat dfs = Ok cat ->
  Pandas.set_columns
    (columns (frame (left_table (self s))) ++ ["comparison"]) cat = Ok rel ->
  Pandas.getitem_columns
    (["comparison"] ++ columns (frame (left_table (self s)))) rel = Ok c ->
  compare_records_in_both s
  = (Ok tt,
     {| store := store s ++ [wm; Pandas.fillna (VStr "") wm; rel; c; c];
        self := with_comparison (self s) (List.length (store s) + 4) |}).
Proof.
  intros Hb Hwm Hloop Hcat Hrel Hc.
  unfold compare_records_in_both.
  unfold bind at 1. unfold get_self.
  unfold bind at 1. unfold attr. rewrite Hb.
  unfold bind at 1. unfold load at 1.
  unfold bind at 1. unfold lift at 1. rewrite Hwm.
  unfold bind at 1. unfold alloc at 1.
  unfold bind at 1. unfold copy, bind, load, alloc. cbn [store self].
  rewrite nth_app_new.
  unfold fillna_inplace, bind, load, overwrite. cbn [store self].
  rewrite !length_app. cbn [List.length].
  replace (List.length (store s) + 1) with (List.length (store s ++ [wm]))
    by (rewrite length_app; reflexivity).
  rewrite nth_app_new, replace_nth_last, nth_app_new.
  unfold lift at 1. rewrite Hloop.
  unfold lift at 1. rewrite Hcat.
  unfold set_columns_inplace, bind, load, lift, overwrite. cbn [store self].
  rewrite !length_app. cbn [List.length].
  replace (List.length (store s) + 1 + 1) with
    (List.length ((store s ++ [wm]) ++ [Pandas.fillna (VStr "") wm]))
    by (rewrite !length_app; reflexivity).
  rewrite nth_app_new. rewrite Hrel. cbn [store self].
  rewrite replace_nth_last, nth_app_new. rewrite Hc.
  unfold set_self, with_comparison. cbn [store self].
  rewrite nth_app_new.
  rewrite !length_app. cbn [List.length].
  rewrite <- !app_assoc. cbn [app].
  replace (List.length (store s) + 1 + 1 + 1 + 1) with (List.length (store s) + 4)
    by lia.
  reflexivity.
Qed.

(** ** The comparison frame for plain labels *)

Section Comparison.

Variables (cols keys : list string) (b : DataFrame).
Hypothesis Hplain : forallb plain_label cols = true.
Hypothesis Hnd : NoDup cols.
Hypothesis Hkeys : incl keys cols.
Hypothesis Hknd : NoDup keys.

Local Abbreviation ll := (Pandas.left_labels cols cols keys "_left_table").
Local Abbreviation rl := (Pandas.right_labels cols cols keys "_right_table").
Local Abbreviation nk := (Pandas.nonkeys keys cols).
Local Abbreviation jcols := (ll ++ rl ++ ["_merge"]).

Hypothesis Hbcols : columns b = jcols.
Hypothesis Hbrect : rectangular b.

Lemma without_indicator :
  filter (fun c => negb (String.eqb c "_merge")) jcols = ll ++ rl.
Proof.
  rewrite app_assoc, filter_app. cbn [filter].
  rewrite String.eqb_refl. cbn [negb]. rewrite app_nil_r.
  apply filter_all. intros x Hx. apply negb_true_iff, String.eqb_neq.
  intros ->. revert Hx.
  apply (@reserved_not_label cols keys Hplain "_merge"). left; reflexivity.
Qed.

Lemma body_in_joined : incl (ll ++ rl) jcols.
Proof. intros x Hx. rewrite app_assoc. apply in_or_app; left; exact Hx. Qed.

Lemma key_in_body (k : string) : In k keys -> In k (ll ++ rl).
Proof.
  intros Hk. apply in_or_app; left. apply in_map_iff. exists k.
  split; [apply suffixed_key; assumption|apply Hkeys; assumption].
Qed.

Lemma left_columns_in_body : incl (left_columns_of keys cols) (ll ++ rl).
Proof.
  intros x Hx. apply in_app_or in Hx as [Hx|Hx]; [apply key_in_body; exact Hx|].
  apply in_map_iff in Hx as (c & <- & Hc).
  apply (@nonkey_col cols keys) in Hc as [Hc Hk].
  apply in_or_app; left. apply in_map_iff. exists c. split; [|assumption].
  rewrite (@suffixed_col cols keys "_left_table" c Hc), Hk. reflexivity.
Qed.

Lemma right_columns_in_body : incl (right_columns_of keys cols) (ll ++ rl).
Proof.
  intros x Hx. apply in_app_or in Hx as [Hx|Hx]; [apply key_in_body; exact Hx|].
  apply in_or_app; right. rewrite (@right_labels_plain cols keys). exact Hx.
Qed.

Lemma left_columns_length :
  List.length (left_columns_of keys cols) = List.length cols.
Proof.
  unfold left_columns_of. rewrite length_app, length_map.
  apply keys_nonkeys_length; assumption.
Qed.

Lemma right_columns_length :
  List.length (right_columns_of keys cols) = List.length cols.
Proof.
  unfold right_columns_of. rewrite length_app, length_map.
  apply keys_nonkeys_length; assumption.
Qed.

Lemma without_merge_ok :
  Pandas.getitem_columns
    (filter (fun c => negb (String.eqb c "_merge")) (columns b)) b
  = Ok (without_merge_frame keys cols b).
Proof.
  unfold Pandas.getitem_columns. rewrite missing_label_filter.
  rewrite Hbcols, without_indicator. unfold without_merge_frame. f_equal.
  rewrite <- app_assoc. f_equal.
  - apply selected_labels_unique;
      [apply joined_labels_NoDup; assumption|apply body_in_joined].
  - apply map_ext_in. intros row Hrow.
    apply take_labels_cells;
      [apply joined_labels_NoDup; assumption|apply body_in_joined|].
    rewrite <- Hbcols. exact (proj1 (Forall_forall _ _) Hbrect row Hrow).
Qed.

(** The cells of a filled record, by label. *)
Lemma filled_cell (brow : list value) (x : string) :
  In x (ll ++ rl) ->
  Pandas.cell (ll ++ rl)
    (map (fun v => if isna v then VStr "" else v)
         (map (Pandas.cell jcols brow) (ll ++ rl))) x
  = filled (Pandas.cell jcols brow x).
Proof.
  intros Hx. rewrite map_map.
  rewrite (@cell_map_self (ll ++ rl)
             (fun c => if isna (Pandas.cell jcols brow c) then VStr ""
                       else Pandas.cell jcols brow c) x Hx).
  reflexivity.
Qed.

(** Lines 103-109 for one record. *)
Lemma comparison_rows_ok (brow : list value) :
  comparison_rows (ll ++ rl)
    (keys ++ filter (PyStr.contains "_left_table") jcols)
    (keys ++ filter (PyStr.contains "_right_table") jcols)
    (map (fun v => if isna v then VStr "" else v)
         (map (Pandas.cell jcols brow) (ll ++ rl)))
  = Ok (unlabelled_record jcols keys cols brow).
Proof.
  rewrite (@left_marked_labels cols keys Hplain).
  rewrite (@right_marked_labels cols keys Hplain).
  fold (left_columns_of keys cols) (right_columns_of keys cols).
  unfold comparison_rows, Pandas.series_getitem.
  rewrite (proj2 (missing_label_None _ _) left_columns_in_body).
  rewrite (proj2 (missing_label_None _ _) right_columns_in_body).
  assert (Hlen : forall labels,
             List.length
               (map (fun v => if isna v then VStr "" else v)
                    (map (Pandas.cell jcols brow) labels))
             = List.length labels)
    by (intros; rewrite !length_map; reflexivity).
  rewrite !take_labels_cells;
    try (apply (@body_labels_NoDup cols keys Hplain Hnd));
    try apply left_columns_in_body; try apply right_columns_in_body;
    try apply Hlen.
  rewrite (map_ext_in _ (fun c => filled (Pandas.cell jcols brow c))
             (left_columns_of keys cols))
    by (intros x Hx; apply filled_cell, left_columns_in_body, Hx).
  rewrite (map_ext_in _ (fun c => filled (Pandas.cell jcols brow c))
             (right_columns_of keys cols))
    by (intros x Hx; apply filled_cell, right_columns_in_body, Hx).
  fold (left_values jcols keys cols brow) (right_values jcols keys cols brow).
  unfold Pandas.series_eq.
  assert (El : List.length (left_values jcols keys cols brow) = List.length cols)
    by (unfold left_values; rewrite length_map; apply left_columns_length).
  assert (Er : List.length (right_values jcols keys cols brow) = List.length cols)
    by (unfold right_values; rewrite length_map; apply right_columns_length).
  rewrite El, Er, Nat.eqb_refl. reflexivity.
Qed.

Lemma comparison_loop_ok (brows : list (list value)) :
  comparison_loop (ll ++ rl)
    (keys ++ filter (PyStr.contains "_left_table") jcols)
    (keys ++ filter (PyStr.contains "_right_table") jcols)
    (map (map (fun v => if isna v then VStr "" else v))
         (map (fun row => map (Pandas.cell jcols row) (ll ++ rl)) brows))
  = Ok (map (unlabelled_record jcols keys cols) brows).
Proof.
  induction brows as [|brow brows IH]; [reflexivity|].
  cbn [map comparison_loop]. rewrite comparison_rows_ok, IH. reflexivity.
Qed.

End Comparison.

(** ** Lines 112-115: concatenation, relabelling and reordering *)

Lemma range_labels_length (n : nat) : List.length (range_labels n) = n.
Proof. unfold range_labels. rewrite length_map, length_seq. reflexivity. Qed.

Lemma flags_length (lv rv : list value) :
  List.length lv = List.length rv ->
  List.length (flags lv rv) = List.length lv.
Proof.
  intros H. unfold flags. rewrite length_map, length_combine, <- H.
  apply Nat.min_id.
Qed.

Section Relabelling.

Variable cols : list string.
Hypothesis Hnd : NoDup cols.
Hypothesis Hfresh : ~ In "comparison" cols.

Lemma relabelled_NoDup : NoDup (cols ++ ["comparison"]).
Proof.
  apply NoDup_app_disjoint; [assumption|repeat constructor; intros []|].
  intros x Hx [<-|[]]. contradiction.
Qed.

Lemma reorder_row (x : list value) (t : value) :
  List.length x = List.length cols ->
  Pandas.take_labels (cols ++ ["comparison"]) (["comparison"] ++ cols)
    (x ++ [t])
  = t :: x.
Proof.
  intros Hlen.
  rewrite take_labels_cells.
  - cbn [app map]. f_equal.
    + rewrite cell_app_r by assumption. cbn. rewrite String.eqb_refl.
      reflexivity.
    + transitivity (map (Pandas.cell cols x) cols);
        [|apply cells_self; assumption].
      apply map_ext_in. intros c Hc. apply cell_app_l; assumption.
  - apply relabelled_NoDup.
  - intros c [<-|Hc]; apply in_or_app; [right; left; reflexivity|left; exact Hc].
  - rewrite !length_app, Hlen. reflexivity.
Qed.

Lemma reorder_labels :
  Pandas.selected_labels (cols ++ ["comparison"]) (["comparison"] ++ cols)
  = "comparison" :: cols.
Proof.
  apply selected_labels_unique; [apply relabelled_NoDup|].
  intros c [<-|Hc]; apply in_or_app; [right; left; reflexivity|left; exact Hc].
Qed.

Lemma reorder_present :
  Pandas.missing_label (["comparison"] ++ cols) (cols ++ ["comparison"]) = None.
Proof.
  apply missing_label_None.
  intros c [<-|Hc]; apply in_or_app; [right; left; reflexivity|left; exact Hc].
Qed.

End Relabelling.

(** ** The field comparison on plain labels *)

Section CompareOk.

Variables (cols keys : list string) (b : DataFrame).
Hypothesis Hplain : forallb plain_label cols = true.
Hypothesis Hnd : NoDup cols.
Hypothesis Hkeys : incl keys cols.
Hypothesis Hknd : NoDup keys.

Local Abbreviation jcols :=
  (Pandas.left_labels cols cols keys "_left_table"
   ++ Pandas.right_labels cols cols keys "_right_table" ++ ["_merge"]).

Hypothesis Hbcols : columns b = jcols.
Hypothesis Hbrect : rectangular b.
Hypothesis Hne : rows b <> [].

Lemma comparison_not_a_column : ~ In "comparison" cols.
Proof.
  intros Hin.
  pose proof (proj1 (forallb_forall _ _) Hplain _ Hin) as Hp.
  apply plain_label_inv in Hp as (_ & _ & Hres). apply Hres.
  right; right; right; left; reflexivity.
Qed.

Lemma reordered_records (brows : list (list value)) :
  map (Pandas.take_labels (cols ++ ["comparison"]) (["comparison"] ++ cols))
      (flat_map rows (map (unlabelled_record jcols keys cols) brows))
  = flat_map (record_rows jcols keys cols) brows.
Proof.
  pose proof comparison_not_a_column as Hfresh.
  assert (El : forall brow,
             List.length (left_values jcols keys cols brow) = List.length cols).
  { intros. unfold left_values. rewrite length_map.
    apply left_columns_length; assumption. }
  assert (Er : forall brow,
             List.length (right_values jcols keys cols brow) = List.length cols).
  { intros. unfold right_values. rewrite length_map.
    apply right_columns_length; assumption. }
  induction brows as [|brow brows IH]; [reflexivity|].
  cbn [map flat_map]. rewrite map_app, IH. f_equal.
  unfold unlabelled_record, record_rows. cbn [rows map].
  rewrite !reorder_row; auto.
  rewrite flags_length; [apply El|]. rewrite El, Er. reflexivity.
Qed.

(** On a comparator whose [both] frame is [b], the field comparison
    returns and stores [comparison_of keys cols b]. *)
Lemma compare_ok (s : state) (bl : loc) :
  both (self s) = Some bl ->
  nth bl (store s) empty_frame = b ->
  columns (frame (left_table (self s))) = cols ->
  primary_keys (self s) = keys ->
  exists tmp1 tmp2 tmp3,
    compare_records_in_both s
    = (Ok tt,
       {| store := store s ++ [tmp1; tmp2; tmp3;
                               comparison_of keys cols b;
                               comparison_of keys cols b];
          self := with_comparison (self s) (List.length (store s) + 4) |}).
Proof.
  intros Hb Hnth Hcols Hk.
  pose proof comparison_not_a_column as Hfresh.
  destruct (rows b) as [|brow0 brows0] eqn:Hrows; [congruence|].
  eexists; eexists; eexists.
  eapply compare_run with (bl := bl); rewrite ?Hnth, ?Hcols, ?Hk.
  - exact Hb.
  - exact (@without_merge_ok cols keys b Hplain Hnd Hbcols Hbrect).
  - rewrite Hbcols. unfold without_merge_frame, Pandas.fillna. cbn [rows columns].
    rewrite <- app_assoc. apply comparison_loop_ok; assumption.
  - rewrite Hrows. cbn [map Pandas.concat]. reflexivity.
  - unfold Pandas.set_columns. cbn [columns unlabelled_record].
    rewrite !length_app, range_labels_length, Nat.eqb_refl. reflexivity.
  - unfold Pandas.getitem_columns. cbn [columns rows].
    rewrite (reorder_present cols).
    rewrite (reorder_labels Hnd Hfresh).
    unfold comparison_of. rewrite Hbcols, Hrows.
    f_equal. f_equal.
    apply (reordered_records (brow0 :: brows0)).
Qed.

End CompareOk.

(** ** The whole of [prepare_results] on well-formed inputs *)

Lemma index_duplicated_NoDup (seen labels : list string) :
  NoDup labels -> (forall x, In x labels -> ~ In x seen) ->
  Pandas.index_duplicated_from seen labels = map (fun _ => false) labels.
Proof.
  revert seen; induction labels as [|x labels IH]; intros seen Hnd Hd;
    [reflexivity|].
  inversion Hnd as [|? ? Hx Hnd']; subst. cbn [Pandas.index_duplicated_from map].
  rewrite (proj2 (mem_false x seen)) by (apply Hd; left; reflexivity).
  f_equal. apply IH; [assumption|].
  intros y Hy [<-|Hin]; [contradiction|].
  apply (Hd y); [right; assumption|assumption].
Qed.

Lemma no_suffix_duplicates (orig renamed : list string) :
  NoDup renamed -> Pandas.suffix_duplicates orig renamed = [].
Proof.
  intros Hnd. unfold Pandas.suffix_duplicates, Pandas.index_duplicated.
  rewrite (@index_duplicated_NoDup [] renamed Hnd) by (intros x _ []).
  generalize (Pandas.index_duplicated_from [] orig). intros dups.
  clear Hnd. revert dups. induction renamed as [|x renamed IH]; intros [|d dups];
    simpl; auto.
Qed.

Section WellFormed.

Variables (l r : Table) (keys : list string).
Hypothesis Hwf : well_formed l r keys.
Hypothesis Hval : validated l r keys.

Local Abbreviation cols := (columns (frame l)).
Local Abbreviation j := (joined_frame (frame l) (frame r) keys).

Lemma wf_right_columns : columns (frame r) = cols.
Proof. symmetry. exact (same_columns Hval). Qed.

Lemma wf_not_reserved (x : string) : In x reserved_labels -> ~ In x cols.
Proof.
  intros Hres Hin.
  pose proof (proj1 (forallb_forall _ _) (wf_columns_plain Hwf) _ Hin) as Hp.
  apply plain_label_inv in Hp as (_ & _ & H). contradiction.
Qed.

(** pandas accepts the merge. *)
Lemma wf_merge_ok :
  Pandas.merge_outer_indicator (frame l) (frame r) keys
    "_left_table" "_right_table" = Ok j.
Proof.
  unfold Pandas.merge_outer_indicator, joined_frame.
  rewrite wf_right_columns.
  rewrite (proj2 (missing_label_None _ _) (keys_present Hval)).
  assert (Hres : existsb (fun c => mem c cols || mem c cols)
                         Pandas.indicator_reserved = false).
  { apply not_true_is_false. intros H. apply existsb_exists in H as (x & Hx & H).
    rewrite orb_diag in H. apply mem_In in H. revert H. apply wf_not_reserved.
    destruct Hx as [<-|[<-|[]]]; simpl; auto. }
  rewrite Hres.
  assert (Hm : mem "_merge" cols = false).
  { apply mem_false. apply wf_not_reserved. left; reflexivity. }
  rewrite Hm. cbn [orb].
  rewrite (@no_suffix_duplicates cols
             (Pandas.left_labels cols cols keys "_left_table")).
  2:{ apply left_labels_NoDup;
        [exact (wf_columns_plain Hwf)|exact (wf_columns_unique Hwf)]. }
  rewrite (@no_suffix_duplicates (Pandas.nonkeys keys cols)
             (Pandas.right_labels cols cols keys "_right_table")).
  2:{ apply right_labels_NoDup; exact (wf_columns_unique Hwf). }
  reflexivity.
Qed.

Lemma wf_merged : merged (frame l) (frame r) keys j.
Proof. apply merge_ok_inv. exact wf_merge_ok. Qed.

Lemma joined_rectangular : rectangular j.
Proof.
  pose proof wf_merged as Hm.
  apply Forall_forall. intros row Hrow.
  rewrite (merged_columns Hm). rewrite app_assoc, length_app. cbn [List.length].
  rewrite (merged_rows Hm) in Hrow. unfold Pandas.merge_rows in Hrow.
  apply in_app_or in Hrow as [Hrow|Hrow].
  - apply in_flat_map in Hrow as (lrow & Hl & Hrow).
    assert (Hshape : exists x t, row = (lrow ++ x) ++ [t] /\
              List.length x
              = List.length (Pandas.right_labels cols (columns (frame r)) keys
                               "_right_table")).
    { unfold Pandas.rows_of_left in Hrow. destruct (filter _ _).
      - destruct Hrow as [<-|[]]. eexists; eexists. rewrite <- app_assoc.
        split; [reflexivity|]. unfold Pandas.right_labels.
        rewrite !length_map. reflexivity.
      - apply in_map_iff in Hrow as (rrow & <- & _).
        eexists; eexists. rewrite <- app_assoc. split; [reflexivity|].
        apply nonkey_values_length. }
    destruct Hshape as (x & t & -> & Hx).
    rewrite length_app. cbn [List.length]. f_equal.
    apply left_body_length; try assumption. exact (wf_left_rectangular Hwf).
  - apply in_map_iff in Hrow as (rrow & <- & _).
    unfold Pandas.row_of_right. rewrite app_assoc, length_app.
    cbn [List.length]. f_equal.
    rewrite !length_app.
    rewrite (@nonkey_values_length (frame l) (frame r) keys rrow). f_equal.
    unfold Pandas.left_labels. rewrite !length_map. reflexivity.
Qed.

Lemma tagged_rectangular (tag : string) : rectangular (tagged tag j).
Proof.
  pose proof joined_rectangular as Hj. unfold rectangular in *.
  rewrite tagged_rows. apply Forall_forall. intros row Hrow.
  apply filter_In in Hrow as [Hrow _].
  exact (proj1 (Forall_forall _ _) Hj row Hrow).
Qed.

(** When at least one record is matched, [prepare_results]
    returns, with the frames of [split_state] and the comparison frame
    stored after them. *)
Lemma prepare_results_ok :
  rows (tagged "both" j) <> [] ->
  exists s,
    prepare_results (init l r keys) = (Ok tt, s) /\
    frame_of joined s = Some j /\
    frame_of left_only s
    = Some (side_frame "left_only" "_left_table" keys j) /\
    frame_of right_only s
    = Some (side_frame "right_only" "_right_table" keys j) /\
    frame_of both s = Some (tagged "both" j) /\
    frame_of comparison_df s
    = Some (comparison_of keys cols (tagged "both" j)).
Proof.
  intros Hne.
  assert (Hv : fst (validate_data_quality (init l r keys)) = Ok tt)
    by (rewrite (validated_validate_ok Hval); reflexivity).
  pose proof (join_and_split_ok l r keys Hv wf_merge_ok) as Hsplit.
  destruct (@compare_ok cols keys (tagged "both" j)
              (wf_columns_plain Hwf) (wf_columns_unique Hwf)
              (keys_present Hval) (wf_keys_unique Hwf))
    with (s := split_state l r keys j) (bl := 8)
    as (tmp1 & tmp2 & tmp3 & Hcmp); try reflexivity.
  - unfold tagged, Pandas.getitem_mask, joined_frame. cbn [columns].
    rewrite wf_right_columns. reflexivity.
  - apply tagged_rectangular.
  - exact Hne.
  - eexists. split.
    + rewrite prepare_results_after_split, Hsplit. exact Hcmp.
    + repeat split; reflexivity.
Qed.

End WellFormed.

(** ** Reading the comparison frame *)

Lemma nth_error_flat_map_block {A B} (f : A -> list B) (m : nat) (l : list A)
  (i k : nat) (x : A) :
  (forall y, List.length (f y) = m) ->
  nth_error l i = Some x -> k < m ->
  nth_error (flat_map f l) (m * i + k) = nth_error (f x) k.
Proof.
  intros Hlen. revert i; induction l as [|y l IH]; intros [|i] Hi Hk;
    simpl in Hi; try discriminate.
  - injection Hi as ->. cbn [flat_map]. rewrite Nat.mul_0_r, Nat.add_0_l.
    apply nth_error_app1. rewrite Hlen. exact Hk.
  - cbn [flat_map]. rewrite nth_error_app2 by (rewrite Hlen; nia).
    rewrite Hlen. replace (m * S i + k - m) with (m * i + k) by nia.
    apply IH; assumption.
Qed.

Lemma nth_error_flags (lv rv : list value) (m : nat) (a b : value) :
  nth_error lv m = Some a -> nth_error rv m = Some b ->
  nth_error (flags lv rv) m = Some (VBool (py_eq a b)).
Proof.
  unfold flags. revert rv m; induction lv as [|x lv IH]; intros [|y rv] [|m] Ha Hb;
    simpl in *; try discriminate.
  - injection Ha as ->. injection Hb as ->. reflexivity.
  - apply IH; assumption.
Qed.

Lemma nth_error_after_keys {A} (g : string -> A) (h : string -> string)
  (keys nk : list string) (n : nat) (col : string) :
  nth_error nk n = Some col ->
  nth_error (map g (keys ++ map h nk)) (List.length keys + n) = Some (g (h col)).
Proof.
  intros H. rewrite nth_error_map, nth_error_app2 by lia.
  replace (List.length keys + n - List.length keys) with n by lia.
  rewrite nth_error_map, H. reflexivity.
Qed.

Lemma cell_at (labels : list string) (row : list value) (m : nat)
  (x : string) (v : value) :
  NoDup labels -> nth_error labels m = Some x -> nth_error row m = Some v ->
  Pandas.cell labels row x = v.
Proof.
  revert row m; induction labels as [|k labels IH]; intros [|w row] [|m] Hnd Hx Hv;
    simpl in *; try discriminate.
  - injection Hx as ->. injection Hv as ->. rewrite String.eqb_refl. reflexivity.
  - inversion Hnd as [|? ? Hk Hnd']; subst.
    destruct (String.eqb_spec x k) as [->|_].
    + exfalso. apply Hk. eapply nth_error_In; eassumption.
    + eapply IH; eassumption.
Qed.



(** ** A table compared with itself *)

Lemma cell_map_inj (f : string -> string) (cols : list string)
  (row : list value) (c : string) :
  (forall x, In x cols -> f x = f c -> x = c) ->
  Pandas.cell (map f cols) row (f c) = Pandas.cell cols row c.
Proof.
  revert row; induction cols as [|k cols IH]; intros [|v row] Hinj; simpl;
    try reflexivity.
  destruct (String.eqb_spec c k) as [->|Hneq].
  - rewrite String.eqb_refl. reflexivity.
  - destruct (String.eqb_spec (f c) (f k)) as [E|_].
    + exfalso. apply Hneq. symmetry. apply Hinj; [left; reflexivity|congruence].
    + apply IH. intros x Hx. apply Hinj. right; assumption.
Qed.

Lemma cell_map_both (g : string -> string) (h : string -> value)
  (labels : list string) (c : string) :
  (forall x, In x labels -> g x = g c -> x = c) -> In c labels ->
  Pandas.cell (map g labels) (map h labels) (g c) = h c.
Proof.
  intros Hinj Hin. rewrite cell_map_inj by assumption.
  apply cell_map_self; assumption.
Qed.

Lemma filter_unique_self {A} (f : A -> list value) (l : list A) (x : A) :
  NoDup (map f l) -> In x l ->
  filter (fun y => key_eqb (f x) (f y)) l = [x].
Proof.
  induction l as [|y l IH]; simpl; intros Hnd Hin; [contradiction|].
  inversion Hnd as [|? ? Hy Hnd']; subst.
  destruct Hin as [->|Hin].
  - rewrite key_eqb_refl. f_equal. apply filter_none. intros z Hz.
    destruct (key_eqb (f x) (f z)) eqn:E; [|reflexivity].
    apply key_eqb_eq in E. exfalso. apply Hy. rewrite E. apply in_map; assumption.
  - destruct (key_eqb (f x) (f y)) eqn:E.
    + apply key_eqb_eq in E. exfalso. apply Hy. rewrite <- E.
      apply in_map; assumption.
    + apply IH; assumption.
Qed.

Lemma flags_same (vs : list value) :
  (forall v, In v vs -> isna v = false) ->
  flags vs vs = repeat (VBool true) (List.length vs).
Proof.
  unfold flags. induction vs as [|v vs IH]; intros H; [reflexivity|].
  cbn [combine map List.length repeat fst snd]. f_equal.
  - unfold py_eq. rewrite (H v) by (left; reflexivity). cbn [orb].
    rewrite (proj2 (value_eqb_eq v v) eq_refl). reflexivity.
  - apply IH. intros w Hw. apply H. right; assumption.
Qed.

Lemma filled_not_missing (v : value) : isna (filled v) = false.
Proof. destruct v; reflexivity. Qed.

Lemma length_zero_nil {A} (l : list A) : List.length l = 0 -> l = [].
Proof. destruct l; [reflexivity|discriminate]. Qed.

Section SelfComparison.

Variables (t : Table) (keys : list string).
Hypothesis Hwf : well_formed t t keys.
Hypothesis Hval : validated t t keys.

Local Abbreviation cols := (columns (frame t)).
Local Abbreviation j := (joined_frame (frame t) (frame t) keys).
Local Abbreviation nk := (Pandas.nonkeys keys cols).
Local Abbreviation ll := (Pandas.left_labels cols cols keys "_left_table").
Local Abbreviation rl := (Pandas.right_labels cols cols keys "_right_table").

(** The joined record of a row of the table. *)
Local Abbreviation paired row :=
  (row ++ Pandas.nonkey_values cols keys row ++ [VStr "both"]).

Lemma self_rows_of_left (row : list value) :
  In row (rows (frame t)) ->
  Pandas.rows_of_left (frame t) (frame t) keys row = [paired row].
Proof.
  intros Hin. unfold Pandas.rows_of_left.
  rewrite (@filter_unique_self _ (Pandas.key_of cols keys) (rows (frame t)) row);
    [reflexivity| |assumption].
  exact (validated_left_NoDup Hval).
Qed.

Lemma self_matched (row : list value) :
  In row (rows (frame t)) ->
  key_mem (Pandas.key_of cols keys row) (key_tuples keys (frame t)) = true.
Proof.
  intros Hin. apply key_mem_In. unfold key_tuples. apply in_map. exact Hin.
Qed.

Lemma self_joined_rows : rows j = map (fun row => paired row) (rows (frame t)).
Proof.
  unfold joined_frame. cbn [rows]. unfold Pandas.merge_rows.
  rewrite (@filter_none _ _ (rows (frame t))).
  2:{ intros row Hin. rewrite unmatched_right_key.
      rewrite self_matched by assumption. reflexivity. }
  cbn [map]. rewrite app_nil_r.
  assert (Hall : forall rs, incl rs (rows (frame t)) ->
            flat_map (Pandas.rows_of_left (frame t) (frame t) keys) rs
            = map (fun row => paired row) rs).
  { induction rs as [|row rs IH]; intros Hincl; [reflexivity|].
    cbn [flat_map map]. rewrite self_rows_of_left, IH.
    - reflexivity.
    - intros x Hx. apply Hincl. right; assumption.
    - apply Hincl. left; reflexivity. }
  apply Hall, incl_refl.
Qed.

Lemma self_all_both : rows (tagged "both" j) = rows j.
Proof.
  pose proof (wf_merged Hwf Hval) as Hm.
  rewrite tagged_rows. apply filter_all. intros row Hrow.
  rewrite self_joined_rows in Hrow.
  apply in_map_iff in Hrow as (lrow & <- & Hl).
  rewrite app_assoc.
  rewrite (@is_tagged_built (frame t) (frame t) keys j Hm).
  - reflexivity.
  - apply left_body_length; [exact (wf_left_rectangular Hwf)|assumption|].
    apply nonkey_values_length.
Qed.

Lemma self_left_only_empty :
  rows (side_frame "left_only" "_left_table" keys j) = [].
Proof.
  apply length_zero_nil. rewrite side_frame_rows_length.
  rewrite (left_only_count (wf_merged Hwf Hval) (wf_left_rectangular Hwf)).
  rewrite filter_none; [reflexivity|].
  intros row Hin. unfold matched_left. rewrite self_matched by assumption.
  reflexivity.
Qed.

Lemma self_right_only_empty :
  rows (side_frame "right_only" "_right_table" keys j) = [].
Proof.
  apply length_zero_nil. rewrite side_frame_rows_length.
  rewrite (right_only_count (wf_merged Hwf Hval) (wf_left_rectangular Hwf)).
  rewrite filter_none; [reflexivity|].
  intros row Hin. rewrite unmatched_right_key.
  rewrite self_matched by assumption. reflexivity.
Qed.

(** In the joined record of a row, both the left-hand and the right-hand
    cell of a non-key column hold the row's value for that column. *)
Lemma self_left_cell (row : list value) (c : string) :
  In row (rows (frame t)) -> In c nk ->
  Pandas.cell (columns j) (paired row) (c ++ "_left_table")
  = Pandas.cell cols row c.
Proof.
  intros Hrow Hc. apply (@nonkey_col cols keys) in Hc as [Hc Hk].
  assert (E : (c ++ "_left_table")%string
              = Pandas.suffixed keys cols "_left_table" c)
    by (rewrite (@suffixed_col cols keys "_left_table" c Hc), Hk; reflexivity).
  unfold joined_frame. cbn [columns].
  rewrite cell_app_l.
  - rewrite E. unfold Pandas.left_labels. apply cell_map_inj.
    intros x Hx.
    apply (@suffixed_left_inj cols keys (wf_columns_plain Hwf)); assumption.
  - rewrite E. apply in_map. exact Hc.
  - unfold Pandas.left_labels. rewrite length_map.
    exact (proj1 (Forall_forall _ _) (wf_left_rectangular Hwf) row Hrow).
Qed.

Lemma self_right_cell (row : list value) (c : string) :
  In row (rows (frame t)) -> In c nk ->
  Pandas.cell (columns j) (paired row) (c ++ "_right_table")
  = Pandas.cell cols row c.
Proof.
  intros Hrow Hc.
  unfold joined_frame. cbn [columns].
  rewrite cell_app_r.
  - rewrite cell_app_l.
    + rewrite (@right_labels_plain cols keys). unfold Pandas.nonkey_values.
      apply (@cell_map_both (fun c => (c ++ "_right_table")%string)
               (Pandas.cell cols row) nk c); [|assumption].
      intros x _ E. apply string_app_inv_tail in E. exact E.
    + rewrite (@right_labels_plain cols keys).
      apply (in_map (fun c => (c ++ "_right_table")%string)). exact Hc.
    + apply nonkey_values_length.
  - intros Hin.
    apply (@left_label_has_no_right cols keys (wf_columns_plain Hwf)) in Hin.
    rewrite contains_suffix in Hin. discriminate.
  - unfold Pandas.left_labels. rewrite length_map.
    exact (proj1 (Forall_forall _ _) (wf_left_rectangular Hwf) row Hrow).
Qed.

Lemma self_values_agree (row : list value) :
  In row (rows (frame t)) ->
  right_values (columns j) keys cols (paired row)
  = left_values (columns j) keys cols (paired row).
Proof.
  intros Hrow. unfold right_values, left_values, right_columns_of, left_columns_of.
  rewrite !map_app, !map_map. f_equal.
  apply map_ext_in. intros c Hc.
  rewrite self_left_cell, self_right_cell by assumption. reflexivity.
Qed.

Lemma self_record_rows (row : list value) :
  In row (rows (frame t)) ->
  record_rows (columns j) keys cols (paired row)
  = [ VStr "left_table" :: left_values (columns j) keys cols (paired row);
      VStr "right_table" :: left_values (columns j) keys cols (paired row);
      VStr "comparison_result"
        :: repeat (VBool true) (List.length cols) ].
Proof.
  intros Hrow. unfold record_rows. cbv zeta.
  rewrite self_values_agree by assumption.
  rewrite flags_same.
  - unfold left_values at 3. rewrite length_map.
    rewrite (@left_columns_length cols keys (wf_columns_unique Hwf)
               (keys_present Hval) (wf_keys_unique Hwf)).
    reflexivity.
  - intros v Hv. unfold left_values in Hv.
    apply in_map_iff in Hv as (c & <- & _). apply filled_not_missing.
Qed.

End SelfComparison.

Lemma flat_map_block_length {A B} (f : A -> list B) (m : nat) (l : list A) :
  (forall y, List.length (f y) = m) ->
  List.length (flat_map f l) = m * List.length l.
Proof.
  intros Hlen. induction l as [|y l IH]; simpl; [lia|].
  rewrite length_app, Hlen, IH. lia.
Qed.




(** ** The partitions for plain labels

    What C6 claims does hold when no label contains a suffix or is
    reserved: [left_only] and [right_only] are then the unmatched rows of
    their table under the original labels, key columns first. *)

Lemma filter_flat_map_singletons {A B} (p : A -> bool) (q : B -> bool)
  (f : A -> list B) (g : A -> B) (l : list A) :
  (forall x, In x l -> filter q (f x) = if p x then [g x] else []) ->
  filter q (flat_map f l) = map g (filter p l).
Proof.
  induction l as [|x l IH]; intros H; [reflexivity|].
  cbn [flat_map filter]. rewrite filter_app, (H x) by (left; reflexivity).
  rewrite IH by (intros y Hy; apply H; right; exact Hy).
  destruct (p x); reflexivity.
Qed.

Section PlainPartition.

Variables (l r : Table) (keys : list string).
Hypothesis Hwf : well_formed l r keys.
Hypothesis Hval : validated l r keys.

Local Abbreviation cols := (columns (frame l)).
Local Abbreviation j := (joined_frame (frame l) (frame r) keys).
Local Abbreviation nk := (Pandas.nonkeys keys cols).
Local Abbreviation ll := (Pandas.left_labels cols cols keys "_left_table").
Local Abbreviation rl := (Pandas.right_labels cols cols keys "_right_table").

Lemma plain_joined_columns : columns j = ll ++ rl ++ ["_merge"].
Proof.
  unfold joined_frame. cbn [columns]. rewrite (wf_right_columns Hval).
  reflexivity.
Qed.

Lemma plain_of (c : string) :
  In c cols ->
  PyStr.contains "_left_table" c = false /\
  PyStr.contains "_right_table" c = false.
Proof.
  intros Hc.
  pose proof (proj1 (forallb_forall _ _) (wf_columns_plain Hwf) c Hc) as Hp.
  apply plain_label_inv in Hp. tauto.
Qed.

Lemma left_side_labels :
  side_labels "_left_table" keys j = left_columns_of keys cols.
Proof.
  unfold side_labels. rewrite plain_joined_columns.
  rewrite (@left_marked_labels cols keys (wf_columns_plain Hwf)). reflexivity.
Qed.

Lemma right_side_labels :
  side_labels "_right_table" keys j = right_columns_of keys cols.
Proof.
  unfold side_labels. rewrite plain_joined_columns.
  rewrite (@right_marked_labels cols keys (wf_columns_plain Hwf)). reflexivity.
Qed.

Lemma joined_columns_NoDup : NoDup (columns j).
Proof.
  rewrite plain_joined_columns.
  apply joined_labels_NoDup;
    [exact (wf_columns_plain Hwf)|exact (wf_columns_unique Hwf)].
Qed.

Lemma left_columns_in_joined : incl (left_columns_of keys cols) (columns j).
Proof.
  rewrite plain_joined_columns. intros x Hx. rewrite app_assoc.
  apply in_or_app; left. revert x Hx.
  apply (@left_columns_in_body cols keys (keys_present Hval)).
Qed.

Lemma right_columns_in_joined : incl (right_columns_of keys cols) (columns j).
Proof.
  rewrite plain_joined_columns. intros x Hx. rewrite app_assoc.
  apply in_or_app; left. revert x Hx.
  apply (@right_columns_in_body cols keys (keys_present Hval)).
Qed.

(** Lines 81 and 88 give the labels back their original form. *)
Lemma left_labels_restored :
  map (PyStr.remove_all "_left_table") (left_columns_of keys cols) = keys ++ nk.
Proof.
  unfold left_columns_of. rewrite map_app, map_map. f_equal.
  - rewrite <- (map_id keys) at 2. apply map_ext_in. intros k Hk.
    apply remove_all_plain. apply plain_of. apply (keys_present Hval). exact Hk.
  - rewrite <- (map_id nk) at 2. apply map_ext_in. intros c Hc.
    apply remove_all_left_suffix. apply plain_of.
    apply (@nonkey_col cols keys) in Hc. tauto.
Qed.

Lemma right_labels_restored :
  map (PyStr.remove_all "_right_table") (right_columns_of keys cols) = keys ++ nk.
Proof.
  unfold right_columns_of. rewrite map_app, map_map. f_equal.
  - rewrite <- (map_id keys) at 2. apply map_ext_in. intros k Hk.
    apply remove_all_plain. apply plain_of. apply (keys_present Hval). exact Hk.
  - rewrite <- (map_id nk) at 2. apply map_ext_in. intros c Hc.
    apply remove_all_right_suffix. apply plain_of.
    apply (@nonkey_col cols keys) in Hc. tauto.
Qed.

(** The cells of a joined record that starts with the cells [body] of the
    left columns. *)
Lemma left_cells_of_joined (body rest : list value) :
  List.length body = List.length cols ->
  map (Pandas.cell (columns j) (body ++ rest)) (left_columns_of keys cols)
  = map (Pandas.cell cols body) (keys ++ nk).
Proof.
  intros Hlen. unfold left_columns_of. rewrite !map_app, map_map. f_equal.
  - apply map_ext_in. intros k Hk.
    apply (joined_key_cell (wf_merged Hwf Hval)); assumption.
  - apply map_ext_in. intros c Hc.
    apply (@nonkey_col cols keys) in Hc as [Hc Hk].
    assert (E : (c ++ "_left_table")%string
                = Pandas.suffixed keys cols "_left_table" c)
      by (rewrite (@suffixed_col cols keys "_left_table" c Hc), Hk; reflexivity).
    rewrite plain_joined_columns, cell_app_l.
    + rewrite E. unfold Pandas.left_labels. apply cell_map_inj.
      intros x Hx.
      apply (@suffixed_left_inj cols keys (wf_columns_plain Hwf)); assumption.
    + rewrite E. apply in_map. exact Hc.
    + unfold Pandas.left_labels. rewrite length_map. exact Hlen.
Qed.

(** The cells of the joined record of an unmatched right row. *)
Lemma right_cells_of_joined (rrow : list value) :
  map (Pandas.cell (columns j)
         (Pandas.row_of_right (frame l) (frame r) keys rrow))
      (right_columns_of keys cols)
  = map (Pandas.cell cols rrow) (keys ++ nk).
Proof.
  unfold right_columns_of, Pandas.row_of_right.
  rewrite (wf_right_columns Hval). rewrite !map_app, map_map. f_equal.
  - apply map_ext_in. intros k Hk.
    rewrite (joined_key_cell (wf_merged Hwf Hval)) by
      (try assumption; apply length_map).
    rewrite cell_map_self by (apply (keys_present Hval); exact Hk).
    apply mem_In in Hk. rewrite Hk. reflexivity.
  - apply map_ext_in. intros c Hc.
    rewrite plain_joined_columns, cell_app_r.
    + rewrite cell_app_l.
      * rewrite (@right_labels_plain cols keys). unfold Pandas.nonkey_values.
        apply (@cell_map_both (fun c => (c ++ "_right_table")%string)
                 (Pandas.cell cols rrow) nk c); [|assumption].
        intros x _ E. apply string_app_inv_tail in E. exact E.
      * rewrite (@right_labels_plain cols keys).
        apply (in_map (fun c => (c ++ "_right_table")%string)). exact Hc.
      * unfold Pandas.nonkey_values, Pandas.right_labels.
        rewrite !length_map. reflexivity.
    + intros Hin.
      apply (@left_label_has_no_right cols keys (wf_columns_plain Hwf)) in Hin.
      rewrite contains_suffix in Hin. discriminate.
    + unfold Pandas.left_labels. rewrite !length_map. reflexivity.
Qed.

Lemma left_only_records :
  rows (tagged "left_only" j)
  = map (fun lrow =>
           lrow ++ map (fun _ => VNull) (Pandas.nonkeys keys (columns (frame r)))
                ++ [VStr "left_only"])
        (filter (fun lrow => negb (matched_left (frame l) (frame r) keys lrow))
                (rows (frame l))).
Proof.
  pose proof (wf_merged Hwf Hval) as Hm.
  rewrite tagged_rows, (merged_rows_shape Hm), filter_app.
  rewrite (@filter_none _ _ (map _ _)).
  2:{ intros row Hrow. apply in_map_iff in Hrow as (rrow & <- & _).
      rewrite (from_right_tag Hm). reflexivity. }
  rewrite app_nil_r.
  apply filter_flat_map_singletons. intros lrow Hin.
  rewrite (from_left_tags Hm (wf_left_rectangular Hwf)) by assumption.
  pose proof (no_match_iff (frame l) (frame r) keys lrow) as Hiff.
  unfold Pandas.rows_of_left.
  destruct (filter _ (rows (frame r))) as [|m ms].
  - rewrite (proj1 Hiff eq_refl). reflexivity.
  - destruct (matched_left _ _ _ lrow); [reflexivity|].
    exfalso. assert (E : m :: ms = []) by (apply Hiff; reflexivity).
    discriminate.
Qed.

Lemma right_only_records :
  rows (tagged "right_only" j)
  = map (Pandas.row_of_right (frame l) (frame r) keys)
        (filter (Pandas.unmatched_right (frame l) (frame r) keys)
                (rows (frame r))).
Proof.
  pose proof (wf_merged Hwf Hval) as Hm.
  rewrite tagged_rows, (merged_rows_shape Hm), filter_app.
  rewrite (@filter_all _ _ (map _ _)).
  2:{ intros row Hrow. apply in_map_iff in Hrow as (rrow & <- & _).
      rewrite (from_right_tag Hm). reflexivity. }
  rewrite (@filter_none _ _ (flat_map _ _)); [reflexivity|].
  intros row Hrow. apply in_flat_map in Hrow as (lrow & Hl & Hrow).
  pose proof (from_left_tags Hm (wf_left_rectangular Hwf) lrow "right_only" Hl)
    as Ht.
  assert (Hnone : filter (is_tagged j "right_only")
                    (Pandas.rows_of_left (frame l) (frame r) keys lrow) = []).
  { rewrite Ht. destruct (filter _ (rows (frame r))); reflexivity. }
  destruct (is_tagged j "right_only" row) eqn:E; [|reflexivity].
  assert (Hin : In row (filter (is_tagged j "right_only")
                          (Pandas.rows_of_left (frame l) (frame r) keys lrow)))
    by (apply filter_In; split; assumption).
  rewrite Hnone in Hin. contradiction.
Qed.

(** [left_only] is the slice of the left table made of the rows whose key
    the right table does not have. *)
Lemma left_only_is_slice :
  side_frame "left_only" "_left_table" keys j
  = slice keys cols
      (filter (fun lrow => negb (matched_left (frame l) (frame r) keys lrow))
              (rows (frame l))).
Proof.
  unfold side_frame, slice. rewrite left_side_labels.
  rewrite (selected_labels_unique joined_columns_NoDup left_columns_in_joined).
  rewrite left_labels_restored. f_equal.
  rewrite left_only_records, map_map. apply map_ext_in. intros lrow Hin.
  apply filter_In in Hin as [Hin _].
  pose proof (proj1 (Forall_forall _ _) (wf_left_rectangular Hwf) lrow Hin)
    as Hlen.
  rewrite take_labels_cells.
  - apply left_cells_of_joined. exact Hlen.
  - exact joined_columns_NoDup.
  - exact left_columns_in_joined.
  - rewrite plain_joined_columns, !length_app, Hlen. cbn [List.length].
    unfold Pandas.left_labels, Pandas.right_labels.
    rewrite !length_map, (wf_right_columns Hval). reflexivity.
Qed.

(** [right_only] is the slice of the right table made of the rows whose
    key the left table does not have. *)
Lemma right_only_is_slice :
  side_frame "right_only" "_right_table" keys j
  = slice keys cols
      (filter (Pandas.unmatched_right (frame l) (frame r) keys)
              (rows (frame r))).
Proof.
  unfold side_frame, slice. rewrite right_side_labels.
  rewrite (selected_labels_unique joined_columns_NoDup right_columns_in_joined).
  rewrite right_labels_restored. f_equal.
  rewrite right_only_records, map_map. apply map_ext_in. intros rrow Hin.
  rewrite take_labels_cells.
  - apply right_cells_of_joined.
  - exact joined_columns_NoDup.
  - exact right_columns_in_joined.
  - pose proof (joined_rectangular Hwf Hval) as Hrect.
    apply (proj1 (Forall_forall _ _) Hrect).
    unfold joined_frame. cbn [rows]. unfold Pandas.merge_rows.
    apply in_or_app; right. apply in_map. exact Hin.
Qed.

End PlainPartition.

(** ** The dict of inconsistent dtypes, in general

    What the example of C1 shows holds for all tables with the same,
    pairwise different labels: the dict has one entry per column whose
    dtypes differ, in column order, and every entry has the two sides
    interchanged. *)

Lemma dict_set_fresh {V} (k : string) (v : V) (d : PyDict.t V) :
  ~ In k (PyDict.keys d) -> PyDict.set k v d = d ++ [(k, v)].
Proof.
  induction d as [|[k' v'] d IH]; simpl; intros H; [reflexivity|].
  destruct (String.eqb_spec k k') as [->|_]; [exfalso; apply H; left; reflexivity|].
  rewrite IH; [reflexivity|]. intros Hin. apply H. right; exact Hin.
Qed.

Lemma dict_fold_fresh {V} (items acc : list (string * V)) :
  NoDup (map fst (acc ++ items)) ->
  fold_left (fun d kv => PyDict.set (fst kv) (snd kv) d) items acc = acc ++ items.
Proof.
  revert acc; induction items as [|[k v] items IH]; intros acc Hnd; simpl.
  - rewrite app_nil_r. reflexivity.
  - rewrite dict_set_fresh.
    + rewrite IH; rewrite <- app_assoc; [reflexivity|exact Hnd].
    + rewrite map_app in Hnd. simpl in Hnd.
      apply NoDup_remove_2 in Hnd. intros Hin. apply Hnd.
      apply in_or_app; left; exact Hin.
Qed.

Lemma dict_of_items_fresh {V} (items : list (string * V)) :
  NoDup (map fst items) -> PyDict.of_items items = items.
Proof. intros H. unfold PyDict.of_items. apply (dict_fold_fresh items []). exact H. Qed.

Lemma dict_get_in {V} (d : PyDict.t V) (k : string) (v : V) :
  NoDup (PyDict.keys d) -> In (k, v) d -> PyDict.get k d = Some v.
Proof.
  induction d as [|[k' v'] d IH]; simpl; intros Hnd Hin; [contradiction|].
  inversion Hnd as [|? ? Hk Hnd']; subst.
  destruct Hin as [E|Hin].
  - injection E as -> ->. rewrite String.eqb_refl. reflexivity.
  - destruct (String.eqb_spec k k') as [->|_].
    + exfalso. apply Hk. apply (in_map fst) in Hin. exact Hin.
    + apply IH; assumption.
Qed.

Lemma masked_right (cols : list string) (dl dr : list dtype) :
  List.length dl = List.length cols -> List.length dr = List.length cols ->
  Pandas.mask_rows (eq_False (dtypes_eq dl dr)) (combine cols dr)
  = map (fun t => (fst t, snd (snd t)))
        (filter (fun t => negb (dtype_eqb (fst (snd t)) (snd (snd t))))
                (combine cols (combine dl dr))).
Proof.
  unfold eq_False, dtypes_eq.
  revert dl dr; induction cols as [|c cols IH]; intros [|a dl] [|b dr] Hl Hr;
    simpl in *; try discriminate; [reflexivity|].
  destruct (dtype_eqb a b); simpl; rewrite IH by lia; reflexivity.
Qed.

Lemma masked_left (cols : list string) (dl dr : list dtype) :
  List.length dl = List.length cols -> List.length dr = List.length cols ->
  Pandas.mask_rows (eq_False (dtypes_eq dl dr)) (combine cols dl)
  = map (fun t => (fst t, fst (snd t)))
        (filter (fun t => negb (dtype_eqb (fst (snd t)) (snd (snd t))))
                (combine cols (combine dl dr))).
Proof.
  unfold eq_False, dtypes_eq.
  revert dl dr; induction cols as [|c cols IH]; intros [|a dl] [|b dr] Hl Hr;
    simpl in *; try discriminate; [reflexivity|].
  destruct (dtype_eqb a b); simpl; rewrite IH by lia; reflexivity.
Qed.

Lemma combine_keys_incl {B} (cols : list string) (vs : list B) :
  incl (map fst (combine cols vs)) cols.
Proof.
  revert vs; induction cols as [|c cols IH]; intros [|v vs] x Hx; simpl in *;
    try contradiction.
  destruct Hx as [<-|Hx]; [left; reflexivity|right; eapply IH; exact Hx].
Qed.

Lemma combine_keys_NoDup {B} (cols : list string) (vs : list B) :
  NoDup cols -> NoDup (map fst (combine cols vs)).
Proof.
  revert vs; induction cols as [|c cols IH]; intros [|v vs] Hnd; simpl;
    try constructor.
  - inversion Hnd; subst. intros Hin. apply combine_keys_incl in Hin. contradiction.
  - inversion Hnd; subst. apply IH; assumption.
Qed.

Lemma filter_keys_NoDup {B} (p : string * B -> bool) (items : list (string * B)) :
  NoDup (map fst items) -> NoDup (map fst (filter p items)).
Proof.
  induction items as [|[k v] items IH]; simpl; intros Hnd; [constructor|].
  inversion Hnd as [|? ? Hk Hnd']; subst.
  destruct (p (k, v)); simpl; [|apply IH; assumption].
  constructor; [|apply IH; assumption].
  intros Hin. apply Hk. apply in_map_iff in Hin as (x & E & Hx).
  apply filter_In in Hx as [Hx _]. rewrite <- E. apply in_map. exact Hx.
Qed.

Lemma inconsistent_loop_spec (m done todo : list (string * (dtype * dtype))) :
  m = done ++ todo -> NoDup (map fst m) ->
  inconsistent_loop
    (map (fun t => (fst t, snd (snd t))) todo)
    (map (fun t => (fst t, snd (snd t))) m)
    (map (fun t => (fst t, fst (snd t))) m)
    (map (fun t => (fst t, {| Entry.left_table := dtype_type (snd (snd t));
                              Entry.right_table := dtype_type (fst (snd t)) |}))
         done)
  = Ok (map (fun t => (fst t, {| Entry.left_table := dtype_type (snd (snd t));
                                 Entry.right_table := dtype_type (fst (snd t)) |}))
            m).
Proof.
  revert done; induction todo as [|[k [a b]] todo IH]; intros done Hm Hnd.
  - rewrite app_nil_r in Hm. subst. reflexivity.
  - cbn [map inconsistent_loop fst snd].
    assert (Hin : In (k, (a, b)) m)
      by (rewrite Hm; apply in_or_app; right; left; reflexivity).
    rewrite (@dict_get_in _ (map (fun t => (fst t, snd (snd t))) m) k b).
    2:{ unfold PyDict.keys. rewrite map_map. exact Hnd. }
    2:{ apply (in_map (fun t => (fst t, snd (snd t)))) in Hin. exact Hin. }
    rewrite (@dict_get_in _ (map (fun t => (fst t, fst (snd t))) m) k a).
    2:{ unfold PyDict.keys. rewrite map_map. exact Hnd. }
    2:{ apply (in_map (fun t => (fst t, fst (snd t)))) in Hin. exact Hin. }
    rewrite dict_set_fresh.
    + specialize (IH (done ++ [(k, (a, b))])).
      rewrite map_app in IH. apply IH; [|exact Hnd].
      rewrite <- app_assoc. exact Hm.
    + unfold PyDict.keys. rewrite map_map. cbn [fst].
      rewrite Hm, map_app in Hnd. cbn [map fst] in Hnd.
      apply NoDup_remove_2 in Hnd. intros Hk. apply Hnd.
      apply in_or_app; left. exact Hk.
Qed.

(** For two tables with the same, pairwise different labels, the dict has
    exactly the columns whose dtypes differ, once each and in column order;
    the entry of a column gives the right table's type as [left_table] and
    the left table's type as [right_table]. *)
Lemma inconsistent_dict_interchanged (l r : Table) :
  columns (frame l) = columns (frame r) ->
  NoDup (columns (frame l)) ->
  List.length (dtypes l) = List.length (columns (frame l)) ->
  List.length (dtypes r) = List.length (columns (frame l)) ->
  inconsistent_dict_of l r
  = Ok (map (fun t => (fst t,
                       {| Entry.left_table := dtype_type (snd (snd t));
                          Entry.right_table := dtype_type (fst (snd t)) |}))
            (mismatches l r)).
Proof.
  intros Hcols Hnd Hl Hr. unfold inconsistent_dict_of. rewrite <- Hcols.
  rewrite masked_right, masked_left by assumption.
  fold (mismatches l r).
  assert (Hm : NoDup (map fst (mismatches l r))).
  { unfold mismatches. apply filter_keys_NoDup, combine_keys_NoDup. exact Hnd. }
  rewrite !dict_of_items_fresh by (rewrite map_map; exact Hm).
  apply (@inconsistent_loop_spec (mismatches l r) [] (mismatches l r));
    [reflexivity|exact Hm].
Qed.

(** ** Record availability

    The shares themselves are float64 quotients, which the embedding does
    not evaluate.  What can be said about the integers they are computed
    from: the three counts add up to the number of joined records, which is
    the common divisor (C8). *)

Lemma three_way_count {A} (p1 p2 p3 : A -> bool) (l : list A) :
  (forall x, In x l ->
     (p1 x = true /\ p2 x = false /\ p3 x = false) \/
     (p1 x = false /\ p2 x = true /\ p3 x = false) \/
     (p1 x = false /\ p2 x = false /\ p3 x = true)) ->
  List.length (filter p1 l) + List.length (filter p2 l)
  + List.length (filter p3 l) = List.length l.
Proof.
  induction l as [|x l IH]; intros H; [reflexivity|].
  cbn [filter List.length].
  specialize (IH (fun y Hy => H y (or_intror Hy))).
  destruct (H x (or_introl eq_refl)) as [(->&->&->)|[(->&->&->)|(->&->&->)]];
    cbn [List.length]; lia.
Qed.

Lemma count_tag_tagged (j : DataFrame) (tag : string) :
  count_tag tag (map (fun row => Pandas.cell (columns j) row "_merge") (rows j))
  = List.length (filter (is_tagged j tag) (rows j)).
Proof.
  unfold count_tag. rewrite filter_map_comm, length_map. reflexivity.
Qed.

Lemma availability_counts_cover (l r : DataFrame) (keys : list string)
  (j : DataFrame) :
  merged l r keys j -> rectangular l -> rectangular r ->
  list_sum (map snd
              (value_counts
                 (map (fun row => Pandas.cell (columns j) row "_merge") (rows j))))
  = List.length (rows j).
Proof.
  intros Hm Hrl Hrr. unfold value_counts, list_sum. cbn [map snd fold_right].
  rewrite !count_tag_tagged, Nat.add_0_r, Nat.add_assoc.
  apply three_way_count. intros row Hrow.
  rewrite (merged_rows_shape Hm) in Hrow.
  assert (Hshape : exists body t,
             row = body ++ [VStr t] /\
             List.length body
             = List.length
                 (Pandas.left_labels (columns l) (columns r) keys "_left_table"
                  ++ Pandas.right_labels (columns l) (columns r) keys
                       "_right_table") /\
             (t = "left_only" \/ t = "right_only" \/ t = "both")).
  { apply in_app_or in Hrow as [Hrow|Hrow].
    - apply in_flat_map in Hrow as (lrow & Hl & Hrow).
      unfold Pandas.rows_of_left in Hrow. destruct (filter _ _).
      + destruct Hrow as [<-|[]]. eexists; eexists. rewrite app_assoc.
        split; [reflexivity|]. split; [|left; reflexivity].
        apply left_body_length; [assumption|assumption|].
        unfold Pandas.right_labels. rewrite !length_map. reflexivity.
      + apply in_map_iff in Hrow as (rrow & <- & _).
        eexists; eexists. rewrite app_assoc.
        split; [reflexivity|]. split; [|right; right; reflexivity].
        apply left_body_length; [assumption|assumption|].
        apply nonkey_values_length.
    - apply in_map_iff in Hrow as (rrow & <- & _).
      unfold Pandas.row_of_right. eexists; eexists. rewrite app_assoc.
      split; [reflexivity|]. split; [|right; left; reflexivity].
      rewrite !length_app. rewrite (@nonkey_values_length l r keys rrow).
      f_equal. unfold Pandas.left_labels. rewrite !length_map. reflexivity. }
  destruct Hshape as (body & t & -> & Hlen & Ht).
  rewrite !(is_tagged_built Hm) by exact Hlen.
  destruct Ht as [->|[->| ->]]; vm_compute; tauto.
Qed.

(** * Further properties of the comparator *)

(** ** Validation, check by check *)

(** The checks of [validate_data_quality] in the order in which they are
    made, each with what it raises. *)
Lemma validate_checks (l r : Table) (keys : list string) :
  fst (validate_data_quality (init l r keys))
  = if negb (Nat.eqb (List.length (columns (frame l)))
                     (List.length (columns (frame r))))
    then Raise (AssertionError "The tables must have the same number of columns.")
    else if negb (all (index_eq (columns (frame l)) (columns (frame r))))
    then Raise (AssertionError "Columns names are inconsistent.")
    else if negb (all (dtypes_eq (dtypes l) (dtypes r)))
    then match inconsistent_dict_of l r with
         | Ok d => Raise (InconsistentDataTypesError_init d)
         | Raise e => Raise e
         end
    else match Pandas.duplicated keys (frame l) with
         | Raise e => Raise e
         | Ok ldup =>
             if negb (all (eq_False ldup))
             then Raise (AssertionError "The left table contains duplicates.")
             else match Pandas.duplicated keys (frame r) with
                  | Raise e => Raise e
                  | Ok rdup =>
                      if negb (all (eq_False rdup))
                      then Raise (AssertionError
                                    "The right table contains duplicates.")
                      else Ok tt
                  end
         end.
Proof.
  unfold validate_data_quality, bind, get_self, assert, lift, ret, raise.
  cbn [init self left_table right_table primary_keys fst snd].
  destruct (Nat.eqb _ _); cbn; [|reflexivity].
  destruct (all (index_eq _ _)); cbn; [|reflexivity].
  destruct (all (dtypes_eq _ _)); cbn.
  - destruct (Pandas.duplicated keys (frame l)) as [ldup|e]; cbn; [|reflexivity].
    destruct (all (eq_False ldup)); cbn; [|reflexivity].
    destruct (Pandas.duplicated keys (frame r)) as [rdup|e]; cbn; [|reflexivity].
    destruct (all (eq_False rdup)); reflexivity.
  - destruct (inconsistent_dict_of l r); reflexivity.
Qed.

Lemma validate_result (l r : Table) (keys : list string) :
  validate_data_quality (init l r keys)
  = (fst (validate_data_quality (init l r keys)), init l r keys).
Proof.
  rewrite <- (validate_state (init l r keys)) at 3.
  destruct (validate_data_quality (init l r keys)); reflexivity.
Qed.

Lemma dtype_eqb_eq (a b : dtype) : dtype_eqb a b = true <-> a = b.
Proof. destruct a, b; simpl; split; intros H; congruence. Qed.

Lemma all_dtypes_eq (a b : list dtype) :
  List.length a = List.length b ->
  (all (dtypes_eq a b) = true <-> a = b).
Proof.
  revert b; induction a as [|x a IH]; intros [|y b] Hlen;
    simpl in *; try discriminate.
  - split; reflexivity.
  - unfold all in *. simpl. rewrite andb_true_iff, dtype_eqb_eq.
    rewrite (IH b) by lia. split.
    + intros [-> ->]; reflexivity.
    + intros H; injection H as -> ->; auto.
Qed.

Lemma same_columns_pass (l r : Table) :
  columns (frame l) = columns (frame r) ->
  Nat.eqb (List.length (columns (frame l))) (List.length (columns (frame r)))
  = true /\
  all (index_eq (columns (frame l)) (columns (frame r))) = true.
Proof.
  intros E. rewrite <- E. split; [apply Nat.eqb_refl|apply index_eq_refl].
Qed.

Lemma duplicated_present (keys : list string) (df : DataFrame) :
  incl keys (columns df) ->
  Pandas.duplicated keys df
  = Ok (Pandas.duplicated_from (columns df) keys [] (rows df)).
Proof.
  intros H. unfold Pandas.duplicated.
  apply missing_label_None in H. rewrite H. reflexivity.
Qed.

Lemma unique_keys_pass (keys : list string) (df : DataFrame) :
  all (eq_False (Pandas.duplicated_from (columns df) keys [] (rows df))) = true
  <-> NoDup (key_tuples keys df).
Proof.
  rewrite duplicated_from_NoDup. unfold key_tuples. split.
  - intros [H _]; exact H.
  - intros H. split; [exact H|]. intros k _ [].
Qed.









(** X5. When the labels agree and are pairwise different but some dtype
    differs, validation raises [InconsistentDataTypesError] before it looks
    at the primary keys.  The dict behind the message has one entry for
    every column whose dtypes differ and none for the others, in column
    order; the entry's [left_table] shows the dtype of the right table and
    its [right_table] that of the left table. *)
Theorem type_mismatches_are_all_reported
  (l r : Table) (keys : list string) :
  columns (frame l) = columns (frame r) ->
  NoDup (columns (frame l)) ->
  List.length (dtypes l) = List.length (columns (frame l)) ->
  List.length (dtypes r) = List.length (columns (frame l)) ->
  dtypes l <> dtypes r ->
  validate_data_quality (init l r keys)
  = (Raise
       (InconsistentDataTypesError_init
          (map (fun t => (fst t,
                          {| Entry.left_table := dtype_type (snd (snd t));
                             Entry.right_table := dtype_type (fst (snd t)) |}))
               (mismatches l r))),
     init l r keys).
Proof.
  intros Hc Hnd Hl Hr Hneq.
  rewrite validate_result. f_equal. rewrite validate_checks.
  destruct (same_columns_pass l r Hc) as [-> ->]. cbn [negb].
  destruct (all (dtypes_eq (dtypes l) (dtypes r))) eqn:E.
  - exfalso. apply Hneq. apply all_dtypes_eq; [congruence|exact E].
  - cbn [negb]. rewrite (inconsistent_dict_interchanged l r Hc Hnd Hl Hr).
    reflexivity.
Qed.

Lemma type_mismatches_are_all_reported_witness :
  validate_data_quality (init Ex.typed_left Ex.typed_right ["nokey"])
  = (Raise
       (InconsistentDataTypesError_init
          [("age", {| Entry.left_table := np_object_;
                      Entry.right_table := np_int64 |})]),
     init Ex.typed_left Ex.typed_right ["nokey"]).
Proof.
  apply (@type_mismatches_are_all_reported
           Ex.typed_left Ex.typed_right ["nokey"]).
  - reflexivity.
  - repeat constructor; simpl; intuition discriminate.
  - reflexivity.
  - reflexivity.
  - discriminate.
Defined.

(** ** The pipeline on well-formed tables, state by state *)

Lemma validated_iff (l r : Table) (keys : list string) :
  fst (validate_data_quality (init l r keys)) = Ok tt <-> validated l r keys.
Proof.
  split; [apply validate_ok_inv|].
  intros H. rewrite (validated_validate_ok H). reflexivity.
Qed.

(** The partition step on well-formed tables. *)
Lemma join_and_split_state (l r : Table) (keys : list string) :
  well_formed l r keys -> validated l r keys ->
  join_and_split (init l r keys)
  = (Ok tt, split_state l r keys (joined_frame (frame l) (frame r) keys)).
Proof.
  intros Hwf Hval. apply join_and_split_ok.
  - apply validated_iff; exact Hval.
  - exact (wf_merge_ok Hwf Hval).
Qed.

(** The state after [prepare_results], when some record is matched. *)
Lemma prepare_results_state (l r : Table) (keys : list string) :
  well_formed l r keys -> validated l r keys ->
  let j := joined_frame (frame l) (frame r) keys in
  rows (tagged "both" j) <> [] ->
  exists tmp1 tmp2 tmp3,
    prepare_results (init l r keys)
    = (Ok tt,
       {| store := store (split_state l r keys j)
                   ++ [tmp1; tmp2; tmp3;
                       comparison_of keys (columns (frame l)) (tagged "both" j);
                       comparison_of keys (columns (frame l)) (tagged "both" j)];
          self := with_comparison (self (split_state l r keys j)) 13 |}).
Proof.
  intros Hwf Hval j Hne.
  pose proof (join_and_split_state Hwf Hval) as Hsplit. fold j in Hsplit.
  destruct (@compare_ok (columns (frame l)) keys (tagged "both" j)
              (wf_columns_plain Hwf) (wf_columns_unique Hwf)
              (keys_present Hval) (wf_keys_unique Hwf))
    with (s := split_state l r keys j) (bl := 8)
    as (tmp1 & tmp2 & tmp3 & Hcmp); try reflexivity.
  - unfold j, tagged, Pandas.getitem_mask, joined_frame. cbn [columns].
    rewrite (wf_right_columns Hval). reflexivity.
  - apply tagged_rectangular; assumption.
  - exact Hne.
  - exists tmp1, tmp2, tmp3.
    rewrite prepare_results_after_split, Hsplit. exact Hcmp.
Qed.

(** Some record is matched exactly when the two tables share a key
    tuple. *)
Lemma matched_records_count (l r : Table) (keys : list string) :
  well_formed l r keys -> validated l r keys ->
  List.length (rows (tagged "both" (joined_frame (frame l) (frame r) keys)))
  = shared_keys keys (frame l) (frame r).
Proof.
  intros Hwf Hval.
  rewrite (both_count (wf_merged Hwf Hval) (wf_left_rectangular Hwf)
             (validated_right_NoDup Hval)).
  symmetry. apply shared_keys_as_matched.
Qed.

Lemma shared_key_matched (l r : Table) (keys : list string) :
  well_formed l r keys -> validated l r keys ->
  0 < shared_keys keys (frame l) (frame r) ->
  rows (tagged "both" (joined_frame (frame l) (frame r) keys)) <> [].
Proof.
  intros Hwf Hval Hpos E.
  pose proof (matched_records_count Hwf Hval) as H.
  rewrite E in H. simpl in H. lia.
Qed.

(** ** The partition *)



(** ** Record availability *)

Lemma availability_run (s : state) (jl : loc) :
  joined (self s) = Some jl ->
  let j := nth jl (store s) empty_frame in
  In "_merge" (columns j) ->
  visualize_record_availability s
  = (Ok tt,
     {| store := store s;
        self :=
          {| left_table := left_table (self s);
             right_table := right_table (self s);
             primary_keys := primary_keys (self s);
             joined := joined (self s); left_only := left_only (self s);
             right_only := right_only (self s);
             both := both (self s); comparison_df := comparison_df (self s);
             record_availability :=
               Some (map (fun tc =>
                            (replace_label (fst tc), snd tc,
                             {| numerator := snd tc;
                                denominator :=
                                  list_sum
                                    (map snd
                                       (value_counts
                                          (map (fun row =>
                                                  Pandas.cell (columns j) row
                                                    "_merge")
                                               (rows j)))) |}))
                         (value_counts
                            (map (fun row =>
                                    Pandas.cell (columns j) row "_merge")
                                 (rows j))));
             record_consistency := record_consistency (self s) |} |}).
Proof.
  intros Hj j Hin.
  unfold visualize_record_availability, bind, attr, load, lift, set_self.
  rewrite Hj. fold j. unfold Pandas.getitem_column.
  rewrite (proj2 (mem_In _ _) Hin). cbn [self store]. rewrite Hj.
  reflexivity.
Qed.

Lemma tagged_count (j : DataFrame) (tag : string) :
  count_tag tag (map (fun row => Pandas.cell (columns j) row "_merge") (rows j))
  = List.length (rows (tagged tag j)).
Proof.
  rewrite count_tag_tagged. unfold tagged, Pandas.getitem_mask. cbn [rows].
  unfold Pandas.series_eq_scalar. rewrite map_map.
  rewrite mask_rows_map. reflexivity.
Qed.

Lemma availability_data_of (l r : DataFrame) (keys : list string)
  (j : DataFrame) :
  merged l r keys j -> rectangular l -> rectangular r ->
  map (fun tc =>
         (replace_label (fst tc), snd tc,
          {| numerator := snd tc;
             denominator :=
               list_sum
                 (map snd
                    (value_counts
                       (map (fun row => Pandas.cell (columns j) row "_merge")
                            (rows j)))) |}))
      (value_counts
         (map (fun row => Pandas.cell (columns j) row "_merge") (rows j)))
  = availability_of j.
Proof.
  intros Hm Hrl Hrr.
  rewrite (availability_counts_cover Hm Hrl Hrr).
  unfold value_counts, availability_of. cbn [map fst snd].
  rewrite !tagged_count. reflexivity.
Qed.

(** X7. On a comparator whose joined frame is the outer merge of two
    rectangular tables, [visualize_record_availability] returns and changes
    nothing but its own attribute, which then holds three entries, one for
    each tag under its label on the chart, with the number of joined
    records that carry the tag; the divisor of every share is the number
    of joined records, and the three counts add up to it. *)
Theorem availability_lists_the_three_tags
  (s : state) (l r : DataFrame) (keys : list string) (j : DataFrame) :
  rectangular l -> rectangular r ->
  Pandas.merge_outer_indicator l r keys "_left_table" "_right_table" = Ok j ->
  frame_of joined s = Some j ->
  let n tag := List.length (rows (tagged tag j)) in
  let total := List.length (rows j) in
  exists s' pie,
    visualize_record_availability s = (Ok tt, s') /\
    store s' = store s /\
    same_partition_refs s s' /\
    comparison_df (self s') = comparison_df (self s) /\
    record_consistency (self s') = record_consistency (self s) /\
    record_availability (self s') = Some pie /\
    same_entries pie
      [ ("Tylko w lewej", n "left_only",
         {| numerator := n "left_only"; denominator := total |});
        ("Tylko w prawej", n "right_only",
         {| numerator := n "right_only"; denominator := total |});
        ("W obu", n "both",
         {| numerator := n "both"; denominator := total |}) ] /\
    n "left_only" + n "right_only" + n "both" = total.
Proof.
  intros Hrl Hrr Hmerge Hj n total.
  pose proof (merge_ok_inv _ _ _ Hmerge) as Hm.
  unfold frame_of in Hj.
  destruct (joined (self s)) as [jl|] eqn:Ejl; [|discriminate].
  assert (Ej : nth jl (store s) empty_frame = j)
    by (apply nth_error_nth; exact Hj).
  pose proof (@availability_run s jl Ejl) as Hrun. cbv zeta in Hrun.
  rewrite Ej in Hrun.
  specialize (Hrun (merged_has_indicator Hm)).
  rewrite (availability_data_of Hm Hrl Hrr) in Hrun.
  eexists; eexists. split; [exact Hrun|].
  cbn [store self joined left_only right_only both comparison_df
       record_consistency record_availability].
  split; [reflexivity|]. split; [repeat split; assumption|].
  split; [reflexivity|]. split; [reflexivity|]. split; [reflexivity|].
  split; [split; [reflexivity|intros x; reflexivity]|].
  pose proof (availability_counts_cover Hm Hrl Hrr) as Hsum.
  unfold value_counts, list_sum in Hsum. cbn [map snd fold_right] in Hsum.
  rewrite !tagged_count in Hsum. unfold n, total. lia.
Qed.

Lemma availability_lists_the_three_tags_witness :
  exists s' pie,
    visualize_record_availability
      (snd (join_and_split (init Ex.scenario_left Ex.scenario_right ["id"])))
    = (Ok tt, s') /\
    record_availability (self s') = Some pie /\
    same_entries pie
      [ ("Tylko w lewej", 1, {| numerator := 1; denominator := 3 |});
        ("Tylko w prawej", 1, {| numerator := 1; denominator := 3 |});
        ("W obu", 1, {| numerator := 1; denominator := 3 |}) ].
Proof.
  destruct (@availability_lists_the_three_tags
              (snd (join_and_split
                      (init Ex.scenario_left Ex.scenario_right ["id"])))
              (frame Ex.scenario_left) (frame Ex.scenario_right) ["id"]
              (joined_frame (frame Ex.scenario_left) (frame Ex.scenario_right)
                 ["id"]))
    as (s' & pie & Hrun & _ & _ & _ & _ & Hdata & Hsame & _).
  - repeat constructor.
  - repeat constructor.
  - reflexivity.
  - reflexivity.
  - exists s', pie. split; [exact Hrun|]. split; [exact Hdata|exact Hsame].
Defined.

(** ** Record consistency *)

Lemma consistency_loop_run (cr : DataFrame) (cols : list string)
  (acc : consistency_data) :
  rows cr <> [] ->
  incl cols (columns cr) ->
  NoDup (PyDict.keys acc ++ cols) ->
  consistency_loop cols cr acc
  = Ok (acc ++
        map (fun column =>
               (column,
                {| numerator :=
                     List.length
                       (filter (fun row =>
                                  py_eq (Pandas.cell (columns cr) row column)
                                        (VBool true))
                               (rows cr));
                   denominator := List.length (rows cr) |}))
            cols).
Proof.
  intros Hne. revert acc.
  induction cols as [|column cols IH]; intros acc Hin Hnd.
  - simpl. rewrite app_nil_r. reflexivity.
  - cbn [consistency_loop]. unfold Pandas.getitem_column.
    rewrite (proj2 (mem_In _ _) (Hin column (or_introl eq_refl))).
    destruct (List.length (rows cr)) as [|n] eqn:El.
    { apply length_zero_nil in El. congruence. }
    rewrite dict_set_fresh.
    2:{ apply NoDup_remove_2 in Hnd. intros H. apply Hnd.
        apply in_or_app. left; exact H. }
    rewrite IH.
    + rewrite <- app_assoc. cbn [app map]. rewrite filter_map_comm, length_map.
      reflexivity.
    + intros x Hx. apply Hin. right; exact Hx.
    + unfold PyDict.keys. rewrite map_app. cbn [map fst].
      rewrite <- app_assoc. exact Hnd.
Qed.

Lemma cell_head (label : string) (cols : list string) (v : value)
  (row : list value) :
  Pandas.cell (label :: cols) (v :: row) label = v.
Proof. cbn [Pandas.cell]. rewrite String.eqb_refl. reflexivity. Qed.

(** The [comparison_result] rows of a comparison frame. *)
Lemma comparison_result_rows (keys cols : list string) (b : DataFrame) :
  Pandas.mask_rows
    (Pandas.series_eq_scalar
       (map (fun row => Pandas.cell ("comparison" :: cols) row "comparison")
            (rows (comparison_of keys cols b)))
       (VStr "comparison_result"))
    (rows (comparison_of keys cols b))
  = map (result_row (columns b) keys cols) (rows b).
Proof.
  unfold Pandas.series_eq_scalar. rewrite map_map, mask_rows_map.
  unfold comparison_of. cbn [rows].
  rewrite (@filter_flat_map_singletons _ _ (fun _ => true) _ _
             (result_row (columns b) keys cols)).
  - rewrite filter_all; auto.
  - intros brow _. unfold record_rows. cbn [filter].
    rewrite !cell_head. reflexivity.
Qed.

Lemma chart_columns (keys cols : list string) :
  ~ In "comparison" cols ->
  filter (fun column => negb (mem column (["comparison"] ++ keys)))
         ("comparison" :: cols)
  = Pandas.nonkeys keys cols.
Proof.
  intros Hfresh. cbn [filter app mem existsb].
  rewrite String.eqb_refl. cbn [orb negb].
  unfold Pandas.nonkeys. apply filter_ext_in. intros x Hx.
  destruct (String.eqb x "comparison") eqn:E.
  - apply String.eqb_eq in E. subst. contradiction.
  - reflexivity.
Qed.

Lemma consistency_run (s : state) (cl : loc) (cols : list string)
  (b : DataFrame) :
  comparison_df (self s) = Some cl ->
  nth cl (store s) empty_frame = comparison_of (primary_keys (self s)) cols b ->
  NoDup cols -> ~ In "comparison" cols -> rows b <> [] ->
  visualize_record_consistency s
  = (Ok tt,
     {| store := store s;
        self :=
          {| left_table := left_table (self s);
             right_table := right_table (self s);
             primary_keys := primary_keys (self s);
             joined := joined (self s); left_only := left_only (self s);
             right_only := right_only (self s);
             both := both (self s); comparison_df := comparison_df (self s);
             record_availability := record_availability (self s);
             record_consistency :=
               Some (consistency_of (primary_keys (self s)) cols b) |} |}).
Proof.
  intros Hc Hframe Hnd Hfresh Hne.
  unfold visualize_record_consistency, bind, get_self, attr, load, lift,
    set_self.
  rewrite Hc, Hframe. unfold Pandas.getitem_column.
  change (columns (comparison_of (primary_keys (self s)) cols b))
    with ("comparison" :: cols).
  rewrite (proj2 (mem_In "comparison" ("comparison" :: cols)))
    by (left; reflexivity).
  unfold Pandas.getitem_mask.
  change (columns (comparison_of (primary_keys (self s)) cols b))
    with ("comparison" :: cols).
  cbn [columns].
  rewrite chart_columns by exact Hfresh.
  rewrite comparison_result_rows.
  rewrite consistency_loop_run.
  - cbn [app self store columns rows]. rewrite Hc.
    rewrite length_map. do 6 f_equal.
    unfold consistency_of. apply map_ext. intros column.
    unfold agreement. rewrite filter_map_comm, length_map. reflexivity.
  - cbn [rows]. destruct (rows b); [congruence|discriminate].
  - cbn [columns]. intros x Hx. right.
    unfold Pandas.nonkeys in Hx. apply filter_In in Hx. tauto.
  - cbn [PyDict.keys map app]. apply NoDup_filter. exact Hnd.
Qed.

(** ** The comparison frame *)

Lemma value_eqb_refl (v : value) : value_eqb v v = true.
Proof. apply value_eqb_eq. reflexivity. Qed.

Lemma py_eq_filled (a b : value) :
  py_eq (filled a) (filled b) = value_eqb (filled a) (filled b).
Proof. unfold py_eq. rewrite !filled_not_missing. reflexivity. Qed.

Lemma left_values_length (jcols keys cols : list string) (brow : list value) :
  NoDup keys -> NoDup cols -> incl keys cols ->
  List.length (left_values jcols keys cols brow) = List.length cols.
Proof.
  intros Hk Hc Hi. unfold left_values, left_columns_of.
  rewrite length_map, length_app, length_map.
  apply keys_nonkeys_length; assumption.
Qed.

Lemma right_values_length (jcols keys cols : list string) (brow : list value) :
  NoDup keys -> NoDup cols -> incl keys cols ->
  List.length (right_values jcols keys cols brow) = List.length cols.
Proof.
  intros Hk Hc Hi. unfold right_values, right_columns_of.
  rewrite length_map, length_app, length_map.
  apply keys_nonkeys_length; assumption.
Qed.

Lemma record_rows_shape (jcols keys cols : list string) (brow row : list value) :
  NoDup keys -> NoDup cols -> incl keys cols ->
  In row (record_rows jcols keys cols brow) ->
  List.length row = S (List.length cols) /\
  (forall v, In v row -> isna v = false).
Proof.
  intros Hk Hc Hi Hrow.
  pose proof (left_values_length jcols brow Hk Hc Hi) as Hl.
  pose proof (right_values_length jcols brow Hk Hc Hi) as Hr.
  unfold record_rows in Hrow.
  destruct Hrow as [<-|[<-|[<-|[]]]]; cbn [List.length]; split.
  - congruence.
  - intros v [<-|Hv]; [reflexivity|].
    unfold left_values in Hv. apply in_map_iff in Hv as (c & <- & _).
    apply filled_not_missing.
  - congruence.
  - intros v [<-|Hv]; [reflexivity|].
    unfold right_values in Hv. apply in_map_iff in Hv as (c & <- & _).
    apply filled_not_missing.
  - rewrite flags_length; congruence.
  - intros v [<-|Hv]; [reflexivity|].
    unfold flags in Hv. apply in_map_iff in Hv as (p & <- & _). reflexivity.
Qed.

(** The flag of a key column: a key value is compared with itself. *)
Lemma key_flag (jcols keys cols : list string) (brow : list value) (m : nat) :
  m < List.length keys ->
  nth_error (flags (left_values jcols keys cols brow)
                   (right_values jcols keys cols brow)) m
  = Some (VBool true).
Proof.
  intros Hm.
  destruct (nth_error keys m) as [k|] eqn:Ek.
  2:{ apply nth_error_None in Ek. lia. }
  assert (Hl : nth_error (left_values jcols keys cols brow) m
               = Some (filled (Pandas.cell jcols brow k))).
  { unfold left_values, left_columns_of.
    rewrite nth_error_map, nth_error_app1, Ek by exact Hm. reflexivity. }
  assert (Hr : nth_error (right_values jcols keys cols brow) m
               = Some (filled (Pandas.cell jcols brow k))).
  { unfold right_values, right_columns_of.
    rewrite nth_error_map, nth_error_app1, Ek by exact Hm. reflexivity. }
  rewrite (nth_error_flags _ _ _ Hl Hr).
  rewrite py_eq_filled, value_eqb_refl. reflexivity.
Qed.

(** The flag of the [n]-th column that is not a key. *)
Lemma nonkey_flag (jcols keys cols : list string) (brow : list value)
  (n : nat) (col : string) :
  nth_error (Pandas.nonkeys keys cols) n = Some col ->
  nth_error (left_values jcols keys cols brow) (List.length keys + n)
  = Some (filled (Pandas.cell jcols brow (col ++ "_left_table"))) /\
  nth_error (right_values jcols keys cols brow) (List.length keys + n)
  = Some (filled (Pandas.cell jcols brow (col ++ "_right_table"))) /\
  nth_error (flags (left_values jcols keys cols brow)
                   (right_values jcols keys cols brow))
            (List.length keys + n)
  = Some (VBool (same_when_filled jcols col brow)).
Proof.
  intros Hcol.
  assert (Hl : nth_error (left_values jcols keys cols brow)
                 (List.length keys + n)
               = Some (filled (Pandas.cell jcols brow (col ++ "_left_table")))).
  { unfold left_values, left_columns_of.
    exact (nth_error_after_keys _ _ keys _ n Hcol). }
  assert (Hr : nth_error (right_values jcols keys cols brow)
                 (List.length keys + n)
               = Some (filled (Pandas.cell jcols brow (col ++ "_right_table")))).
  { unfold right_values, right_columns_of.
    exact (nth_error_after_keys _ _ keys _ n Hcol). }
  split; [exact Hl|]. split; [exact Hr|].
  rewrite (nth_error_flags _ _ _ Hl Hr), py_eq_filled. reflexivity.
Qed.





(** ** The whole comparison *)

(** The state in which [run_comparison] leaves a fresh comparator for
    well-formed tables that share a key tuple. *)
Lemma run_comparison_state (l r : Table) (keys : list string) :
  well_formed l r keys -> validated l r keys ->
  let j := joined_frame (frame l) (frame r) keys in
  rows (tagged "both" j) <> [] ->
  exists tmp1 tmp2 tmp3,
    run_comparison (init l r keys)
    = (Ok tt,
       {| store := store (split_state l r keys j)
                   ++ [tmp1; tmp2; tmp3;
                       comparison_of keys (columns (frame l)) (tagged "both" j);
                       comparison_of keys (columns (frame l)) (tagged "both" j)];
          self := with_charts
                    (with_comparison (self (split_state l r keys j)) 13)
                    (availability_of j)
                    (consistency_of keys (columns (frame l))
                       (tagged "both" j)) |}).
Proof.
  intros Hwf Hval j Hne.
  destruct (prepare_results_state Hwf Hval Hne) as (tmp1 & tmp2 & tmp3 & Hprep).
  fold j in Hprep.
  exists tmp1, tmp2, tmp3.
  unfold run_comparison, visualize_results.
  unfold bind at 1. rewrite Hprep.
  unfold bind at 1.
  match goal with
  | |- context [visualize_record_availability ?s] => set (s1 := s)
  end.
  pose proof (@availability_run s1 0 eq_refl) as Ha. cbv zeta in Ha.
  change (nth 0 (store s1) empty_frame) with j in Ha.
  pose proof (wf_merged Hwf Hval) as Hm. fold j in Hm.
  specialize (Ha (merged_has_indicator Hm)).
  rewrite (availability_data_of Hm (wf_left_rectangular Hwf)
             (wf_right_rectangular Hwf)) in Ha.
  rewrite Ha. clear Ha.
  match goal with
  | |- context [visualize_record_consistency ?s] => set (s2 := s)
  end.
  rewrite (@consistency_run s2 13 (columns (frame l)) (tagged "both" j)).
  - reflexivity.
  - reflexivity.
  - reflexivity.
  - exact (wf_columns_unique Hwf).
  - exact (@comparison_not_a_column (columns (frame l)) (wf_columns_plain Hwf)).
  - exact Hne.
Qed.

Lemma consistency_keys (keys cols : list string) (b : DataFrame) :
  PyDict.keys (consistency_of keys cols b) = Pandas.nonkeys keys cols.
Proof.
  unfold consistency_of, PyDict.keys. rewrite map_map. cbn [fst].
  apply map_id.
Qed.

(** X10. For well-formed tables that pass validation and share a key
    tuple, the whole comparison returns: no step raises, and in particular
    nothing divides by zero.  The dict behind the consistency chart then
    has one entry for every column that is not a primary key, in column
    order; every share has the number of shared key tuples as its divisor
    and is at most one. *)
Theorem comparison_returns_a_share_for_every_other_column
  (l r : Table) (keys : list string) :
  well_formed l r keys ->
  fst (validate_data_quality (init l r keys)) = Ok tt ->
  0 < shared_keys keys (frame l) (frame r) ->
  exists s pie bar,
    run_comparison (init l r keys) = (Ok tt, s) /\
    record_availability (self s) = Some pie /\
    record_consistency (self s) = Some bar /\
    PyDict.keys bar = Pandas.nonkeys keys (columns (frame l)) /\
    (forall column share, In (column, share) bar ->
       denominator share = shared_keys keys (frame l) (frame r) /\
       numerator share <= denominator share).
Proof.
  intros Hwf Hv Hpos. apply validated_iff in Hv.
  set (j := joined_frame (frame l) (frame r) keys).
  pose proof (shared_key_matched Hwf Hv Hpos) as Hne. fold j in Hne.
  destruct (run_comparison_state Hwf Hv Hne) as (tmp1 & tmp2 & tmp3 & Hrun).
  fold j in Hrun.
  eexists; eexists; eexists.
  split; [exact Hrun|].
  cbn [self with_charts record_availability record_consistency].
  split; [reflexivity|]. split; [reflexivity|].
  split; [apply consistency_keys|].
  intros column share Hin. unfold consistency_of in Hin.
  apply in_map_iff in Hin as (c & E & _). injection E as _ <-.
  cbn [numerator denominator]. split.
  - apply matched_records_count; assumption.
  - unfold agreement. apply filter_length_le.
Qed.

Lemma comparison_returns_a_share_for_every_other_column_witness :
  exists s pie bar,
    run_comparison (init Ex.with_nulls_left Ex.with_nulls_right ["id"])
    = (Ok tt, s) /\
    record_availability (self s) = Some pie /\
    record_consistency (self s) = Some bar /\
    PyDict.keys bar = ["v"; "w"].
Proof.
  destruct (@comparison_returns_a_share_for_every_other_column
              Ex.with_nulls_left Ex.with_nulls_right ["id"])
    as (s & pie & bar & Hrun & Hpie & Hbar & Hkeys & _).
  - constructor.
    + repeat constructor.
    + repeat constructor.
    + repeat constructor; simpl; intuition discriminate.
    + reflexivity.
    + repeat constructor; simpl; intuition discriminate.
  - reflexivity.
  - vm_compute. lia.
  - exists s, pie, bar. repeat split; assumption.
Defined.

(** The cell of a [comparison_result] row under the label of a column that
    is not a key, when the key columns come first in the tables. *)
Lemma result_cell_keys_first (jcols keys cols : list string)
  (brow : list value) (col : string) :
  NoDup cols -> ~ In "comparison" cols ->
  cols = keys ++ Pandas.nonkeys keys cols ->
  In col (Pandas.nonkeys keys cols) ->
  Pandas.cell ("comparison" :: cols) (result_row jcols keys cols brow) col
  = VBool (same_when_filled jcols col brow).
Proof.
  intros Hnd Hfresh Hlead Hin.
  apply In_nth_error in Hin as (n & Hn).
  destruct (nonkey_flag jcols keys cols brow n Hn) as (_ & _ & Hf).
  apply cell_at with (m := S (List.length keys + n)).
  - constructor; assumption.
  - cbn [nth_error]. rewrite Hlead at 1.
    rewrite nth_error_app2 by lia.
    replace (List.length keys + n - List.length keys) with n by lia.
    exact Hn.
  - unfold result_row. cbn [nth_error]. exact Hf.
Qed.



(** ** A table against itself: the two charts *)

Lemma cell_repeat (cols : list string) (v : value) (c : string) :
  In c cols -> Pandas.cell cols (repeat v (List.length cols)) c = v.
Proof.
  induction cols as [|k cols IH]; intros Hin; [destruct Hin|].
  cbn [List.length repeat Pandas.cell].
  destruct (String.eqb c k) eqn:E; [reflexivity|].
  apply IH. destruct Hin as [->|H]; [|exact H].
  rewrite String.eqb_refl in E. discriminate.
Qed.



(** * The runner *)

(** ** [split] and the last piece *)

Lemma str_split_not_nil (sep : ascii) (s : string) : str_split sep s <> [].
Proof.
  destruct s as [|c s]; simpl; [discriminate|].
  destruct (Ascii.eqb c sep); [discriminate|].
  destruct (str_split sep s); discriminate.
Qed.

Lemma str_split_cons (sep c : ascii) (s : string) :
  str_split sep (String c s)
  = if Ascii.eqb c sep then EmptyString :: str_split sep s
    else String c (hd EmptyString (str_split sep s))
         :: tl (str_split sep s).
Proof.
  cbn [str_split]. destruct (Ascii.eqb c sep); [reflexivity|].
  pose proof (str_split_not_nil sep s) as H.
  destruct (str_split sep s); [congruence|reflexivity].
Qed.

Lemma str_split_free (sep : ascii) (s : string) :
  free_of sep s -> str_split sep s = [s].
Proof.
  unfold free_of. induction s as [|c s IH]; intros H; [reflexivity|].
  cbn [list_ascii_of_string] in H. rewrite str_split_cons.
  destruct (Ascii.eqb c sep) eqn:E.
  - apply Ascii.eqb_eq in E. subst. exfalso. apply H. left; reflexivity.
  - rewrite IH by (intros Hin; apply H; right; exact Hin). reflexivity.
Qed.

(** The pieces of [p + sep + s] are those of [p] followed by those of
    [s]. *)
Lemma str_split_app (sep : ascii) (p s : string) :
  str_split sep (p ++ String sep s) = str_split sep p ++ str_split sep s.
Proof.
  induction p as [|c p IH].
  - cbn [String.append]. rewrite str_split_cons, Ascii.eqb_refl. reflexivity.
  - cbn [String.append]. rewrite !str_split_cons, IH.
    destruct (Ascii.eqb c sep); [reflexivity|].
    pose proof (str_split_not_nil sep p) as H.
    destruct (str_split sep p); [congruence|reflexivity].
Qed.

Lemma last_app_not_nil {A} (a b : list A) (d : A) :
  b <> [] -> last (a ++ b) d = last b d.
Proof.
  intros Hb. induction a as [|x a IH]; [reflexivity|].
  cbn [app]. destruct (a ++ b) eqn:E.
  - apply app_eq_nil in E as [_ E]. congruence.
  - rewrite <- IH. reflexivity.
Qed.

(** What follows the last occurrence of the separator is the last piece. *)
Lemma last_piece_suffix (sep : ascii) (p e : string) :
  free_of sep e ->
  last_piece (str_split sep (p ++ String sep e)) = e.
Proof.
  intros He. unfold last_piece. rewrite str_split_app.
  rewrite last_app_not_nil by apply str_split_not_nil.
  rewrite (str_split_free He). reflexivity.
Qed.

Lemma str_split_pieces_free (sep : ascii) (s : string) :
  Forall (free_of sep) (str_split sep s).
Proof.
  induction s as [|c s IH].
  - repeat constructor. intros [].
  - rewrite str_split_cons. destruct (Ascii.eqb c sep) eqn:E.
    + constructor; [intros []|exact IH].
    + pose proof (str_split_not_nil sep s) as Hne.
      destruct (str_split sep s) as [|piece pieces]; [congruence|].
      inversion IH as [|? ? Hp Hps]; subst. cbn [hd tl].
      constructor; [|exact Hps].
      unfold free_of in *. cbn [list_ascii_of_string].
      intros [->|H]; [|exact (Hp H)].
      rewrite Ascii.eqb_refl in E. discriminate.
Qed.

Lemma join_str_split (sep : ascii) (s : string) :
  PyStr.join (String sep EmptyString) (str_split sep s) = s.
Proof.
  induction s as [|c s IH]; [reflexivity|].
  rewrite str_split_cons.
  pose proof (str_split_not_nil sep s) as Hne.
  destruct (str_split sep s) as [|piece pieces] eqn:E; [congruence|].
  destruct (Ascii.eqb c sep) eqn:Ec.
  - apply Ascii.eqb_eq in Ec. subst c.
    change (PyStr.join (String sep EmptyString) (EmptyString :: piece :: pieces))
      with (EmptyString ++ String sep EmptyString
            ++ PyStr.join (String sep EmptyString) (piece :: pieces))%string.
    rewrite IH. reflexivity.
  - cbn [hd tl]. destruct pieces as [|q pieces].
    + cbn [PyStr.join] in *. rewrite IH. reflexivity.
    + change (PyStr.join (String sep EmptyString) (String c piece :: q :: pieces))
        with (String c (piece ++ String sep EmptyString
                        ++ PyStr.join (String sep EmptyString) (q :: pieces)))%string.
      change (PyStr.join (String sep EmptyString) (piece :: q :: pieces))
        with (piece ++ String sep EmptyString
              ++ PyStr.join (String sep EmptyString) (q :: pieces))%string in IH.
      rewrite IH. reflexivity.
Qed.

(** ** [retrieve_extension] *)

(** X13. The extension of a path is what follows its last dot, and the
    two extensions are compared as they are written: for paths [p.e1] and
    [q.e2] with no dot in [e1] and [e2], [retrieve_extension] returns [e2]
    when [e1] and [e2] are the same string and raises
    [ExtensionsNotMatchingError] otherwise, whatever [p] and [q] are. *)
Theorem retrieve_extension_compares_the_last_suffixes (p q e1 e2 : string) :
  free_of dot e1 -> free_of dot e2 ->
  retrieve_extension (p ++ "." ++ e1) (q ++ "." ++ e2)
  = if String.eqb e1 e2 then Returned e2
    else Raised (ExtensionsNotMatchingError
                   "The tables that you specified have different extensions.").
Proof.
  intros H1 H2. unfold retrieve_extension.
  change ("." ++ e1)%string with (String dot e1).
  change ("." ++ e2)%string with (String dot e2).
  rewrite !last_piece_suffix by assumption. reflexivity.
Qed.

Lemma retrieve_extension_compares_the_last_suffixes_witness :
  retrieve_extension "data/old.v1.csv" "new.CSV"
  = Raised (ExtensionsNotMatchingError
              "The tables that you specified have different extensions.").
Proof.
  apply (@retrieve_extension_compares_the_last_suffixes
           "data/old.v1" "new" "csv" "CSV").
  - unfold free_of; simpl; intuition discriminate.
  - unfold free_of; simpl; intuition discriminate.
Defined.

(** ** [get_user_input] *)

(** X14. The primary keys are the answer cut at its commas and nothing
    else: joined with commas again they give the answer back, character by
    character, so blanks around a comma stay in the keys; no key has a
    comma in it, and there is always at least one key (an empty answer
    gives the one key [""]). *)
Theorem primary_keys_are_the_answer_cut_at_commas
  (a : answers) (inp : user_input) :
  get_user_input a = Returned inp ->
  PyStr.join "," (input_primary_keys inp) = primary_keys_answer a /\
  Forall (free_of comma) (input_primary_keys inp) /\
  input_primary_keys inp <> [].
Proof.
  unfold get_user_input.
  destruct (retrieve_extension _ _) as [ext|e]; [|discriminate].
  intros H. injection H as <-. cbn [input_primary_keys].
  split; [apply (join_str_split comma)|].
  split; [apply str_split_pieces_free|apply str_split_not_nil].
Qed.

Lemma primary_keys_are_the_answer_cut_at_commas_witness :
  PyStr.join "," ["id"; " name"] = "id, name" /\
  Forall (free_of comma) ["id"; " name"] /\
  ["id"; " name"] <> [].
Proof.
  apply (@primary_keys_are_the_answer_cut_at_commas
           {| left_path_answer := "a.csv"; right_path_answer := "b.csv";
              delimiter_answer := ";"; result_path_answer := "out";
              primary_keys_answer := "id, name" |}
           {| input_left_table_path := "a.csv";
              input_right_table_path := "b.csv";
              input_extension := "csv"; input_delimiter := Some ";";
              input_primary_keys := ["id"; " name"];
              input_result_path := "out" |}).
  reflexivity.
Defined.

(** ** Which attributes are set when a method returns *)

Lemma self_kept_bind {A B} (m : M A) (k : A -> M B) :
  self_kept m -> (forall a, self_kept (k a)) -> self_kept (bind m k).
Proof.
  intros Hm Hk s. unfold bind. specialize (Hm s).
  destruct (m s) as [[a|e] s1]; simpl in *; [|exact Hm].
  rewrite Hk. exact Hm.
Qed.

Lemma self_kept_get_self : self_kept get_self.
Proof. intros s; reflexivity. Qed.

Lemma self_kept_lift {A} (o : outcome A) : self_kept (lift o).
Proof. intros s; reflexivity. Qed.

Lemma self_kept_ret {A} (a : A) : self_kept (ret a).
Proof. intros s; reflexivity. Qed.

Lemma self_kept_load (l : loc) : self_kept (load l).
Proof. intros s; reflexivity. Qed.

Lemma self_kept_alloc (df : DataFrame) : self_kept (alloc df).
Proof. intros s; reflexivity. Qed.

Lemma self_kept_overwrite (l : loc) (df : DataFrame) : self_kept (overwrite l df).
Proof. intros s; reflexivity. Qed.

Lemma self_kept_attr {A} (field : TableComparator -> option A) (name : string) :
  self_kept (attr field name).
Proof. intros s. unfold attr. destruct (field (self s)); reflexivity. Qed.

Lemma self_kept_copy (l : loc) : self_kept (copy l).
Proof.
  unfold copy. apply self_kept_bind; [apply self_kept_load|].
  intros df. apply self_kept_alloc.
Qed.

Lemma self_kept_fillna_inplace (l : loc) (v : value) :
  self_kept (fillna_inplace l v).
Proof.
  unfold fillna_inplace. apply self_kept_bind; [apply self_kept_load|].
  intros df. apply self_kept_overwrite.
Qed.

Lemma self_kept_set_columns_inplace (l : loc) (labels : list string) :
  self_kept (set_columns_inplace l labels).
Proof.
  unfold set_columns_inplace. apply self_kept_bind; [apply self_kept_load|].
  intros df. apply self_kept_bind; [apply self_kept_lift|].
  intros df'. apply self_kept_overwrite.
Qed.

Create HintDb self_kept.
#[local] Hint Resolve self_kept_get_self self_kept_lift self_kept_ret
  self_kept_load self_kept_alloc self_kept_overwrite self_kept_attr
  self_kept_copy self_kept_fillna_inplace self_kept_set_columns_inplace
  : self_kept.

Ltac self_kept_steps :=
  repeat (apply self_kept_bind; [solve [auto with self_kept]|intros ?]);
  auto with self_kept.

Lemma self_kept_tagged_copy (tag : string) : self_kept (tagged_copy tag).
Proof. unfold tagged_copy. self_kept_steps. Qed.

Lemma self_kept_one_side (tag suffix : string) : self_kept (one_side tag suffix).
Proof.
  unfold one_side.
  apply self_kept_bind; [apply self_kept_get_self|]. intros me.
  apply self_kept_bind; [apply self_kept_tagged_copy|]. intros side.
  self_kept_steps.
Qed.

Lemma establishes_bind {A B} (P R Q : TableComparator -> Prop)
  (m : M A) (k : A -> M B) :
  establishes P m R -> (forall a, establishes R (k a) Q) ->
  establishes P (bind m k) Q.
Proof.
  intros Hm Hk s b s' HP Hrun. unfold bind in Hrun.
  destruct (m s) as [[a|e] s1] eqn:E; [|discriminate].
  exact (Hk a s1 b s' (Hm s a s1 HP E) Hrun).
Qed.

Lemma establishes_kept {A} (P : TableComparator -> Prop) (m : M A) :
  self_kept m -> establishes P m P.
Proof.
  intros Hm s a s' HP Hrun. specialize (Hm s). rewrite Hrun in Hm.
  simpl in Hm. rewrite Hm. exact HP.
Qed.

Lemma establishes_set_self (P Q : TableComparator -> Prop)
  (f : TableComparator -> TableComparator) :
  (forall o, P o -> Q (f o)) -> establishes P (set_self f) Q.
Proof.
  intros H s a s' HP Hrun. unfold set_self in Hrun.
  injection Hrun as _ <-. apply H. exact HP.
Qed.

Ltac kept_steps :=
  repeat (eapply establishes_bind;
          [apply establishes_kept; solve [auto with self_kept]|intros ?]).

Lemma split_sets_both_sides :
  establishes (fun _ => True) split_joined_table
    (fun o => left_only o <> None /\ right_only o <> None).
Proof.
  unfold split_joined_table.
  eapply establishes_bind;
    [apply establishes_kept; apply self_kept_one_side|intros lo].
  eapply establishes_bind with (R := fun o => left_only o <> None).
  { apply establishes_set_self. intros o _. discriminate. }
  intros _.
  eapply establishes_bind;
    [apply establishes_kept; apply self_kept_one_side|intros ro].
  eapply establishes_bind
    with (R := fun o => left_only o <> None /\ right_only o <> None).
  { apply establishes_set_self. intros o H. split; [exact H|discriminate]. }
  intros _.
  eapply establishes_bind;
    [apply establishes_kept; apply self_kept_tagged_copy|intros b].
  apply establishes_set_self. intros o H. exact H.
Qed.

Lemma compare_sets_comparison_df :
  establishes (fun o => left_only o <> None /\ right_only o <> None)
    compare_records_in_both
    (fun o => left_only o <> None /\ right_only o <> None /\
              comparison_df o <> None).
Proof.
  unfold compare_records_in_both. kept_steps.
  apply establishes_set_self. intros o [Hl Hr].
  repeat split; try assumption. discriminate.
Qed.

Lemma prepare_sets_the_frames :
  establishes (fun _ => True) prepare_results
    (fun o => left_only o <> None /\ right_only o <> None /\
              comparison_df o <> None).
Proof.
  unfold prepare_results.
  eapply establishes_bind with (R := fun _ => True).
  { intros s a s' _ _. exact I. }
  intros _.
  eapply establishes_bind with (R := fun _ => True).
  { intros s a s' _ _. exact I. }
  intros _.
  eapply establishes_bind; [apply split_sets_both_sides|]. intros _.
  apply compare_sets_comparison_df.
Qed.

Lemma visualize_sets_the_charts :
  establishes (fun o => left_only o <> None /\ right_only o <> None /\
                        comparison_df o <> None)
    visualize_results results_ready.
Proof.
  unfold visualize_results.
  eapply establishes_bind
    with (R := fun o => record_availability o <> None /\
                        left_only o <> None /\ right_only o <> None /\
                        comparison_df o <> None).
  - unfold visualize_record_availability. kept_steps.
    apply establishes_set_self. intros o (Hl & Hr & Hc).
    repeat split; try assumption. discriminate.
  - intros _. unfold visualize_record_consistency. kept_steps.
    apply establishes_set_self. intros o (Ha & Hl & Hr & Hc).
    unfold results_ready. repeat split; try assumption. discriminate.
Qed.

(** Once every attribute is set, [return_results] writes the five files. *)
Lemma return_results_ready (path_join : string -> string -> string)
  (result_path : string) (s : state) :
  results_ready (self s) ->
  exists pie bar lo ro c,
    return_results path_join result_path s
    = (result_files path_join result_path pie bar lo ro c, Ok tt).
Proof.
  intros (Ha & Hb & Hl & Hr & Hc). unfold return_results.
  destruct (record_availability (self s)) as [pie|]; [|congruence].
  destruct (record_consistency (self s)) as [bar|]; [|congruence].
  destruct (left_only (self s)) as [lo|]; [|congruence].
  destruct (right_only (self s)) as [ro|]; [|congruence].
  destruct (comparison_df (self s)) as [c|]; [|congruence].
  eexists; eexists; eexists; eexists; eexists. reflexivity.
Qed.

(** ** One pass of [main] *)


(** ** The reader *)

Lemma get_user_input_returns (a : answers) (ext : string) :
  retrieve_extension (left_path_answer a) (right_path_answer a) = Returned ext ->
  get_user_input a
  = Returned
      {| input_left_table_path := left_path_answer a;
         input_right_table_path := right_path_answer a;
         input_extension := ext;
         input_delimiter :=
           if mem ext ["csv"; "txt"] then Some (delimiter_answer a) else None;
         input_primary_keys := str_split comma (primary_keys_answer a);
         input_result_path := result_path_answer a |}.
Proof. intros H. unfold get_user_input. rewrite H. reflexivity. Qed.

(** X16. [TableReader.read] knows three extensions.  With any other one
    (also [CSV] in capitals, or a path without a dot) it returns without
    having read anything and without an error of its own, so the pass
    stops at [reader.left_table] with an [AttributeError], before any
    file is loaded or written. *)
Theorem an_unknown_extension_reads_nothing
  (read_excel : string -> outcome Table)
  (read_csv : string -> option string -> outcome Table)
  (path_join : string -> string -> string) (a : answers) (ext : string) :
  retrieve_extension (left_path_answer a) (right_path_answer a) = Returned ext ->
  ~ In ext ["xlsx"; "csv"; "txt"] ->
  (forall delimiter,
     Reader.read read_excel read_csv
       (Reader.init (left_path_answer a) (right_path_answer a) ext delimiter)
     = (Ok tt,
        Reader.init (left_path_answer a) (right_path_answer a) ext delimiter)) /\
  main_pass read_excel read_csv path_join a
  = ([], Raised (Propagated (AttributeError "left_table"))).
Proof.
  intros Hext Hunknown.
  assert (Hx : String.eqb ext "xlsx" = false).
  { destruct (String.eqb ext "xlsx") eqn:E; [|reflexivity].
    apply String.eqb_eq in E. exfalso. apply Hunknown. left; auto. }
  assert (Hc : mem ext ["csv"; "txt"] = false).
  { apply mem_false. intros H. apply Hunknown. right; exact H. }
  assert (Hread : forall delimiter,
     Reader.read read_excel read_csv
       (Reader.init (left_path_answer a) (right_path_answer a) ext delimiter)
     = (Ok tt,
        Reader.init (left_path_answer a) (right_path_answer a) ext delimiter)).
  { intros delimiter. unfold Reader.read, Reader.init.
    cbn [Reader.extension]. rewrite Hx. cbn [Reader.extension].
    rewrite Hc. reflexivity. }
  split; [exact Hread|].
  unfold main_pass. rewrite (get_user_input_returns a Hext).
  cbn [input_left_table_path input_right_table_path input_extension
       input_delimiter].
  rewrite Hread. reflexivity.
Qed.

Lemma an_unknown_extension_reads_nothing_witness :
  main_pass (fun _ => Raise (ValueError "read_excel"))
            (fun _ _ => Raise (ValueError "read_csv"))
            (fun d f => (d ++ "/" ++ f)%string)
            {| left_path_answer := "old.CSV"; right_path_answer := "new.CSV";
               delimiter_answer := ";"; result_path_answer := "out";
               primary_keys_answer := "id" |}
  = ([], Raised (Propagated (AttributeError "left_table"))).
Proof.
  apply (@an_unknown_extension_reads_nothing
           (fun _ => Raise (ValueError "read_excel"))
           (fun _ _ => Raise (ValueError "read_csv"))
           (fun d f => (d ++ "/" ++ f)%string)
           {| left_path_answer := "old.CSV"; right_path_answer := "new.CSV";
              delimiter_answer := ";"; result_path_answer := "out";
              primary_keys_answer := "id" |}
           "CSV").
  - reflexivity.
  - simpl. intuition discriminate.
Defined.

(** The reader on an extension it knows, when both files load. *)
Lemma read_known_extension
  (read_excel : string -> outcome Table)
  (read_csv : string -> option string -> outcome Table)
  (left_path right_path ext : string) (delimiter : option string)
  (l r : Table) :
  (ext = "xlsx" /\
   read_excel left_path = Ok l /\ read_excel right_path = Ok r) \/
  (In ext ["csv"; "txt"] /\
   read_csv left_path delimiter = Ok l /\
   read_csv right_path delimiter = Ok r) ->
  exists reader',
    Reader.read read_excel read_csv
      (Reader.init left_path right_path ext delimiter)
    = (Ok tt, reader') /\
    Reader.left_table reader' = Some l /\
    Reader.right_table reader' = Some r.
Proof.
  intros [(-> & Hl & Hr)|(Hext & Hl & Hr)].
  - eexists. unfold Reader.read, Reader.init, Reader.load_both.
    cbn [Reader.extension Reader.left_table_path Reader.right_table_path
         Reader.set_left Reader.set_right].
    rewrite String.eqb_refl, Hl.
    cbn [Reader.extension Reader.left_table_path Reader.right_table_path
         Reader.set_left Reader.set_right].
    rewrite Hr. cbv beta iota zeta.
    cbn [Reader.extension Reader.left_table_path Reader.right_table_path
         Reader.set_left Reader.set_right].
    change (mem "xlsx" ["csv"; "txt"]) with false. cbv iota.
    split; [reflexivity|]. split; reflexivity.
  - assert (Hx : String.eqb ext "xlsx" = false).
    { destruct Hext as [<-|[<-|[]]]; reflexivity. }
    eexists. unfold Reader.read, Reader.init, Reader.load_both.
    cbn [Reader.extension Reader.left_table_path Reader.right_table_path
         Reader.delimiter Reader.set_left Reader.set_right].
    rewrite Hx. cbv beta iota zeta.
    cbn [Reader.extension Reader.left_table_path Reader.right_table_path
         Reader.delimiter Reader.set_left Reader.set_right].
    rewrite (proj2 (mem_In _ _) Hext), Hl.
    cbn [Reader.extension Reader.left_table_path Reader.right_table_path
         Reader.delimiter Reader.set_left Reader.set_right].
    rewrite Hr.
    split; [reflexivity|]. split; reflexivity.
Qed.



(** ** The matched records *)

Section MatchedRecord.

Variables (l r : Table) (keys : list string).
Hypothesis Hwf : well_formed l r keys.
Hypothesis Hval : validated l r keys.

Local Abbreviation cols := (columns (frame l)).
Local Abbreviation j := (joined_frame (frame l) (frame r) keys).
Local Abbreviation nk := (Pandas.nonkeys keys cols).

(** The joined record of a left row and a right row. *)
Local Abbreviation paired lrow rrow :=
  (lrow ++ Pandas.nonkey_values cols keys rrow ++ [VStr "both"]).

Lemma plain_columns_of_join :
  columns j
  = Pandas.left_labels cols cols keys "_left_table"
    ++ Pandas.right_labels cols cols keys "_right_table" ++ ["_merge"].
Proof.
  unfold joined_frame. cbn [columns]. rewrite (wf_right_columns Hval).
  reflexivity.
Qed.

Lemma pair_in_both (lrow rrow : list value) :
  In lrow (rows (frame l)) -> In rrow (rows (frame r)) ->
  Pandas.key_of cols keys lrow = Pandas.key_of cols keys rrow ->
  In (paired lrow rrow) (rows (tagged "both" j)).
Proof.
  intros Hl Hr Hkey.
  pose proof (wf_merged Hwf Hval) as Hm.
  rewrite tagged_rows. apply filter_In. split.
  - unfold joined_frame. cbn [rows]. unfold Pandas.merge_rows.
    apply in_or_app. left. apply in_flat_map. exists lrow.
    split; [exact Hl|]. unfold Pandas.rows_of_left.
    rewrite (wf_right_columns Hval), Hkey.
    rewrite (@filter_unique_self _ (Pandas.key_of cols keys)
               (rows (frame r)) rrow).
    + left; reflexivity.
    + pose proof (validated_right_NoDup Hval) as H.
      unfold key_tuples in H. rewrite (wf_right_columns Hval) in H. exact H.
    + exact Hr.
  - rewrite app_assoc.
    rewrite (@is_tagged_built (frame l) (frame r) keys j Hm).
    + reflexivity.
    + apply left_body_length;
        [exact (wf_left_rectangular Hwf)|exact Hl|].
      rewrite <- (wf_right_columns Hval). apply nonkey_values_length.
Qed.

Lemma pair_key_cell (lrow rrow : list value) (k : string) :
  In lrow (rows (frame l)) -> In k keys ->
  Pandas.cell (columns j) (paired lrow rrow) k = Pandas.cell cols lrow k.
Proof.
  intros Hl Hk.
  apply (@joined_key_cell (frame l) (frame r) keys j (wf_merged Hwf Hval));
    [exact Hk|].
  exact (proj1 (Forall_forall _ _) (wf_left_rectangular Hwf) lrow Hl).
Qed.

Lemma pair_left_cell (lrow rrow : list value) (c : string) :
  In lrow (rows (frame l)) -> In c nk ->
  Pandas.cell (columns j) (paired lrow rrow) (c ++ "_left_table")
  = Pandas.cell cols lrow c.
Proof.
  intros Hrow Hc. apply (@nonkey_col cols keys) in Hc as [Hc Hk].
  assert (E : (c ++ "_left_table")%string
              = Pandas.suffixed keys cols "_left_table" c)
    by (rewrite (@suffixed_col cols keys "_left_table" c Hc), Hk; reflexivity).
  rewrite plain_columns_of_join.
  rewrite cell_app_l.
  - rewrite E. unfold Pandas.left_labels. apply cell_map_inj.
    intros x Hx.
    apply (@suffixed_left_inj cols keys (wf_columns_plain Hwf)); assumption.
  - rewrite E. apply in_map. exact Hc.
  - unfold Pandas.left_labels. rewrite length_map.
    exact (proj1 (Forall_forall _ _) (wf_left_rectangular Hwf) lrow Hrow).
Qed.

Lemma pair_right_cell (lrow rrow : list value) (c : string) :
  In lrow (rows (frame l)) -> In c nk ->
  Pandas.cell (columns j) (paired lrow rrow) (c ++ "_right_table")
  = Pandas.cell cols rrow c.
Proof.
  intros Hrow Hc.
  rewrite plain_columns_of_join.
  rewrite cell_app_r.
  - rewrite cell_app_l.
    + rewrite (@right_labels_plain cols keys). unfold Pandas.nonkey_values.
      apply (@cell_map_both (fun c => (c ++ "_right_table")%string)
               (Pandas.cell cols rrow) nk c); [|assumption].
      intros x _ E. apply string_app_inv_tail in E. exact E.
    + rewrite (@right_labels_plain cols keys).
      apply (in_map (fun c => (c ++ "_right_table")%string)). exact Hc.
    + unfold Pandas.nonkey_values, Pandas.right_labels.
      rewrite !length_map. reflexivity.
  - intros Hin.
    apply (@left_label_has_no_right cols keys (wf_columns_plain Hwf)) in Hin.
    rewrite contains_suffix in Hin. discriminate.
  - unfold Pandas.left_labels. rewrite length_map.
    exact (proj1 (Forall_forall _ _) (wf_left_rectangular Hwf) lrow Hrow).
Qed.

End MatchedRecord.



(** ** The two tables the other way round *)

Lemma dtypes_eq_sym (a b : list dtype) :
  all (dtypes_eq a b) = all (dtypes_eq b a).
Proof.
  revert b; induction a as [|x a IH]; intros [|y b]; try reflexivity.
  unfold all, dtypes_eq in *. cbn [combine map forallb fst snd].
  rewrite IH. f_equal. destruct x, y; reflexivity.
Qed.

Lemma validated_sym (l r : Table) (keys : list string) :
  validated l r keys -> validated r l keys.
Proof.
  intros H. constructor.
  - symmetry. exact (same_columns H).
  - rewrite dtypes_eq_sym. exact (same_dtypes H).
  - rewrite <- (same_columns H). exact (keys_present H).
  - exact (right_unique H).
  - exact (left_unique H).
Qed.

Lemma well_formed_sym (l r : Table) (keys : list string) :
  well_formed l r keys -> validated l r keys -> well_formed r l keys.
Proof.
  intros Hwf Hv. constructor.
  - exact (wf_right_rectangular Hwf).
  - exact (wf_left_rectangular Hwf).
  - rewrite <- (same_columns Hv). exact (wf_columns_unique Hwf).
  - rewrite <- (same_columns Hv). exact (wf_columns_plain Hwf).
  - exact (wf_keys_unique Hwf).
Qed.

Lemma matched_left_unmatched_right (l r : DataFrame) (keys : list string)
  (row : list value) :
  negb (matched_left l r keys row) = Pandas.unmatched_right r l keys row.
Proof.
  unfold matched_left, Pandas.unmatched_right, key_mem, key_tuples.
  f_equal. induction (rows r) as [|x xs IH]; [reflexivity|].
  cbn [map existsb]. rewrite IH. f_equal. apply key_eqb_sym.
Qed.

(** X19. Handing the two tables over the other way round swaps the two
    partitions and nothing else: for well-formed tables that pass
    validation, what is stored as [left_only] for (left, right) is what is
    stored as [right_only] for (right, left), and the other way round,
    and the number of matched records is the same. *)
Theorem swapping_the_tables_swaps_the_partitions
  (l r : Table) (keys : list string) :
  well_formed l r keys ->
  fst (validate_data_quality (init l r keys)) = Ok tt ->
  exists s s' b b',
    join_and_split (init l r keys) = (Ok tt, s) /\
    join_and_split (init r l keys) = (Ok tt, s') /\
    frame_of left_only s <> None /\
    frame_of right_only s <> None /\
    frame_of left_only s = frame_of right_only s' /\
    frame_of right_only s = frame_of left_only s' /\
    frame_of both s = Some b /\
    frame_of both s' = Some b' /\
    List.length (rows b) = List.length (rows b').
Proof.
  intros Hwf Hv. apply validated_iff in Hv.
  pose proof (validated_sym Hv) as Hv'.
  pose proof (well_formed_sym Hwf Hv) as Hwf'.
  exists (split_state l r keys (joined_frame (frame l) (frame r) keys)).
  exists (split_state r l keys (joined_frame (frame r) (frame l) keys)).
  eexists; eexists.
  split; [apply join_and_split_state; assumption|].
  split; [apply join_and_split_state; assumption|].
  unfold frame_of, split_state.
  cbn [self store left_only right_only both nth_error].
  split; [discriminate|]. split; [discriminate|].
  split.
  { rewrite (left_only_is_slice Hwf Hv), (right_only_is_slice Hwf' Hv').
    rewrite (same_columns Hv). do 2 f_equal.
    apply filter_ext. intros row. apply matched_left_unmatched_right. }
  split.
  { rewrite (right_only_is_slice Hwf Hv), (left_only_is_slice Hwf' Hv').
    rewrite (same_columns Hv). do 2 f_equal.
    apply filter_ext. intros row.
    symmetry. apply matched_left_unmatched_right. }
  split; [reflexivity|]. split; [reflexivity|].
  rewrite (matched_records_count Hwf Hv), (matched_records_count Hwf' Hv').
  unfold shared_keys.
  apply (shared_count_sym (validated_left_NoDup Hv) (validated_right_NoDup Hv)).
Qed.

Lemma swapping_the_tables_swaps_the_partitions_witness :
  exists s s',
    join_and_split (init Ex.scenario_left Ex.scenario_right ["id"])
    = (Ok tt, s) /\
    join_and_split (init Ex.scenario_right Ex.scenario_left ["id"])
    = (Ok tt, s') /\
    frame_of left_only s = frame_of right_only s' /\
    frame_of right_only s = frame_of left_only s'.
Proof.
  destruct (@swapping_the_tables_swaps_the_partitions
              Ex.scenario_left Ex.scenario_right ["id"])
    as (s & s' & b & b' & H1 & H2 & _ & _ & H3 & H4 & _).
  - constructor.
    + repeat constructor.
    + repeat constructor.
    + repeat constructor; simpl; intuition discriminate.
    + reflexivity.
    + repeat constructor; simpl; intuition discriminate.
  - reflexivity.
  - exists s, s'. repeat split; assumption.
Defined.

(** ** A pass that fails in validation *)

Lemma prepare_results_raises_with_validation (l r : Table)
  (keys : list string) (e : exn) :
  fst (validate_data_quality (init l r keys)) = Raise e ->
  prepare_results (init l r keys) = (Raise e, init l r keys).
Proof.
  intros H. unfold prepare_results. unfold bind at 1.
  rewrite validate_result, H. reflexivity.
Qed.

(** X20. An exception of the validation ends the pass as it is: when the
    two files load, whatever [validate_data_quality] raises for the loaded
    tables and the keys cut from the answer is what the pass raises, and
    no file is written. *)
Theorem a_failed_validation_ends_the_pass
  (read_excel : string -> outcome Table)
  (read_csv : string -> option string -> outcome Table)
  (path_join : string -> string -> string) (a : answers) (ext : string)
  (l r : Table) (e : exn) :
  retrieve_extension (left_path_answer a) (right_path_answer a) = Returned ext ->
  (ext = "xlsx" /\
   read_excel (left_path_answer a) = Ok l /\
   read_excel (right_path_answer a) = Ok r) \/
  (In ext ["csv"; "txt"] /\
   read_csv (left_path_answer a) (Some (delimiter_answer a)) = Ok l /\
   read_csv (right_path_answer a) (Some (delimiter_answer a)) = Ok r) ->
  fst (validate_data_quality
         (init l r (str_split comma (primary_keys_answer a)))) = Raise e ->
  main_pass read_excel read_csv path_join a = ([], Raised (Propagated e)).
Proof.
  intros Hext Hload Hv.
  unfold main_pass. rewrite (get_user_input_returns a Hext).
  cbn [input_left_table_path input_right_table_path input_extension
       input_delimiter input_primary_keys input_result_path].
  assert (Hload' :
    (ext = "xlsx" /\
     read_excel (left_path_answer a) = Ok l /\
     read_excel (right_path_answer a) = Ok r) \/
    (In ext ["csv"; "txt"] /\
     read_csv (left_path_answer a)
       (if mem ext ["csv"; "txt"] then Some (delimiter_answer a) else None)
     = Ok l /\
     read_csv (right_path_answer a)
       (if mem ext ["csv"; "txt"] then Some (delimiter_answer a) else None)
     = Ok r)).
  { destruct Hload as [H|(Hin & Hl & Hr)]; [left; exact H|right].
    rewrite (proj2 (mem_In _ _) Hin). auto. }
  destruct (read_known_extension read_excel read_csv _ _ _ Hload')
    as (reader' & -> & -> & ->).
  rewrite (prepare_results_raises_with_validation _ _ _ Hv). reflexivity.
Qed.

Lemma a_failed_validation_ends_the_pass_witness :
  main_pass (fun path =>
               if String.eqb path "old.xlsx" then Ok Ex.swapped_left
               else Ok Ex.swapped_right)
            (fun _ _ => Raise (ValueError "read_csv"))
            (fun d f => (d ++ "/" ++ f)%string)
            {| left_path_answer := "old.xlsx"; right_path_answer := "new.xlsx";
               delimiter_answer := EmptyString; result_path_answer := "out";
               primary_keys_answer := "id" |}
  = ([], Raised (Propagated (AssertionError "Columns names are inconsistent."))).
Proof.
  apply (@a_failed_validation_ends_the_pass
           (fun path =>
              if String.eqb path "old.xlsx" then Ok Ex.swapped_left
              else Ok Ex.swapped_right)
           (fun _ _ => Raise (ValueError "read_csv"))
           (fun d f => (d ++ "/" ++ f)%string)
           {| left_path_answer := "old.xlsx"; right_path_answer := "new.xlsx";
              delimiter_answer := EmptyString; result_path_answer := "out";
              primary_keys_answer := "id" |}
           "xlsx" Ex.swapped_left Ex.swapped_right).
  - reflexivity.
  - left. split; [reflexivity|]. split; reflexivity.
  - reflexivity.
Defined.

